(** * Metrics aggregation engine of the Alpha Tribe dashboard

    A shallow embedding of the [loadData] computations found in
    [src/src/FinancialDashboard.js], [src/src/App.js] and the two further
    revisions of the dashboard component ([src/unnamed/part_001],
    [src/unnamed/part_002]), followed by the properties of the
    specification that are settled on them.

    Conventions of the embedding:
    - a JavaScript Number is an IEEE 754 binary64 value, here the kernel's
      primitive [float] (round to nearest, ties to even, as in JavaScript);
    - a sheet is what [XLSX.utils.sheet_to_json(sheet, {raw: false})]
      returns: a list of rows, each row an object from column names to
      formatted text, here [gmap string string]; a missing property reads
      as [None] (JavaScript's [undefined]);
    - a string is a sequence of code units below 256;
    - a [Date] is its time value: an integral number of milliseconds since
      the epoch, or no number at all for an invalid date ([option Z]);
    - a call that can throw returns a [completion]. *)

From Stdlib Require Import ZArith List String Ascii Bool Lia.
From Stdlib Require Import Floats.
From stdpp Require Import base option list gmap strings.

Set Warnings "-inexact-float".

Local Open Scope string_scope.
Local Open Scope Z_scope.

(** ** JavaScript values and built-in functions used by the engine *)

Module JS.

Abbreviation number := float.

(** Rows of a sheet. *)
Abbreviation row := (gmap string string).
Abbreviation sheet := (list (gmap string string)).

(** [ToBoolean] on a property that holds a string or is missing. *)
Definition truthy (c : option string) : bool :=
  match c with
  | Some EmptyString => false
  | Some _ => true
  | None => false
  end.

(** The strings that [c || 0] hands to [parseFloat] or [parseInt]: the cell
    itself when truthy, else the number 0, whose [ToString] is "0". *)
Definition or_zero (c : option string) : string :=
  match c with
  | Some s => if truthy c then s else "0"
  | None => "0"
  end.

(** [c || ''], as in [new Date(user['Last Transaction'] || '')]. *)
Definition or_empty (c : option string) : string :=
  match c with
  | Some s => s
  | None => ""
  end.

(** Abrupt and normal completion of a call. *)
Inductive js_error : Type :=
  | TypeError (msg : string)
  | ReferenceError (msg : string)
  | Error (msg : string).

Inductive completion (A : Type) : Type :=
  | Return (a : A)
  | Throw (e : js_error).
Arguments Return {A} a.
Arguments Throw {A} e.

#[export] Instance completion_ret : MRet completion := fun A a => Return a.
#[export] Instance completion_bind : MBind completion := fun A B k c =>
  match c with
  | Return a => k a
  | Throw e => Throw e
  end.

(** *** Decimal text to Number *)

(** White space and line terminators with a code below 256. *)
Definition is_white (a : ascii) : bool :=
  let n := Z.of_N (N_of_ascii a) in
  ((9 <=? n) && (n <=? 13)) || (n =? 32) || (n =? 160).

Fixpoint trim_start (s : string) : string :=
  match s with
  | String a s' => if is_white a then trim_start s' else s
  | EmptyString => s
  end.

Definition digit_val (a : ascii) : option Z :=
  let n := Z.of_N (N_of_ascii a) in
  if (48 <=? n) && (n <=? 57) then Some (n - 48) else None.

(** The longest run of decimal digits at the head of [s]: its value on top
    of [acc], the number of digits read on top of [cnt], and the rest. *)
Fixpoint read_digits (acc cnt : Z) (s : string) : Z * Z * string :=
  match s with
  | String a s' =>
      match digit_val a with
      | Some d => read_digits (10 * acc + d) (cnt + 1) s'
      | None => (acc, cnt, s)
      end
  | EmptyString => (acc, cnt, s)
  end.

(** The Number nearest to [n / d] (ties to even), for [0 <= n], [0 < d];
    [neg] is the sign. The quotient is taken with at least 54 bits and
    the remainder decides the rounding direction. *)
Definition round_ratio (neg : bool) (n d : Z) : number :=
  if n =? 0 then (if neg then neg_zero else zero)
  else
    let s := Z.max 0 (54 + Z.log2 d - Z.log2 n) in
    let q := (n * 2 ^ s) / d in
    let r := (n * 2 ^ s) mod d in
    let loc := if r =? 0 then loc_Exact else loc_Inexact (2 * r ?= d) in
    SF2Prim (binary_round_aux prec emax neg q (- s) loc).

(** The Number for the decimal [m * 10 ^ e]. *)
Definition of_decimal (neg : bool) (m e : Z) : number :=
  if 0 <=? e then round_ratio neg (m * 10 ^ e) 1
  else round_ratio neg m (10 ^ (- e)).

Definition read_sign (s : string) : bool * string :=
  match s with
  | String "-" s' => (true, s')
  | String "+" s' => (false, s')
  | _ => (false, s)
  end.

(** [ExponentPart]: [e] or [E], an optional sign, at least one digit;
    0 when the text at [s] is not an exponent part. *)
Definition read_exponent (s : string) : Z :=
  match s with
  | String c s' =>
      if (Ascii.eqb c "e" || Ascii.eqb c "E")%bool then
        let '(neg, s'') := read_sign s' in
        let '(v, cnt, _) := read_digits 0 0 s'' in
        if cnt =? 0 then 0 else if neg then - v else v
      else 0
  | EmptyString => 0
  end.

(** [parseFloat(string)]: leading white space is skipped, then the longest
    prefix that is a [StrDecimalLiteral] is converted; [NaN] when there is
    none. *)
Definition parseFloat (input : string) : number :=
  let '(neg, s) := read_sign (trim_start input) in
  if String.prefix "Infinity" s then (if neg then neg_infinity else infinity)
  else
    let '(ip, icnt, s1) := read_digits 0 0 s in
    match s1 with
    | String "." s2 =>
        let '(m, fcnt, s3) := read_digits ip 0 s2 in
        if (icnt =? 0) && (fcnt =? 0) then nan
        else of_decimal neg m (read_exponent s3 - fcnt)
    | _ =>
        if icnt =? 0 then nan
        else of_decimal neg ip (read_exponent s1)
    end.

(** [parseInt(string, 10)]. *)
Definition parseInt (input : string) : number :=
  let '(neg, s) := read_sign (trim_start input) in
  let '(v, cnt, _) := read_digits 0 0 s in
  if cnt =? 0 then nan else round_ratio neg v 1.

(** [parseInt(string)] without a radix: base 16 after [0x] or [0X],
    base 10 otherwise. *)
Definition hex_val (a : ascii) : option Z :=
  let n := Z.of_N (N_of_ascii a) in
  if (48 <=? n) && (n <=? 57) then Some (n - 48)
  else if (97 <=? n) && (n <=? 102) then Some (n - 87)
  else if (65 <=? n) && (n <=? 70) then Some (n - 55)
  else None.

Fixpoint read_hex (acc cnt : Z) (s : string) : Z * Z * string :=
  match s with
  | String a s' =>
      match hex_val a with
      | Some d => read_hex (16 * acc + d) (cnt + 1) s'
      | None => (acc, cnt, s)
      end
  | EmptyString => (acc, cnt, s)
  end.

Definition parseIntAuto (input : string) : number :=
  let '(neg, s) := read_sign (trim_start input) in
  let hex :=
    match s with
    | String "0" (String x s') =>
        if (Ascii.eqb x "x" || Ascii.eqb x "X")%bool then Some s' else None
    | _ => None
    end in
  let '(v, cnt, _) :=
    match hex with
    | Some s' => read_hex 0 0 s'
    | None => read_digits 0 0 s
    end in
  if cnt =? 0 then nan else round_ratio neg v 1.

(** [s.replace(/,/g, '')]. *)
Fixpoint remove_commas (s : string) : string :=
  match s with
  | String a s' => if Ascii.eqb a "," then remove_commas s' else String a (remove_commas s')
  | EmptyString => EmptyString
  end.

(** The Number of a count of array elements (exact below 2^53). *)
Definition of_nat (n : nat) : number := round_ratio false (Z.of_nat n) 1.

(** [x > y] on Numbers. *)
Definition gt (x y : number) : bool := PrimFloat.ltb y x.

End JS.

Import JS.

(** ** Dates *)

Module Dates.

(** The time value of a [Date]; [None] is an invalid date, whose
    [ToNumber] is [NaN]. *)
Definition date := option Z.

Definition msPerDay : Z := 86400000.

(** Days from 1970-01-01 to the civil date [y]-[m]-[d] ([m] from 1). *)
Definition days_from_civil (y m d : Z) : Z :=
  let y' := if m <=? 2 then y - 1 else y in
  let era := y' / 400 in
  let yoe := y' - era * 400 in
  let mp := (m + 9) mod 12 in
  let doy := (153 * mp + 2) / 5 + d - 1 in
  let doe := yoe * 365 + yoe / 4 - yoe / 100 + doy in
  era * 146097 + doe - 719468.

(** [Date.UTC(year, monthIndex, day, hours, minutes, seconds)]. *)
Definition UTC (year monthIndex day hours minutes seconds : Z) : Z :=
  days_from_civil year (monthIndex + 1) day * msPerDay
  + hours * 3600000 + minutes * 60000 + seconds * 1000.

(** [new Date(year, monthIndex, day, hours, minutes, seconds)] reads its
    arguments in local time. [LocalTZA] is the host's offset of local
    time from UTC in milliseconds, as a function of the local time value:
    the offset in force at that local date and time, which in a zone with
    daylight saving or a change of rule differs from date to date. *)
Definition local (LocalTZA : Z -> Z) (year monthIndex day hours minutes seconds : Z) : date :=
  let t := UTC year monthIndex day hours minutes seconds in
  Some (t - LocalTZA t).

(** [d.setDate(d.getDate() - n)], in a zone whose offset from UTC is the
    same at both dates: the same local time of day, [n] days earlier. *)
Definition setDate_back (t : Z) (n : Z) : Z := t - n * msPerDay.

(** [a >= b] and [a <= b] on two [Date]s: both are converted to Numbers,
    and a comparison with [NaN] is false. *)
Definition ge (a b : date) : bool :=
  match a, b with
  | Some x, Some y => y <=? x
  | _, _ => false
  end.

Definition le (a b : date) : bool :=
  match a, b with
  | Some x, Some y => x <=? y
  | _, _ => false
  end.

(** A host's [new Date(string)] restricted to the one format every host
    must read, [YYYY-MM-DDTHH:mm:ss.sssZ]; other text is an invalid date
    here. It instantiates the host parser in the examples. *)
Definition fixed_digits (n : nat) (s : string) : option (Z * string) :=
  let '(v, cnt, _) := read_digits 0 0 (String.substring 0 n s) in
  if cnt =? Z.of_nat n then Some (v, String.substring n (String.length s - n) s) else None.

Definition expect (c : ascii) (s : string) : option string :=
  match s with
  | String a s' => if Ascii.eqb a c then Some s' else None
  | EmptyString => None
  end.

Definition parse_iso (s : string) : date :=
  '(y, s) ← fixed_digits 4 s; s ← expect "-" s;
  '(mo, s) ← fixed_digits 2 s; s ← expect "-" s;
  '(d, s) ← fixed_digits 2 s; s ← expect "T" s;
  '(h, s) ← fixed_digits 2 s; s ← expect ":" s;
  '(mi, s) ← fixed_digits 2 s; s ← expect ":" s;
  '(se, s) ← fixed_digits 2 s; s ← expect "." s;
  '(ms, s) ← fixed_digits 3 s;
  if String.eqb s "Z" then
    if (1 <=? mo) && (mo <=? 12) && (1 <=? d) && (d <=? 31)
       && (h <=? 23) && (mi <=? 59) && (se <=? 59)
    then Some (UTC y (mo - 1) d h mi se + ms) else None
  else None.

End Dates.

(** ** Records of the engine's output, shared by the revisions *)

(** A point of [monthlyTrends]. [month] is the row's [YearMonth] property,
    which a row may lack. *)
Record TrendPoint : Type := mkTrend {
  month : option string;
  transactions : number;
  revenue : number;
  users : number;
  volume : number
}.

(** A point of one of the three [growthRates] series: [{month, growth,
    users}], [{month, growth, revenue}] or [{month, growth, volume}].
    [growth] is [None] for JavaScript's [null]; [metric] is the third
    property, whose name depends on the series. *)
Record GrowthPoint : Type := mkGrowth {
  g_month : option string;
  growth : option number;
  metric : number
}.

Record GrowthRates : Type := mkRates {
  userSeries : list GrowthPoint;
  revenueSeries : list GrowthPoint;
  volumeSeries : list GrowthPoint
}.

(** An entry of [mtdGrowth]. *)
Record MtdEntry : Type := mkMtd {
  currency : string;
  transactionCountGrowth : number;
  currentTransactionCount : number;
  previousTransactionCount : number;
  transactionVolumeGrowth : number;
  currentTransactionVolume : number;
  previousTransactionVolume : number;
  volumeKES : number;
  previousVolumeKES : number;
  revenueGrowth : number;
  currentRevenue : number;
  previousRevenue : number;
  userGrowth : number;
  currentActiveUsers : number;
  previousActiveUsers : number
}.

(** The sheets [loadData] reads, each as [extractSheetData] returns it
    (a sheet the workbook lacks reads as the empty list). *)
Record workbook : Type := mkWorkbook {
  Wallet_Balances : sheet;
  Monthly_Transaction_Count : sheet;
  Monthly_Revenue : sheet;
  Monthly_Transaction_Volume : sheet;
  User_Statistics : sheet
}.

(** ** Helpers common to the revisions *)

Module Common.

(** The property [r.c] as text, for a call that is guarded by [if (r.c)]. *)
Definition cell (r : gmap string string) (c : string) : string := or_empty (r !! c).

(** [sheet.find(m => m.YearMonth === ym)]; [ym] may be [undefined]. *)
Definition find_ym (s : sheet) (ym : option string) : option (gmap string string) :=
  List.find (fun m => bool_decide (m !! "YearMonth" = ym)) s.

(** [item.YearMonth !== 'Total'], the filter of the trend series. *)
Definition notTotal (item : gmap string string) : bool :=
  negb (bool_decide (item !! "YearMonth" = Some "Total")).

(** [sheet.find(...) || {}]. *)
Definition find_ym_or_empty (s : sheet) (ym : option string) : gmap string string :=
  default ∅ (find_ym s ym).

(** The names every object inherits from [Object.prototype]. Reading one
    of them from the rates object gives a function (an object for
    [__proto__]): a truthy value whose [ToNumber] is [NaN]. *)
Definition inherited : list string :=
  [ "constructor"; "__proto__"; "hasOwnProperty"; "isPrototypeOf";
    "propertyIsEnumerable"; "toLocaleString"; "toString"; "valueOf";
    "__defineGetter__"; "__defineSetter__"; "__lookupGetter__"; "__lookupSetter__" ].

(** [ToBoolean(rates[c])]: a rate that is neither 0 nor [NaN], or an
    inherited property. *)
Definition truthy_rate (rates : gmap string number) (c : string) : bool :=
  match rates !! c with
  | Some v => negb (PrimFloat.eqb v 0 || PrimFloat.is_nan v)
  | None => bool_decide (c ∈ inherited)
  end.

(** [transformForLogScale]: [if (newItem[key] <= 0) newItem[key] = 0.1]. *)
Definition log_floor (x : number) : number :=
  if PrimFloat.leb x 0 then 0.1%float else x.

Definition transformTrends (l : list TrendPoint) : list TrendPoint :=
  map (fun p => mkTrend (month p) (log_floor (transactions p)) (log_floor (revenue p))
                        (log_floor (users p)) (log_floor (volume p))) l.

Definition transformGrowth (l : list GrowthPoint) : list GrowthPoint :=
  map (fun p => mkGrowth (g_month p) (growth p) (log_floor (metric p))) l.

(** The exchange rates to KES every revision configures. *)
Definition exchangeRates : gmap string number :=
  {[ "UGX" := (1 / 28.4659)%float;
     "NGN" := (1 / 11.59)%float;
     "USD" := 129.3827%float;
     "CNY" := 17.80%float ]}.

(** [rates.c] inside an arithmetic expression: a missing property is
    [undefined], whose [ToNumber] is [NaN], as is that of an inherited
    property. *)
Definition rate (rates : gmap string number) (c : string) : number :=
  default nan (rates !! c).

(** The conversion of a [Monthly_Revenue] (or volume) row to KES:
<<
  let revKES = 0;
  if (revRow.KES) revKES += parseFloat(revRow.KES);
  if (revRow.NGN) revKES += parseFloat(revRow.NGN) * exchangeRates.NGN;
  if (revRow.UGX) revKES += parseFloat(revRow.UGX) * exchangeRates.UGX;
  if (revRow.USD) revKES += parseFloat(revRow.USD) * exchangeRates.USD;
  if (revRow.CNY) revKES += parseFloat(revRow.CNY) * exchangeRates.CNY;
>> *)
Definition rowToKES (rates : gmap string number) (r : gmap string string) : number :=
  let t := 0%float in
  let t := if truthy (r !! "KES") then (t + parseFloat (cell r "KES"))%float else t in
  let t := if truthy (r !! "NGN") then (t + parseFloat (cell r "NGN") * rate rates "NGN")%float else t in
  let t := if truthy (r !! "UGX") then (t + parseFloat (cell r "UGX") * rate rates "UGX")%float else t in
  let t := if truthy (r !! "USD") then (t + parseFloat (cell r "USD") * rate rates "USD")%float else t in
  let t := if truthy (r !! "CNY") then (t + parseFloat (cell r "CNY") * rate rates "CNY")%float else t in
  t.

(** One point of a month-over-month series:
    [(prev.x > 0) ? ((curr.x - prev.x) / prev.x) * 100 : null]. *)
Definition momGrowth (curr prev : number) : option number :=
  if gt prev 0 then Some (((curr - prev) / prev) * 100)%float else None.

(** The three objects pushed by one turn of the growth loop. *)
Definition userPoint (prev curr : TrendPoint) : GrowthPoint :=
  mkGrowth (month curr) (momGrowth (users curr) (users prev)) (users curr).
Definition revenuePoint (prev curr : TrendPoint) : GrowthPoint :=
  mkGrowth (month curr) (momGrowth (revenue curr) (revenue prev)) (revenue curr).
Definition volumePoint (prev curr : TrendPoint) : GrowthPoint :=
  mkGrowth (month curr) (momGrowth (volume curr) (volume prev)) (volume curr).

(** The loop
<<
  for (let i = 1; i < trends.length; i++) {
    const prev = trends[i - 1]; const curr = trends[i];
    growthRatesRaw.user.push({month: curr.month, growth: userGrowth, users: curr.users});
    growthRatesRaw.revenue.push(...); growthRatesRaw.volume.push(...);
  }
>>
    Both indices are within the array at every turn. *)
Definition growthStep (trends : list TrendPoint) (acc : GrowthRates) (i : nat) : GrowthRates :=
  match trends !! (i - 1)%nat, trends !! i with
  | Some prev, Some curr =>
      mkRates (userSeries acc ++ [userPoint prev curr])
              (revenueSeries acc ++ [revenuePoint prev curr])
              (volumeSeries acc ++ [volumePoint prev curr])
  | _, _ => acc
  end.

Definition growthRatesOf (trends : list TrendPoint) : GrowthRates :=
  fold_left (growthStep trends) (seq 1 (length trends - 1)) (mkRates [] [] []).

Definition transformRates (g : GrowthRates) : GrowthRates :=
  mkRates (transformGrowth (userSeries g)) (transformGrowth (revenueSeries g)) (transformGrowth (volumeSeries g)).

(** [calcGrowth], identical in [FinancialDashboard.js] and [part_002]:
<<
  if (previous > 0) return ((current - previous) / previous) * 100;
  else if (current > 0) return 100;
  return 0;
>> *)
Definition calcGrowth (current previous : number) : number :=
  if gt previous 0 then (((current - previous) / previous) * 100)%float
  else if gt current 0 then 100%float
  else 0%float.

(** [activeByCurrency.c++] *)
Definition incr (c : string) (m : gmap string nat) : gmap string nat :=
  <[c := S (default 0%nat (m !! c))]> m.

(** [if (user.c && parseFloat(user.c) > 0) activeByCurrency.c++] *)
Definition countBalance (u : gmap string string) (c : string) (m : gmap string nat) : gmap string nat :=
  if truthy (u !! c) && gt (parseFloat (cell u c)) 0 then incr c m else m.

Definition currencies : list string := ["KES"; "UGX"; "NGN"; "USD"; "CNY"].

Section Host.

(** The host's [new Date(string)]. Which texts it reads beyond the ISO
    format, and in which zone, is left to the host. *)
Context (Date_parse : string -> Dates.date).

(** [getActiveUsersByCurrencyInRange], identical in
    [FinancialDashboard.js] and [part_002]. *)
Definition countUser (startDate endDate : Dates.date)
    (activeByCurrency : gmap string nat) (u : gmap string string) : gmap string nat :=
  let lastTx := u !! "Last Transaction" in
  if negb (truthy lastTx) then activeByCurrency
  else
    let lastTxDate := Date_parse (or_empty lastTx) in
    if Dates.ge lastTxDate startDate && Dates.le lastTxDate endDate then
      countBalance u "CNY" (countBalance u "USD" (countBalance u "NGN"
        (countBalance u "UGX" (countBalance u "KES" activeByCurrency))))
    else activeByCurrency.

Definition getActiveUsersByCurrencyInRange
    (walletBalances : sheet) (startDate endDate : Dates.date) : gmap string nat :=
  fold_left (countUser startDate endDate) walletBalances
    {[ "KES" := 0%nat; "UGX" := 0%nat; "NGN" := 0%nat; "USD" := 0%nat; "CNY" := 0%nat ]}.

(** [walletBalances.filter(user => { const d = new Date(user['Last Transaction'] || '');
    return d >= start && d <= end; }).length] *)
Definition distinctActive (walletBalances : sheet) (startDate endDate : Dates.date) : nat :=
  length (List.filter (fun u =>
    let d := Date_parse (or_empty (u !! "Last Transaction")) in
    Dates.ge d startDate && Dates.le d endDate) walletBalances).

End Host.

(** [totalUsers]: the [Value] of the 'Total Users' row of [User_Statistics]
    with its commas removed, or the number of wallet rows. Reading
    [.replace] of a missing [Value] throws. *)
Definition totalUsers (userStats walletBalances : sheet) : completion number :=
  match List.find (fun item => bool_decide (item !! "Metric" = Some "Total Users")) userStats with
  | Some userStatRow =>
      match userStatRow !! "Value" with
      | Some v => Return (parseInt (remove_commas v))
      | None => Throw (TypeError "Cannot read properties of undefined (reading 'replace')")
      end
  | None => Return (of_nat (length walletBalances))
  end.

End Common.

(** ** [src/src/FinancialDashboard.js]: rolling 30-day windows *)

Module FinancialDashboard.
Import Common.

Record KeyMetrics : Type := mkKey {
  totalRevenue : number;
  totalTransactions : number;
  totalUsersCount : number;
  activeUsers : number
}.

(** The argument of [setData]. [currencyData] is always the empty array
    and is left out. *)
Record Snapshot : Type := mkSnapshot {
  keyMetrics : KeyMetrics;
  monthlyTrends : list TrendPoint;
  mtdGrowth : list MtdEntry;
  growthRates : GrowthRates;
  rates : gmap string number
}.

(** The three readings of the clock ([new Date()]) that [loadData] takes,
    in the order it takes them. *)
Record Clock : Type := mkClock {
  read_endDateCurrent : Z;
  read_startDateCurrent : Z;
  read_startDatePrevious : Z
}.

Definition endDateCurrent (k : Clock) : Dates.date := Some (read_endDateCurrent k).
Definition startDateCurrent (k : Clock) : Dates.date :=
  Some (Dates.setDate_back (read_startDateCurrent k) 30).
(** [new Date(startDateCurrent)], commented in the source
    "previous window ends right before current window starts". *)
Definition endDatePrevious (k : Clock) : Dates.date := startDateCurrent k.
Definition startDatePrevious (k : Clock) : Dates.date :=
  Some (Dates.setDate_back (read_startDatePrevious k) 60).

(** [totalKesRevenue]: the 2025-02 row of [Monthly_Revenue] in KES. *)
Definition totalKesRevenue (monthlyRevenue : sheet) : number :=
  match find_ym monthlyRevenue (Some "2025-02") with
  | Some febRevenueRow => rowToKES exchangeRates febRevenueRow
  | None => 0%float
  end.

Definition totalTransactionsOf (monthlyTransactionCount : sheet) : number :=
  match find_ym monthlyTransactionCount (Some "2025-02") with
  | Some febCountRow => parseInt (or_zero (febCountRow !! "Total"))
  | None => 0%float
  end.

Definition trendPoint (wb : workbook) (item : gmap string string) : TrendPoint :=
  let ym := item !! "YearMonth" in
  let revRow := find_ym_or_empty (Monthly_Revenue wb) ym in
  let volRow := find_ym_or_empty (Monthly_Transaction_Volume wb) ym in
  let revKES := rowToKES exchangeRates revRow in
  let txCount := parseInt (or_zero (item !! "Total")) in
  let vol := parseFloat (or_zero (volRow !! "Total")) in
  mkTrend ym txCount revKES 0%float vol.

Definition monthlyTrendsRaw (wb : workbook) : list TrendPoint :=
  map (trendPoint wb) (List.filter notTotal (Monthly_Transaction_Count wb)).

Definition growthRatesRaw (wb : workbook) : GrowthRates :=
  growthRatesOf (monthlyTrendsRaw wb).

(** The volume of a currency in KES, as the MTD table reports it:
<<
  let currentVolKES = currentVol;
  if (currency !== 'KES') {
    if (exchangeRates[currency]) currentVolKES = currentVol * exchangeRates[currency];
  }
>> *)
Definition volKES (currency : string) (v : number) : number :=
  if negb (String.eqb currency "KES") then
    if truthy_rate exchangeRates currency
    then (v * rate exchangeRates currency)%float else v
  else v.

Definition mtdEntry (wb : workbook)
    (currentActiveByCurrency previousActiveByCurrency : gmap string nat)
    (currency : string) : MtdEntry :=
  let janTxRow := find_ym_or_empty (Monthly_Transaction_Count wb) (Some "2025-01") in
  let febTxRow := find_ym_or_empty (Monthly_Transaction_Count wb) (Some "2025-02") in
  let janVolRow := find_ym_or_empty (Monthly_Transaction_Volume wb) (Some "2025-01") in
  let febVolRow := find_ym_or_empty (Monthly_Transaction_Volume wb) (Some "2025-02") in
  let janRevRow := find_ym_or_empty (Monthly_Revenue wb) (Some "2025-01") in
  let febRevRow := find_ym_or_empty (Monthly_Revenue wb) (Some "2025-02") in
  let currentTx := parseFloat (or_zero (febTxRow !! currency)) in
  let prevTx := parseFloat (or_zero (janTxRow !! currency)) in
  let txGrowth := calcGrowth currentTx prevTx in
  let currentVol := parseFloat (or_zero (febVolRow !! currency)) in
  let prevVol := parseFloat (or_zero (janVolRow !! currency)) in
  let volGrowth := calcGrowth currentVol prevVol in
  let currentVolKES := volKES currency currentVol in
  let prevVolKES := volKES currency prevVol in
  let currentRev := parseFloat (or_zero (febRevRow !! currency)) in
  let prevRev := parseFloat (or_zero (janRevRow !! currency)) in
  let revGrowth := calcGrowth currentRev prevRev in
  let currActive := of_nat (default 0%nat (currentActiveByCurrency !! currency)) in
  let prevActive := of_nat (default 0%nat (previousActiveByCurrency !! currency)) in
  let userGrowth := calcGrowth currActive prevActive in
  mkMtd currency txGrowth currentTx prevTx
        volGrowth currentVol prevVol currentVolKES prevVolKES
        revGrowth currentRev prevRev
        userGrowth currActive prevActive.

Section Host.
Context (Date_parse : string -> Dates.date).

Definition currentActiveByCurrency (wb : workbook) (k : Clock) : gmap string nat :=
  getActiveUsersByCurrencyInRange Date_parse (Wallet_Balances wb)
    (startDateCurrent k) (endDateCurrent k).

Definition previousActiveByCurrency (wb : workbook) (k : Clock) : gmap string nat :=
  getActiveUsersByCurrencyInRange Date_parse (Wallet_Balances wb)
    (startDatePrevious k) (endDatePrevious k).

Definition distinctActiveUsers (wb : workbook) (k : Clock) : nat :=
  distinctActive Date_parse (Wallet_Balances wb) (startDateCurrent k) (endDateCurrent k).

Definition mtdGrowthData (wb : workbook) (k : Clock) : list MtdEntry :=
  map (mtdEntry wb (currentActiveByCurrency wb k) (previousActiveByCurrency wb k)) currencies.

(** [loadData], from the parsed sheets to the argument of [setData]; a
    throw is what the [catch] hands to [setError]. *)
Definition loadData (wb : workbook) (k : Clock) : completion Snapshot :=
  tu ← totalUsers (User_Statistics wb) (Wallet_Balances wb);
  mret (mkSnapshot
    (mkKey (totalKesRevenue (Monthly_Revenue wb))
           (totalTransactionsOf (Monthly_Transaction_Count wb))
           tu
           (of_nat (distinctActiveUsers wb k)))
    (transformTrends (monthlyTrendsRaw wb))
    (mtdGrowthData wb k)
    (transformRates (growthRatesRaw wb))
    exchangeRates).

End Host.

End FinancialDashboard.

(** ** [src/unnamed/part_002]: calendar-month windows, volumes in KES *)

Module Part002.
Import Common.

(** [convertToKES]:
<<
  if (!currency || currency === 'KES') return volume;
  return volume * (rates[currency] || 1);
>> *)
Definition convertToKES (volume : number) (currency : option string)
    (rates : gmap string number) : number :=
  match currency with
  | Some c =>
      if negb (truthy currency) || String.eqb c "KES" then volume
      else (volume * (if truthy_rate rates c then rate rates c else 1))%float
  | None => volume
  end.

Record KeyMetrics : Type := mkKey {
  totalRevenue : number;
  totalTransactions : number;
  totalUsersCount : number;
  activeUsers : number;
  activePrevUsers : number;
  overallUserGrowth : number;
  overallVolumeGrowth : number;
  overallRevenueGrowth : number;
  totalVolumeKES : number
}.

Record Snapshot : Type := mkSnapshot {
  keyMetrics : KeyMetrics;
  monthlyTrends : list TrendPoint;
  mtdGrowth : list MtdEntry;
  growthRates : GrowthRates;
  rates : gmap string number
}.

(** The four bounds, built from local date components; each is read
    with the offset that [LocalTZA] gives at its own date. *)
Definition febStart (LocalTZA : Z -> Z) : Dates.date := Dates.local LocalTZA 2025 1 1 0 0 0.
Definition febEnd (LocalTZA : Z -> Z) : Dates.date := Dates.local LocalTZA 2025 1 28 23 59 59.
Definition janStart (LocalTZA : Z -> Z) : Dates.date := Dates.local LocalTZA 2025 0 1 0 0 0.
Definition janEnd (LocalTZA : Z -> Z) : Dates.date := Dates.local LocalTZA 2025 0 31 23 59 59.

Definition totalKesRevenue (monthlyRevenue : sheet) : number :=
  match find_ym monthlyRevenue (Some "2025-02") with
  | Some febRevenueRow => rowToKES exchangeRates febRevenueRow
  | None => 0%float
  end.

Definition totalTransactionsOf (monthlyTransactionCount : sheet) : number :=
  match find_ym monthlyTransactionCount (Some "2025-02") with
  | Some febCountRow => parseFloat (or_zero (febCountRow !! "Total"))
  | None => 0%float
  end.

Definition trendPoint (wb : workbook) (item : gmap string string) : TrendPoint :=
  let ym := item !! "YearMonth" in
  let revRow := find_ym_or_empty (Monthly_Revenue wb) ym in
  let volRow := find_ym_or_empty (Monthly_Transaction_Volume wb) ym in
  let txCount := parseFloat (or_zero (item !! "Total")) in
  let revKES := rowToKES exchangeRates revRow in
  let volKES := rowToKES exchangeRates volRow in
  mkTrend ym txCount revKES 0%float volKES.

Definition monthlyTrendsRaw (wb : workbook) : list TrendPoint :=
  map (trendPoint wb) (List.filter notTotal (Monthly_Transaction_Count wb)).

Definition growthRatesRaw (wb : workbook) : GrowthRates :=
  growthRatesOf (monthlyTrendsRaw wb).

Definition mtdEntry (wb : workbook)
    (currentActiveByCurrency previousActiveByCurrency : gmap string nat)
    (currency : string) : MtdEntry :=
  let janTxRow := find_ym_or_empty (Monthly_Transaction_Count wb) (Some "2025-01") in
  let febTxRow := find_ym_or_empty (Monthly_Transaction_Count wb) (Some "2025-02") in
  let janVolRow := find_ym_or_empty (Monthly_Transaction_Volume wb) (Some "2025-01") in
  let febVolRow := find_ym_or_empty (Monthly_Transaction_Volume wb) (Some "2025-02") in
  let janRevRow := find_ym_or_empty (Monthly_Revenue wb) (Some "2025-01") in
  let febRevRow := find_ym_or_empty (Monthly_Revenue wb) (Some "2025-02") in
  let currentTx := parseFloat (or_zero (febTxRow !! currency)) in
  let prevTx := parseFloat (or_zero (janTxRow !! currency)) in
  let txGrowth := calcGrowth currentTx prevTx in
  let currentVol := parseFloat (or_zero (febVolRow !! currency)) in
  let prevVol := parseFloat (or_zero (janVolRow !! currency)) in
  let currentVolKES := convertToKES currentVol (Some currency) exchangeRates in
  let prevVolKES := convertToKES prevVol (Some currency) exchangeRates in
  let volGrowth := calcGrowth currentVolKES prevVolKES in
  let currentRev := parseFloat (or_zero (febRevRow !! currency)) in
  let prevRev := parseFloat (or_zero (janRevRow !! currency)) in
  let revGrowth := calcGrowth currentRev prevRev in
  let currActive := of_nat (default 0%nat (currentActiveByCurrency !! currency)) in
  let prevActive := of_nat (default 0%nat (previousActiveByCurrency !! currency)) in
  let userGrowth := calcGrowth currActive prevActive in
  mkMtd currency txGrowth currentTx prevTx
        volGrowth currentVol prevVol currentVolKES prevVolKES
        revGrowth currentRev prevRev
        userGrowth currActive prevActive.

(** [currencies.reduce((sum, currency) =>
      sum + convertToKES(parseFloat(row[currency] || 0), currency, exchangeRates), 0)] *)
Definition sumKES (r : gmap string string) : number :=
  fold_left (fun sum currency =>
    (sum + convertToKES (parseFloat (or_zero (r !! currency))) (Some currency) exchangeRates)%float)
    currencies 0%float.

Section Host.
Context (Date_parse : string -> Dates.date) (LocalTZA : Z -> Z).

Definition currentActiveByCurrency (wb : workbook) : gmap string nat :=
  getActiveUsersByCurrencyInRange Date_parse (Wallet_Balances wb) (febStart LocalTZA) (febEnd LocalTZA).

Definition previousActiveByCurrency (wb : workbook) : gmap string nat :=
  getActiveUsersByCurrencyInRange Date_parse (Wallet_Balances wb) (janStart LocalTZA) (janEnd LocalTZA).

Definition mtdGrowthData (wb : workbook) : list MtdEntry :=
  map (mtdEntry wb (currentActiveByCurrency wb) (previousActiveByCurrency wb)) currencies.

Definition loadData (wb : workbook) : completion Snapshot :=
  let distinctActiveUsers :=
    of_nat (distinctActive Date_parse (Wallet_Balances wb) (febStart LocalTZA) (febEnd LocalTZA)) in
  let distinctActiveUsersPrev :=
    of_nat (distinctActive Date_parse (Wallet_Balances wb) (janStart LocalTZA) (janEnd LocalTZA)) in
  tu ← totalUsers (User_Statistics wb) (Wallet_Balances wb);
  let janVolRow := find_ym_or_empty (Monthly_Transaction_Volume wb) (Some "2025-01") in
  let febVolRow := find_ym_or_empty (Monthly_Transaction_Volume wb) (Some "2025-02") in
  let janRevRow := find_ym_or_empty (Monthly_Revenue wb) (Some "2025-01") in
  let febRevRow := find_ym_or_empty (Monthly_Revenue wb) (Some "2025-02") in
  mret (mkSnapshot
    (mkKey (totalKesRevenue (Monthly_Revenue wb))
           (totalTransactionsOf (Monthly_Transaction_Count wb))
           tu
           distinctActiveUsers
           distinctActiveUsersPrev
           (calcGrowth distinctActiveUsers distinctActiveUsersPrev)
           (calcGrowth (sumKES febVolRow) (sumKES janVolRow))
           (calcGrowth (sumKES febRevRow) (sumKES janRevRow))
           (sumKES febVolRow))
    (transformTrends (monthlyTrendsRaw wb))
    (mtdGrowthData wb)
    (transformRates (growthRatesRaw wb))
    exchangeRates).

End Host.

End Part002.


(** ** [src/src/App.js]

    In this revision [workbook] is never bound ([XLSX.read] is not
    called), so [extractSheetData] throws a [ReferenceError] at its first
    call and [loadData] reaches none of the code below. The fragments are
    embedded as functions of the sheets they would read. *)

Module App.
Import Common.

(** The property key of [exchangeRates[currency]]: [undefined] is
    converted to the string "undefined". *)
Definition key (currency : option string) : string := default "undefined" currency.

(** One turn of
<<
  currencySummary.forEach(row => {
    const currency = row.Currency;
    const feeOriginal = parseFloat(row.Total_Fees_Original.replace(/,/g, ''));
    if (currency === 'KES') totalRevenueKES += feeOriginal;
    else if (exchangeRates[currency]) totalRevenueKES += feeOriginal * exchangeRates[currency];
  });
>> *)
Definition addFee (rates : gmap string number) (totalRevenueKES : number)
    (r : gmap string string) : completion number :=
  let currency := r !! "Currency" in
  match r !! "Total_Fees_Original" with
  | None => Throw (TypeError "Cannot read properties of undefined (reading 'replace')")
  | Some fee =>
      let feeOriginal := parseFloat (remove_commas fee) in
      if bool_decide (currency = Some "KES") then Return (totalRevenueKES + feeOriginal)%float
      else if truthy_rate rates (key currency)
        then Return (totalRevenueKES + feeOriginal * rate rates (key currency))%float
      else Return totalRevenueKES
  end.

Fixpoint totalRevenueFrom (rates : gmap string number) (acc : number)
    (currencySummary : sheet) : completion number :=
  match currencySummary with
  | [] => Return acc
  | r :: rest => acc' ← addFee rates acc r; totalRevenueFrom rates acc' rest
  end.

Definition totalRevenueKES (currencySummary : sheet) : completion number :=
  totalRevenueFrom exchangeRates 0%float currencySummary.

(** A point of [rawMonthlyTrends]. *)
Definition trendPoint (monthlyRevenue monthlyActiveUsers monthlyVolume : sheet)
    (item : gmap string string) : TrendPoint :=
  let yearMonth := item !! "YearMonth" in
  let revenueRow := find_ym monthlyRevenue yearMonth in
  let users := find_ym_or_empty monthlyActiveUsers yearMonth in
  let volume := find_ym_or_empty monthlyVolume yearMonth in
  let totalKESRevenue :=
    match revenueRow with
    | Some r => rowToKES exchangeRates r
    | None => 0%float
    end in
  mkTrend yearMonth (parseIntAuto (or_zero (item !! "Total"))) totalKESRevenue
          (parseIntAuto (or_zero (users !! "Total")))
          (parseFloat (or_zero (volume !! "Total"))).

Definition rawMonthlyTrends
    (monthlyTransactionCount monthlyRevenue monthlyActiveUsers monthlyVolume : sheet)
    : list TrendPoint :=
  map (trendPoint monthlyRevenue monthlyActiveUsers monthlyVolume)
      (List.filter notTotal monthlyTransactionCount).

Definition rawGrowthRates
    (monthlyTransactionCount monthlyRevenue monthlyActiveUsers monthlyVolume : sheet)
    : GrowthRates :=
  growthRatesOf (rawMonthlyTrends monthlyTransactionCount monthlyRevenue
                                  monthlyActiveUsers monthlyVolume).

End App.

(** ** [src/unnamed/part_001]: fragments *)

Module Part001.
Import Common.

(** [keyMetrics.totalRevenue]: the 2025-02 row of [Monthly_Revenue], with
    the rates written in place:
<<
  if (febData.KES && febData.KES !== "") total += parseFloat(febData.KES);
  if (febData.NGN && febData.NGN !== "") total += parseFloat(febData.NGN) / 11.59;
  if (febData.UGX && febData.UGX !== "") total += parseFloat(febData.UGX) / 28.4659;
  if (febData.USD && febData.USD !== "") total += parseFloat(febData.USD) * 129.3827;
  if (febData.CNY && febData.CNY !== "") total += parseFloat(febData.CNY) * 17.80;
>>
    The key metric keeps its initial 0 when there is no such row. *)
Definition febToKES (febData : gmap string string) : number :=
  let t := 0%float in
  let t := if truthy (febData !! "KES") then (t + parseFloat (cell febData "KES"))%float else t in
  let t := if truthy (febData !! "NGN") then (t + parseFloat (cell febData "NGN") / 11.59)%float else t in
  let t := if truthy (febData !! "UGX") then (t + parseFloat (cell febData "UGX") / 28.4659)%float else t in
  let t := if truthy (febData !! "USD") then (t + parseFloat (cell febData "USD") * 129.3827)%float else t in
  let t := if truthy (febData !! "CNY") then (t + parseFloat (cell febData "CNY") * 17.80)%float else t in
  t.

Definition totalRevenue (monthlyRevenue : sheet) : number :=
  match find_ym monthlyRevenue (Some "2025-02") with
  | Some febData => febToKES febData
  | None => 0%float
  end.

(** [if (user.c && user.c !== '0.00 c' && user.c !== '0.00') activeUsersByCurrency.c++] *)
Definition nonZeroText (u : gmap string string) (c : string) : bool :=
  truthy (u !! c)
  && negb (bool_decide (u !! c = Some ("0.00 " ++ c)))
  && negb (bool_decide (u !! c = Some "0.00")).

Definition countNonZero (u : gmap string string) (c : string) (m : gmap string nat) : gmap string nat :=
  if nonZeroText u c then incr c m else m.

(** One turn of [activeUsers.forEach]: a user with a positive
    'Transaction Count' counts toward KES ("For simplicity, we'll count a
    user as active in KES if they have any transactions"), and then
    toward every currency whose balance is not a zero text. *)
Definition countActive (m : gmap string nat) (u : gmap string string) : gmap string nat :=
  if truthy (u !! "Transaction Count")
     && gt (parseIntAuto (cell u "Transaction Count")) 0
  then countNonZero u "CNY" (countNonZero u "USD" (countNonZero u "NGN"
         (countNonZero u "UGX" (countNonZero u "KES" (incr "KES" m)))))
  else m.

Section Host.
Context (Date_parse : string -> Dates.date).

(** [walletBalances.filter(user => user['Last Transaction'] &&
      new Date(user['Last Transaction']) >= thirtyDaysAgo)] *)
Definition activeUsers (walletBalances : sheet) (thirtyDaysAgo : Dates.date) : sheet :=
  List.filter (fun u =>
    truthy (u !! "Last Transaction")
    && Dates.ge (Date_parse (cell u "Last Transaction")) thirtyDaysAgo) walletBalances.

Definition activeUsersByCurrency (walletBalances : sheet) (thirtyDaysAgo : Dates.date)
    : gmap string nat :=
  fold_left countActive (activeUsers walletBalances thirtyDaysAgo)
    {[ "KES" := 0%nat; "UGX" := 0%nat; "NGN" := 0%nat; "USD" := 0%nat; "CNY" := 0%nat ]}.

End Host.

End Part001.

(** ** Sample snapshots *)

Module Inputs.

Definition obj (l : list (string * string)) : gmap string string := list_to_map l.

(** The scenario of the specification: KES revenue 1,000,000 in 2025-01;
    KES revenue 1,200,000 and USD revenue 1,000 in 2025-02. *)
Definition scenario : workbook :=
  mkWorkbook
    []
    [ obj [("YearMonth", "2025-01"); ("KES", "40"); ("Total", "40")];
      obj [("YearMonth", "2025-02"); ("KES", "50"); ("USD", "2"); ("Total", "52")] ]
    [ obj [("YearMonth", "2025-01"); ("KES", "1000000")];
      obj [("YearMonth", "2025-02"); ("KES", "1200000"); ("USD", "1000")] ]
    []
    [].

(** No revenue in 2025-01, KES revenue 50 in 2025-02. *)
Definition zero_baseline : workbook :=
  mkWorkbook
    []
    [ obj [("YearMonth", "2025-01"); ("Total", "3")];
      obj [("YearMonth", "2025-02"); ("Total", "4")] ]
    [ obj [("YearMonth", "2025-02"); ("KES", "50")] ]
    []
    [].

(** The revenue row of 2025-02 carries, beside KES, a column of a
    currency that has no configured rate. *)
Definition february_with_gbp : gmap string string :=
  obj [("YearMonth", "2025-02"); ("KES", "100"); ("GBP", "50")].

Definition unsupported_column : workbook :=
  mkWorkbook
    []
    [ obj [("YearMonth", "2025-02"); ("Total", "4")] ]
    [ february_with_gbp ]
    []
    [].

(** The period 2025-01 on two rows. *)
Definition repeated_period : workbook :=
  mkWorkbook
    []
    [ obj [("YearMonth", "2025-01"); ("Total", "5")];
      obj [("YearMonth", "2025-01"); ("Total", "7")];
      obj [("YearMonth", "Total"); ("Total", "12")] ]
    []
    []
    [].

(** A [Currency_Summary] sheet whose only row is in a currency without a
    configured rate. *)
Definition unknown_fee : sheet :=
  [ obj [("Currency", "XYZ"); ("Total_Fees_Original", "100")] ].

(** One wallet, last used on 2025-02-10, holding KES. *)
Definition one_wallet : workbook :=
  mkWorkbook
    [ obj [("Last Transaction", "2025-02-10T12:00:00.000Z"); ("KES", "100.00")] ]
    [] [] [] [].

(** One wallet, last used on 2025-01-28 at noon, holding KES. *)
Definition boundary_wallet : workbook :=
  mkWorkbook
    [ obj [("Last Transaction", "2025-01-28T12:00:00.000Z"); ("KES", "100.00")] ]
    [] [] [] [].


(** The same wallet with the number of its transactions, as [part_001]
    reads it. *)
Definition ngn_only_transacting : gmap string string :=
  obj [("Last Transaction", "2025-02-10T12:00:00.000Z"); ("Transaction Count", "3");
       ("KES", "0.00"); ("UGX", "0.00 UGX"); ("NGN", "1500.00"); ("USD", "")].

(** [thirtyDaysAgo] of [part_001] for a clock reading 2025-02-27 at noon. *)
Definition thirtyDaysAgo_feb27 : Dates.date := Some (Dates.setDate_back 1740657600000 30).



Definition kes_holder : gmap string string :=
  obj [("Last Transaction", "2025-02-03T08:30:00.000Z"); ("KES", "20.00")].

(** East Africa Time, three hours ahead of UTC at every date. *)
Definition EAT : Z -> Z := fun _ => 10800000.

(** Some instant on 2025-02-27, read three times. *)
Definition noon_feb27 : FinancialDashboard.Clock :=
  FinancialDashboard.mkClock 1740657600000 1740657600000 1740657600000.

(** The same time of day 120 days later, on 2025-06-27. *)
Definition noon_jun27 : FinancialDashboard.Clock :=
  FinancialDashboard.mkClock 1751025600000 1751025600000 1751025600000.

End Inputs.

(** ** The statements of the specification, as predicates *)

Module Policy.
Import Common.

(** The growth percent the specification defines for a pair of values. *)
Definition formula (current previous : number) : number :=
  (((current - previous) / previous) * 100)%float.

Definition growth_rule (g current previous : number) : Prop :=
  (gt previous 0 = true -> g = formula current previous)
  /\ (PrimFloat.eqb previous 0 = true -> gt current 0 = true -> g = 100%float)
  /\ (PrimFloat.eqb previous 0 = true -> PrimFloat.eqb current 0 = true -> g = 0%float).

(** What the month-over-month loop stores instead: the formula over a
    positive baseline, [null] otherwise. *)
Definition mom_rule (g : option number) (current previous : number) : Prop :=
  (gt previous 0 = true -> g = Some (formula current previous))
  /\ (gt previous 0 = false -> g = None)
  /\ (PrimFloat.eqb previous 0 = true -> g = None).

(** The growth of every adjacent pair of trend points follows [mom_rule]
    in each of the three series. *)
Definition mom_series (t : list TrendPoint) (g : GrowthRates) : Prop :=
  forall i prev curr,
    t !! i = Some prev -> t !! S i = Some curr ->
    exists gu gr gv,
      userSeries g !! i = Some gu /\ revenueSeries g !! i = Some gr /\ volumeSeries g !! i = Some gv
      /\ mom_rule (growth gu) (users curr) (users prev)
      /\ mom_rule (growth gr) (revenue curr) (revenue prev)
      /\ mom_rule (growth gv) (volume curr) (volume prev).

(** The four growth percents of an MTD entry follow [growth_rule], the
    volume growth between the volumes in their own currency
    ([FinancialDashboard.js]) or between the volumes in KES ([part_002]). *)
Definition mtd_rule (e : MtdEntry) : Prop :=
  growth_rule (transactionCountGrowth e) (currentTransactionCount e) (previousTransactionCount e)
  /\ growth_rule (transactionVolumeGrowth e) (currentTransactionVolume e) (previousTransactionVolume e)
  /\ growth_rule (revenueGrowth e) (currentRevenue e) (previousRevenue e)
  /\ growth_rule (userGrowth e) (currentActiveUsers e) (previousActiveUsers e).

Definition mtd_rule_kes (e : MtdEntry) : Prop :=
  growth_rule (transactionCountGrowth e) (currentTransactionCount e) (previousTransactionCount e)
  /\ growth_rule (transactionVolumeGrowth e) (volumeKES e) (previousVolumeKES e)
  /\ growth_rule (revenueGrowth e) (currentRevenue e) (previousRevenue e)
  /\ growth_rule (userGrowth e) (currentActiveUsers e) (previousActiveUsers e).

(** Growth series [g] pairs up the adjacent points of the trend series
    [t]: the entry for the period at position [i] (the [i]-th entry, at
    offset [i - 1] of each array) carries that period's key, and its
    growth is the one that [mom_rule] prescribes from the value at
    position [i - 1] to the value at position [i]. *)
Definition pairs_adjacent (t : list TrendPoint) (g : GrowthRates) : Prop :=
  forall i, (1 <= i < length t)%nat ->
    exists prev curr gu gr gv,
      t !! (i - 1)%nat = Some prev /\ t !! i = Some curr
      /\ userSeries g !! (i - 1)%nat = Some gu
      /\ revenueSeries g !! (i - 1)%nat = Some gr
      /\ volumeSeries g !! (i - 1)%nat = Some gv
      /\ g_month gu = month curr /\ g_month gr = month curr /\ g_month gv = month curr
      /\ mom_rule (growth gu) (users curr) (users prev)
      /\ mom_rule (growth gr) (revenue curr) (revenue prev)
      /\ mom_rule (growth gv) (volume curr) (volume prev).

(** Each growth series is one entry shorter than the trend series. *)
Definition one_shorter (trends : list TrendPoint) (g : GrowthRates) : Prop :=
  length trends = S (length (userSeries g))
  /\ length trends = S (length (revenueSeries g))
  /\ length trends = S (length (volumeSeries g)).

(** The series [reported] is the series [t] with the floor of the charts
    applied: the same periods at the same positions, and at each
    position the value of [t] when that is positive, 0.1 when it is zero
    or less. *)
Definition floored (t reported : list TrendPoint) : Prop :=
  length reported = length t
  /\ forall i p, t !! i = Some p ->
       exists q, reported !! i = Some q
         /\ month q = month p
         /\ (gt (transactions p) 0 = true -> transactions q = transactions p)
         /\ (PrimFloat.leb (transactions p) 0 = true -> transactions q = 0.1%float)
         /\ (gt (revenue p) 0 = true -> revenue q = revenue p)
         /\ (PrimFloat.leb (revenue p) 0 = true -> revenue q = 0.1%float)
         /\ (gt (volume p) 0 = true -> volume q = volume p)
         /\ (PrimFloat.leb (volume p) 0 = true -> volume q = 0.1%float)
         /\ (gt (users p) 0 = true -> users q = users p)
         /\ (PrimFloat.leb (users p) 0 = true -> users q = 0.1%float).

(** The period keys of a transaction-count sheet, the "Total" row left
    out, and the number of distinct ones. *)
Definition periodKeys (s : sheet) : list string :=
  omap (fun r : gmap string string => r !! "YearMonth") (List.filter notTotal s).

Definition distinctPeriods (s : sheet) : nat := length (remove_dups (periodKeys s)).

(** The window test of the active-user counter on one wallet row. *)
Definition activeIn (Date_parse : string -> Dates.date) (startDate endDate : Dates.date)
    (u : gmap string string) : bool :=
  truthy (u !! "Last Transaction")
  && (Dates.ge (Date_parse (or_empty (u !! "Last Transaction"))) startDate
      && Dates.le (Date_parse (or_empty (u !! "Last Transaction"))) endDate).

(** The balance test of the counter: the text is not empty and its number
    is positive. *)
Definition holds (u : gmap string string) (c : string) : bool :=
  truthy (u !! c) && gt (parseFloat (cell u c)) 0.







(** The columns of a monthly row that hold no amount of a currency: the
    period key and the precomputed total. Every other column is named by
    a currency code. *)
Definition labels : list string := ["YearMonth"; "Total"].

(** [c] is a non-empty currency column of the row [r]. *)
Definition currencyColumn (r : gmap string string) (c : string) : Prop :=
  (c ∉ labels) /\ truthy (r !! c) = true.

(** The base currency, or a currency that has a rate in the table. *)
Definition configured (rates : gmap string number) (c : string) : Prop :=
  c = "KES" \/ is_Some (rates !! c).

(** Every non-empty currency column of [r] is of a configured currency. *)
Definition all_configured (rates : gmap string number) (r : gmap string string) : Prop :=
  forall c, currencyColumn r c -> configured rates c.

(** An amount converted once: the KES amount as it is, any other amount
    times the rate of its currency. *)
Definition converted (rates : gmap string number) (r : gmap string string) (c : string) : number :=
  if String.eqb c "KES" then parseFloat (cell r c)
  else (parseFloat (cell r c) * rate rates c)%float.

(** [total] is the sum of the amounts of the non-empty currency columns
    of [r], each converted by [conv] exactly once: the amounts are added
    from 0 along a list of columns in which every non-empty currency
    column of the row stands (none is omitted), none stands twice, and
    nothing else stands. *)
Definition sums_each_once (conv : gmap string string -> string -> number)
    (r : gmap string string) (total : number) : Prop :=
  exists cols : list string,
    NoDup cols
    /\ (forall c, c ∈ cols <-> currencyColumn r c)
    /\ total = fold_left (fun acc c => (acc + conv r c)%float) cols 0%float.

(** The total revenue [total], the trend points [raw] that the engine
    computes and the trend points [reported] that it hands to the charts:
    the total and the revenue of each computed point sum the non-empty
    currency columns of the revenue row of their period, each converted
    once; a reported point carries the computed revenue when that is
    positive and 0.1 when it is zero or less. *)
Definition converts_once (wb : workbook) (total : number) (raw reported : list TrendPoint) : Prop :=
  let row ym := find_ym_or_empty (Monthly_Revenue wb) ym in
  sums_each_once (converted exchangeRates) (row (Some "2025-02")) total
  /\ forall i item,
       List.filter notTotal (Monthly_Transaction_Count wb) !! i = Some item ->
       exists r p,
         raw !! i = Some r /\ reported !! i = Some p
         /\ month p = item !! "YearMonth"
         /\ sums_each_once (converted exchangeRates) (row (item !! "YearMonth")) (revenue r)
         /\ (gt (revenue r) 0 = true -> revenue p = revenue r)
         /\ (PrimFloat.leb (revenue r) 0 = true -> revenue p = 0.1%float).

(** The conversion of [part_001], which divides the NGN and UGX amounts
    by the KES price of one unit instead of multiplying by its inverse. *)
Definition converted001 (r : gmap string string) (c : string) : number :=
  if String.eqb c "KES" then parseFloat (cell r c)
  else if String.eqb c "NGN" then (parseFloat (cell r c) / 11.59)%float
  else if String.eqb c "UGX" then (parseFloat (cell r c) / 28.4659)%float
  else if String.eqb c "USD" then (parseFloat (cell r c) * 129.3827)%float
  else (parseFloat (cell r c) * 17.80)%float.

(** The fields of an MTD entry that are computed from the monthly sheets
    alone, without the wallet sheet and the clock. *)
Definition sheet_fields (e : MtdEntry) : string * list number :=
  (currency e,
   [ transactionCountGrowth e; currentTransactionCount e; previousTransactionCount e;
     transactionVolumeGrowth e; currentTransactionVolume e; previousTransactionVolume e;
     volumeKES e; previousVolumeKES e;
     revenueGrowth e; currentRevenue e; previousRevenue e ]).

(** The MTD entry of a currency whose every value is zero. *)
Definition zeroEntry (c : string) : MtdEntry :=
  mkMtd c 0%float 0%float 0%float 0%float 0%float 0%float 0%float 0%float
          0%float 0%float 0%float 0%float 0%float 0%float.

(** The currency [c] is a property of no row of the snapshot. *)
Definition absent (wb : workbook) (c : string) : Prop :=
  forall r : gmap string string,
    r ∈ (Wallet_Balances wb ++ Monthly_Transaction_Count wb
         ++ Monthly_Revenue wb ++ Monthly_Transaction_Volume wb)%list ->
    r !! c = None.

(** A table with one entry per supported currency, in the fixed order. *)
Definition five_currency_table (table : list MtdEntry) : Prop :=
  length table = 5%nat
  /\ map currency table = ["KES"; "UGX"; "NGN"; "USD"; "CNY"].

(** A call that ends by throwing. *)
Definition raises {A : Type} (c : completion A) : Prop := exists e, c = Throw e.

(** The count a breakdown holds for a currency. *)
Definition countOf (m : gmap string nat) (c : string) : nat := default 0%nat (m !! c).

End Policy.

(** ** The sum as the engine forms it

    A tool of the proofs about the totals: the columns that [rowToKES]
    and [febToKES] read, in the order in which they add them up, and the
    sum of the non-empty ones among them. *)

Module Summation.

Definition columns : list string := ["KES"; "NGN"; "UGX"; "USD"; "CNY"].

Definition sumNonEmpty (conv : gmap string string -> string -> number)
    (r : gmap string string) : number :=
  fold_left (fun acc c => (acc + conv r c)%float)
            (List.filter (fun c => truthy (r !! c)) columns) 0%float.

End Summation.
(** ** [src/unnamed/part_001]: the rest of [loadData] *)

Module Part001Data.
Import Common.

(** One turn of
<<
  userStats.forEach(item => {
    if (item.Metric === 'Total Users') {
      keyMetrics.totalUsers = parseInt(item.Value.replace(/,/g, ''));
    }
  });
>> *)
Definition setTotalUsers (totalUsers : number) (item : gmap string string) : completion number :=
  if bool_decide (item !! "Metric" = Some "Total Users") then
    match item !! "Value" with
    | Some v => Return (parseIntAuto (remove_commas v))
    | None => Throw (TypeError "Cannot read properties of undefined (reading 'replace')")
    end
  else Return totalUsers.

Fixpoint totalUsersFrom (totalUsers : number) (userStats : sheet) : completion number :=
  match userStats with
  | [] => Return totalUsers
  | item :: rest => t ← setTotalUsers totalUsers item; totalUsersFrom t rest
  end.

(** [keyMetrics.totalUsers], which starts at 0. *)
Definition totalUsers (userStats : sheet) : completion number :=
  totalUsersFrom 0%float userStats.

(** [data && data[currency] ? parseFloat(data[currency]) : 0], where
    [data] is the result of a [find]. *)
Definition amount (data : option (gmap string string)) (currency : string) : number :=
  match data with
  | Some r => if truthy (r !! currency) then parseFloat (cell r currency) else 0%float
  | None => 0%float
  end.

(** The volume in KES, with the rates written in place:
<<
  let currentVolumeKES = currentVolume;
  if (currency !== 'KES') {
    if (currency === 'UGX') currentVolumeKES = currentVolume / 28.4659;
    else if (currency === 'NGN') currentVolumeKES = currentVolume / 11.59;
    else if (currency === 'USD') currentVolumeKES = currentVolume * 129.3827;
    else if (currency === 'CNY') currentVolumeKES = currentVolume * 17.80;
  }
>> *)
Definition volumeToKES (currency : string) (v : number) : number :=
  if negb (String.eqb currency "KES") then
    if String.eqb currency "UGX" then (v / 28.4659)%float
    else if String.eqb currency "NGN" then (v / 11.59)%float
    else if String.eqb currency "USD" then (v * 129.3827)%float
    else if String.eqb currency "CNY" then (v * 17.80)%float
    else v
  else v.

(** [previousActiveUsersByCurrency[currency] || 0], where the object is
    filled from the 2025-01 row of [Monthly_Active_Users] with
    [parseInt(janActiveUsers[currency] || 0)] when there is such a row. *)
Definition previousActive (janActiveUsers : option (gmap string string))
    (currency : string) : number :=
  match janActiveUsers with
  | Some r =>
      if bool_decide (currency ∈ currencies) then
        let n := parseIntAuto (or_zero (r !! currency)) in
        if PrimFloat.eqb n 0 || PrimFloat.is_nan n then 0%float else n
      else 0%float
  | None => 0%float
  end.

(** An entry of [mtdGrowthData]; beside the fields of the later
    revisions it carries [exchangeRate]. The growth rates are written in
    place,
<<
  let revenueGrowth = 0;
  if (previousRevenue > 0) {
    revenueGrowth = ((currentRevenue - previousRevenue) / previousRevenue) * 100;
  } else if (currentRevenue > 0) {
    revenueGrowth = 100;
  }
>>
    which is the body of the later [calcGrowth]. *)
Record Entry : Type := mkEntry {
  fields : MtdEntry;
  exchangeRate : number
}.

Definition mtdEntry
    (monthlyTransactionCount monthlyRevenue monthlyVolume monthlyActiveUsers : sheet)
    (activeUsersByCurrency : gmap string nat) (currency : string) : Entry :=
  let febRevenueData := find_ym monthlyRevenue (Some "2025-02") in
  let janRevenueData := find_ym monthlyRevenue (Some "2025-01") in
  let febTransactionData := find_ym monthlyTransactionCount (Some "2025-02") in
  let janTransactionData := find_ym monthlyTransactionCount (Some "2025-01") in
  let febVolumeData := find_ym monthlyVolume (Some "2025-02") in
  let janVolumeData := find_ym monthlyVolume (Some "2025-01") in
  let currentRevenue := amount febRevenueData currency in
  let previousRevenue := amount janRevenueData currency in
  let currentTransCount := amount febTransactionData currency in
  let previousTransCount := amount janTransactionData currency in
  let currentVolume := amount febVolumeData currency in
  let previousVolume := amount janVolumeData currency in
  let currentVolumeKES := volumeToKES currency currentVolume in
  let previousVolumeKES := volumeToKES currency previousVolume in
  let revenueGrowth := calcGrowth currentRevenue previousRevenue in
  let transactionCountGrowth := calcGrowth currentTransCount previousTransCount in
  let transactionVolumeGrowth := calcGrowth currentVolume previousVolume in
  let currentActiveUsers := of_nat (default 0%nat (activeUsersByCurrency !! currency)) in
  let previousActiveUsers :=
    previousActive (find_ym monthlyActiveUsers (Some "2025-01")) currency in
  let userGrowth := calcGrowth currentActiveUsers previousActiveUsers in
  mkEntry
    (mkMtd currency transactionCountGrowth currentTransCount previousTransCount
           transactionVolumeGrowth currentVolume previousVolume
           currentVolumeKES previousVolumeKES
           revenueGrowth currentRevenue previousRevenue
           userGrowth currentActiveUsers previousActiveUsers)
    (if String.eqb currency "KES" then 1%float
     else if truthy_rate exchangeRates currency then rate exchangeRates currency else 1%float).

Definition mtdGrowthData
    (monthlyTransactionCount monthlyRevenue monthlyVolume monthlyActiveUsers : sheet)
    (activeUsersByCurrency : gmap string nat) : list Entry :=
  map (mtdEntry monthlyTransactionCount monthlyRevenue monthlyVolume monthlyActiveUsers
                activeUsersByCurrency) currencies.

End Part001Data.

(** ** The colours of the growth figures *)

Module Colours.

Record palette : Type := mkPalette {
  users : string; revenue : string; volume : string;
  positive : string; neutral : string; negative : string
}.

Definition COLORS : palette :=
  mkPalette "#8884d8" "#FF8042" "#00C49F" "#4CAF50" "#FFD700" "#F44336".

(** [getGrowthColor]; the argument is [undefined] where the caller reads
    [data.mtdGrowth[1]?.userGrowth] of a missing entry. *)
Definition getGrowthColor (value : option number) : string :=
  match value with
  | Some v =>
      if gt v 10 then positive COLORS
      else if PrimFloat.ltb v 0 then negative COLORS
      else neutral COLORS
  | None => neutral COLORS
  end.

End Colours.



(** ** Number to text: [toFixed], [ToString], and the formatters *)

Module Format.

(** The outcome of a formatter: its text, or the [RangeError] of
    [toFixed] for a number of digits outside 0..100. *)
Inductive outcome : Type :=
  | Text (s : string)
  | RangeError.

Definition followed_by (suffix : string) (o : outcome) : outcome :=
  match o with
  | Text s => Text (s ++ suffix)
  | RangeError => RangeError
  end.

Definition digit_char (d : Z) : ascii := ascii_of_N (Z.to_N (48 + d)).

Fixpoint decimal_go (fuel : nat) (n : Z) (acc : string) : string :=
  match fuel with
  | O => acc
  | S fuel' =>
      let acc' := String (digit_char (n mod 10)) acc in
      if n / 10 =? 0 then acc' else decimal_go fuel' (n / 10) acc'
  end.

(** The decimal digits of [n], for [0 <= n]. *)
Definition decimal (n : Z) : string :=
  decimal_go (S (Z.to_nat (Z.log2 n))) n "".

Fixpoint zeros (n : nat) : string :=
  match n with
  | O => ""
  | S n' => String "0" (zeros n')
  end.

(** The text of [n / 10 ^ f] with exactly [f] digits after the point
    (steps 10.b to 10.d of [Number.prototype.toFixed]). *)
Definition fixed_text (n : Z) (f : nat) : string :=
  let m := decimal n in
  match f with
  | O => m
  | S _ =>
      let m := if (String.length m <=? f)%nat then zeros (S f - String.length m) ++ m else m in
      let k := String.length m in
      substring 0 (k - f) m ++ "." ++ substring (k - f) f m
  end.

(** The exact value of a positive finite Number as a ratio. *)
Definition ratio (m : positive) (e : Z) : Z * Z :=
  if 0 <=? e then (Zpos m * 2 ^ e, 1) else (Zpos m, 2 ^ (- e)).

(** The integer [n] with [10 ^ (n - 1) <= N / D < 10 ^ n], for a
    positive ratio. *)
Fixpoint magnitude_up (fuel : nat) (N D : Z) (n : Z) : Z :=
  match fuel with
  | O => n
  | S fuel' => if N <? D * 10 ^ n then n else magnitude_up fuel' N D (n + 1)
  end.

Fixpoint magnitude_down (fuel : nat) (N D : Z) (n : Z) : Z :=
  match fuel with
  | O => n
  | S fuel' => if D <=? N * 10 ^ (1 - n) then n else magnitude_down fuel' N D (n - 1)
  end.

Definition magnitude (N D : Z) : Z :=
  if D <=? N then magnitude_up 400 N D 1 else magnitude_down 400 N D 0.

(** [s * 10 ^ p] as a ratio. *)
Definition scaled (s p : Z) : Z * Z :=
  if 0 <=? p then (s * 10 ^ p, 1) else (s, 10 ^ (- p)).

(** Whether the Number nearest to [s * 10 ^ p] is [x]. *)
Definition reads_back (x : number) (s p : Z) : bool :=
  let '(a, b) := scaled s p in
  PrimFloat.eqb (round_ratio false a b) x.

(** The digits of [Number::toString]: the least [k] from [k] on, and
    [s] with [k] digits, such that [s * 10 ^ (n - k)] reads back as [x];
    of two such [s] the one nearer to [x], and the even one when they are
    as near. *)
Fixpoint shortest (fuel : nat) (x : number) (N D n k : Z) : Z * Z :=
  let p := n - k in
  let lo := if 0 <=? p then N / (D * 10 ^ p) else (N * 10 ^ (- p)) / D in
  let hi := lo + 1 in
  match fuel with
  | O => (lo, k)
  | S fuel' =>
      let lo_ok := reads_back x lo p && (10 ^ (k - 1) <=? lo) in
      let hi_ok := reads_back x hi p in
      if lo_ok && hi_ok then
        (* twice the distance of [x] to [lo], against the step *)
        let '(a, b) := scaled 1 p in
        (* x - lo*10^p  vs  hi*10^p - x, compared as 2*x vs (lo+hi)*10^p *)
        let c := (2 * N * b ?= (lo + hi) * a * D) in
        match c with
        | Lt => (lo, k)
        | Gt => (hi, k)
        | Eq => if Z.even lo then (lo, k) else (hi, k)
        end
      else if lo_ok then (lo, k)
      else if hi_ok then (hi, k)
      else shortest fuel' x N D n (k + 1)
  end.

(** [Number::toString] of a positive finite Number with value [N / D]. *)
Definition positive_text (x : number) (N D : Z) : string :=
  let n0 := magnitude N D in
  let '(s0, k0) := shortest 17 x N D n0 1 in
  (* a carry to the next power of ten *)
  let '(s, k, n) := if s0 =? 10 ^ k0 then (1, 1, n0 + 1) else (s0, k0, n0) in
  let digits := decimal s in
  if (k <=? n) && (n <=? 21) then digits ++ zeros (Z.to_nat (n - k))
  else if (0 <? n) && (n <=? 21) then
    substring 0 (Z.to_nat n) digits ++ "." ++ substring (Z.to_nat n) (Z.to_nat (k - n)) digits
  else if (-6 <? n) && (n <=? 0) then "0." ++ zeros (Z.to_nat (- n)) ++ digits
  else
    let e := n - 1 in
    let exponent := (if e <? 0 then "-" else "+") ++ decimal (Z.abs e) in
    if k =? 1 then digits ++ "e" ++ exponent
    else substring 0 1 digits ++ "." ++ substring 1 (Z.to_nat (k - 1)) digits ++ "e" ++ exponent.

(** [ToString] of a Number. *)
Definition Number_toString (x : number) : string :=
  match Prim2SF x with
  | S754_nan => "NaN"
  | S754_infinity s => if s then "-Infinity" else "Infinity"
  | S754_zero _ => "0"
  | S754_finite s m e =>
      let '(N, D) := ratio m e in
      (if s then "-" else "") ++ positive_text (abs x) N D
  end.

(** [x.toFixed(fractionDigits)] for an integral number of digits. *)
Definition toFixed (x : number) (fractionDigits : Z) : outcome :=
  if (fractionDigits <? 0) || (100 <? fractionDigits) then RangeError
  else
    let f := Z.to_nat fractionDigits in
    match Prim2SF x with
    | S754_nan => Text "NaN"
    | S754_infinity s => Text (if s then "-Infinity" else "Infinity")
    | S754_zero _ => Text (fixed_text 0 f)
    | S754_finite s m e =>
        let '(N, D) := ratio m e in
        Text ((if s then "-" else "")
              ++ (if 10 ^ 21 * D <=? N then positive_text (abs x) N D
                  else fixed_text ((2 * N * 10 ^ fractionDigits + D) / (2 * D)) f))
    end.

(** The characters of [\w] and of [\d]. *)
Definition is_digit (a : ascii) : bool :=
  match digit_val a with Some _ => true | None => false end.

Definition is_word (a : ascii) : bool :=
  let n := Z.of_N (N_of_ascii a) in
  is_digit a || ((65 <=? n) && (n <=? 90)) || ((97 <=? n) && (n <=? 122)) || (n =? 95).

(** The length of the run of digits at the head of [s]. *)
Fixpoint digit_run (s : string) : nat :=
  match s with
  | String a s' => if is_digit a then S (digit_run s') else O
  | EmptyString => O
  end.

(** [s.replace(/\B(?=(\d{3})+(?!\d))/g, ',')]. The pattern matches the
    empty text at a position where the run of digits that starts there
    has a length that is a positive multiple of three (the look-ahead
    [(\d{3})+(?!\d)]) and where the character before is a word character
    ([\B], the character after being a digit); a comma is put at each
    such position. [prev] tells whether the character before [s] is a
    word character. *)
Fixpoint add_commas_after (prev : bool) (s : string) : string :=
  match s with
  | String a s' =>
      let run := digit_run s in
      let rest := String a (add_commas_after (is_word a) s') in
      if prev && (0 <? run)%nat && (run mod 3 =? 0)%nat then String "," rest else rest
  | EmptyString => EmptyString
  end.

Definition add_commas (s : string) : string := add_commas_after false s.

Definition with_commas (o : outcome) : outcome :=
  match o with
  | Text s => Text (add_commas s)
  | RangeError => RangeError
  end.

(** [formatNumber] of [FinancialDashboard.js] and [part_002]; [None] is
    [null] or [undefined], and [decimals] is 0 at every call.
<<
  if (num === null || num === undefined || isNaN(num)) return 'N/A';
  if (Math.abs(num) >= 1_000_000) return (num / 1_000_000).toFixed(2) + 'M';
  if (Math.abs(num) >= 1000) return (num / 1000).toFixed(1) + 'K';
  return parseFloat(num).toFixed(decimals).replace(/\B(?=(\d{3})+(?!\d))/g, ',');
>> *)
Definition formatNumber (num : option number) (decimals : Z) : outcome :=
  match num with
  | None => Text "N/A"
  | Some x =>
      if is_nan x then Text "N/A"
      else if PrimFloat.leb 1000000 (abs x) then followed_by "M" (toFixed (x / 1000000) 2)
      else if PrimFloat.leb 1000 (abs x) then followed_by "K" (toFixed (x / 1000) 1)
      else with_commas (toFixed (parseFloat (Number_toString x)) decimals)
  end.

(** [formatNumber] of [App.js] and [part_001]: no test for [NaN], and
    [num.toFixed] without [parseFloat]. *)
Definition formatNumber_v1 (num : option number) (decimals : Z) : outcome :=
  match num with
  | None => Text "N/A"
  | Some x =>
      if PrimFloat.leb 1000000 (abs x) then followed_by "M" (toFixed (x / 1000000) 2)
      else if PrimFloat.leb 1000 (abs x) then followed_by "K" (toFixed (x / 1000) 1)
      else with_commas (toFixed x decimals)
  end.

(** [isFinite(num)] on a Number. *)
Definition isFinite (x : number) : bool := negb (is_nan x || is_infinity x).

(** [formatMultiplier]:
<<
  if (num === null || num === undefined || !isFinite(num)) return 'N/A';
  return (1 + num / 100).toFixed(1) + 'x';
>> *)
Definition formatMultiplier (num : option number) : outcome :=
  match num with
  | None => Text "N/A"
  | Some x =>
      if negb (isFinite x) then Text "N/A"
      else followed_by "x" (toFixed (1 + x / 100) 1)
  end.

(** [formatPercent] of [App.js]: [num.toFixed(1) + '%']. *)
Definition formatPercent (num : option number) : outcome :=
  match num with
  | None => Text "N/A"
  | Some x =>
      if negb (isFinite x) then Text "N/A"
      else followed_by "%" (toFixed x 1)
  end.

(** The headline card of the user growth in [FinancialDashboard.js]:
    [data.mtdGrowth[1] ? formatMultiplier(data.mtdGrowth[1].userGrowth) : 'N/A']. *)
Definition userGrowthCard (mtdGrowth : list MtdEntry) : outcome :=
  match mtdGrowth !! 1%nat with
  | Some e => formatMultiplier (Some (userGrowth e))
  | None => Text "N/A"
  end.

#[global] Instance outcome_eq_dec : EqDecision outcome.
Proof. solve_decision. Defined.

End Format.

(** ** Further sample snapshots and vocabulary *)

Module MoreInputs.
Import Common.

(** The workbook [wb] with another [Monthly_Revenue] sheet. *)
Definition with_revenue (wb : workbook) (s : sheet) : workbook :=
  mkWorkbook (Wallet_Balances wb) (Monthly_Transaction_Count wb) s
             (Monthly_Transaction_Volume wb) (User_Statistics wb).

(** The workbook [wb] with another [Monthly_Transaction_Volume] sheet. *)
Definition with_volume (wb : workbook) (s : sheet) : workbook :=
  mkWorkbook (Wallet_Balances wb) (Monthly_Transaction_Count wb) (Monthly_Revenue wb)
             s (User_Statistics wb).

(** The window test on a parsed date: [d >= startDate && d <= endDate]. *)
Definition inside (d startDate endDate : Dates.date) : bool :=
  Dates.ge d startDate && Dates.le d endDate.

(** The offset of local time from UTC is [tza] at each of the four bounds
    of the calendar windows of [part_002]. *)
Definition same_offset_at_the_bounds (LocalTZA : Z -> Z) (tza : Z) : Prop :=
  LocalTZA (Dates.UTC 2025 0 1 0 0 0) = tza
  /\ LocalTZA (Dates.UTC 2025 0 31 23 59 59) = tza
  /\ LocalTZA (Dates.UTC 2025 1 1 0 0 0) = tza
  /\ LocalTZA (Dates.UTC 2025 1 28 23 59 59) = tza.

(** [y] is the value [x] with the floor of the log-scale charts applied:
    0.1 when [x <= 0], and [x] itself otherwise. *)
Definition floored_value (x y : number) : Prop :=
  (PrimFloat.leb x 0 = true -> y = 0.1%float)
  /\ (PrimFloat.leb x 0 = false -> y = x).

(** A clock that gives the same instant at each of its three readings. *)
Definition steady (now : Z) : FinancialDashboard.Clock :=
  FinancialDashboard.mkClock now now now.

(** A wallet row with a positive number of transactions, as [part_001]
    tests it. *)
Definition transacting (u : gmap string string) : bool :=
  truthy (u !! "Transaction Count")
  && gt (parseIntAuto (cell u "Transaction Count")) 0.

(** A wallet row last used in the last second of January 2025, local time
    of Nairobi, after 23:59:59.000. *)
Definition last_second_of_january : gmap string string :=
  list_to_map [("Last Transaction", "2025-01-31T20:59:59.500Z"); ("KES", "75.00")].

(** A wallet row whose date no host reads. *)
Definition undated : gmap string string :=
  list_to_map [("Last Transaction", "n/a"); ("KES", "75.00")].

(** The error thrown on reading [.replace] of a missing property. *)
Definition replace_of_undefined : js_error :=
  TypeError "Cannot read properties of undefined (reading 'replace')".

(** An MTD entry with another volume growth. *)
Definition with_volume_growth (g : number) (e : MtdEntry) : MtdEntry :=
  mkMtd (currency e) (transactionCountGrowth e) (currentTransactionCount e)
        (previousTransactionCount e) g (currentTransactionVolume e)
        (previousTransactionVolume e) (volumeKES e) (previousVolumeKES e)
        (revenueGrowth e) (currentRevenue e) (previousRevenue e)
        (userGrowth e) (currentActiveUsers e) (previousActiveUsers e).

(** The first trend point of a period. *)
Definition pointOf (ym : string) (trends : list TrendPoint) : option TrendPoint :=
  List.find (fun p => bool_decide (month p = Some ym)) trends.

(** A revenue sheet that repeats the period 2025-02. *)
Definition february_first : gmap string string :=
  list_to_map [("YearMonth", "2025-02"); ("KES", "1200000"); ("USD", "1000")].
Definition february_again : gmap string string :=
  list_to_map [("YearMonth", "2025-02"); ("KES", "999")].

(** A user-statistics sheet with two 'Total Users' rows. *)
Definition two_totals : sheet :=
  [ list_to_map [("Metric", "Total Users"); ("Value", "1,250")];
    list_to_map [("Metric", "Total Users"); ("Value", "2,000")] ].

(** The sum of a column of the MTD table, added up from 0 in the order
    of the table. *)
Definition sumOf (f : MtdEntry -> number) (l : list MtdEntry) : number :=
  fold_left (fun sum e => (sum + f e)%float) l 0%float.

(** A text made of decimal digits only. *)
Fixpoint all_digits (s : string) : bool :=
  match s with
  | String a s' => Format.is_digit a && all_digits s'
  | EmptyString => true
  end.

End MoreInputs.

(** ** Facts about Numbers *)

Module NumberFacts.

(** [x == 0] holds of both zeros and of nothing else; such an [x] is not
    [> 0]. *)
Lemma eq_zero_not_gt (x : number) :
  PrimFloat.eqb x 0 = true -> gt x 0 = false.
Proof.
  unfold gt. rewrite FloatAxioms.eqb_spec, FloatAxioms.ltb_spec.
  change (Prim2SF 0) with (S754_zero false).
  destruct (Prim2SF x) as [sx | sx | | sx mx ex]; cbn; try discriminate; try reflexivity.
  all: destruct sx; cbn; discriminate.
Qed.

Lemma gt_zero_not_le (x : number) :
  gt x 0 = true -> PrimFloat.leb x 0 = false.
Proof.
  unfold gt. rewrite FloatAxioms.leb_spec, FloatAxioms.ltb_spec.
  change (Prim2SF 0) with (S754_zero false).
  destruct (Prim2SF x) as [sx | sx | | sx mx ex]; cbn; try discriminate; try reflexivity.
  all: destruct sx; cbn; try discriminate; reflexivity.
Qed.

End NumberFacts.

(** ** The built-in functions on sample texts *)

Module Builtins.

Example parseFloat_rate : parseFloat "129.3827" = 129.3827%float.
Proof. vm_compute. reflexivity. Qed.

Example parseFloat_prefix : parseFloat "  -12.5e-3xyz" = (-0.0125)%float.
Proof. vm_compute. reflexivity. Qed.

Example parseFloat_stops_at_comma : parseFloat "1,234.00 NGN" = 1%float.
Proof. vm_compute. reflexivity. Qed.

Example parseFloat_zero_text : parseFloat "0.00 KES" = 0%float.
Proof. vm_compute. reflexivity. Qed.

Example parseFloat_no_number : parseFloat "KES 5" = nan.
Proof. vm_compute. reflexivity. Qed.

Example parseFloat_tie_to_even : parseFloat "9007199254740993" = 9007199254740992%float.
Proof. vm_compute. reflexivity. Qed.

Example parseFloat_overflow : parseFloat "1.7976931348623159e308" = infinity.
Proof. vm_compute. reflexivity. Qed.

Example parseFloat_smallest : parseFloat "3e-324" = 5e-324%float.
Proof. vm_compute. reflexivity. Qed.

Example parseInt_stops_at_point : parseInt "52.9" = 52%float.
Proof. vm_compute. reflexivity. Qed.

Example parseInt_commas_removed : parseInt (remove_commas "12,345") = 12345%float.
Proof. vm_compute. reflexivity. Qed.

Example parseIntAuto_hex : parseIntAuto "0x1A" = 26%float.
Proof. vm_compute. reflexivity. Qed.

Example parse_iso_february : Dates.parse_iso "2025-02-01T00:00:00.000Z" = Some 1738368000000.
Proof. vm_compute. reflexivity. Qed.

Example parse_iso_other_text : Dates.parse_iso "01/02/2025" = None.
Proof. vm_compute. reflexivity. Qed.

Example february_starts_at_local_midnight :
  Part002.febStart (fun _ => 10800000) = Dates.parse_iso "2025-01-31T21:00:00.000Z".
Proof. vm_compute. reflexivity. Qed.

End Builtins.

(** ** The growth loop *)

Module GrowthLoop.
Import Common.

Lemma growthStep_in_range (t : list TrendPoint) (acc : GrowthRates) (i : nat)
    (prev curr : TrendPoint) :
  t !! i = Some prev -> t !! S i = Some curr ->
  growthStep t acc (S i) =
    mkRates (userSeries acc ++ [userPoint prev curr])
            (revenueSeries acc ++ [revenuePoint prev curr])
            (volumeSeries acc ++ [volumePoint prev curr]).
Proof.
  intros Hp Hc. unfold growthStep.
  replace (S i - 1)%nat with i by lia. rewrite Hp, Hc. reflexivity.
Qed.

(** After [j] turns each series holds [j] points, the one at offset [i]
    built from the trend points at [i] and [i + 1]. *)
Lemma fold_growthStep (t : list TrendPoint) (j : nat) :
  (j <= length t - 1)%nat ->
  let g := fold_left (growthStep t) (seq 1 j) (mkRates [] [] []) in
  length (userSeries g) = j /\ length (revenueSeries g) = j /\ length (volumeSeries g) = j
  /\ forall i prev curr, (i < j)%nat ->
       t !! i = Some prev -> t !! S i = Some curr ->
       userSeries g !! i = Some (userPoint prev curr)
       /\ revenueSeries g !! i = Some (revenuePoint prev curr)
       /\ volumeSeries g !! i = Some (volumePoint prev curr).
Proof.
  induction j as [| j IH]; intros Hj; cbn zeta.
  - cbn. split; [reflexivity |]. split; [reflexivity |]. split; [reflexivity |].
    intros i prev curr Hi. lia.
  - rewrite seq_S, fold_left_app. cbn [fold_left Nat.add].
    destruct IH as (Hu & Hr & Hv & Hpts); [lia |].
    destruct (lookup_lt_is_Some_2 t j) as [p Hp]; [lia |].
    destruct (lookup_lt_is_Some_2 t (S j)) as [c Hc]; [lia |].
    rewrite (growthStep_in_range t _ j p c Hp Hc). cbn [userSeries revenueSeries volumeSeries].
    rewrite !length_app, Hu, Hr, Hv. cbn [length].
    split; [lia |]. split; [lia |]. split; [lia |].
    intros i prev curr Hi Hprev Hcurr.
    destruct (decide (i = j)) as [-> | Hne].
    + rewrite Hprev in Hp. rewrite Hcurr in Hc.
      inversion Hp; inversion Hc; subst.
      rewrite !lookup_app_r by lia. rewrite Hu, Hr, Hv, Nat.sub_diag.
      repeat split.
    + rewrite !lookup_app_l by lia. apply (Hpts i prev curr); [lia | assumption | assumption].
Qed.

Lemma growthRatesOf_spec (t : list TrendPoint) :
  let g := growthRatesOf t in
  length (userSeries g) = (length t - 1)%nat
  /\ length (revenueSeries g) = (length t - 1)%nat
  /\ length (volumeSeries g) = (length t - 1)%nat
  /\ forall i prev curr,
       t !! i = Some prev -> t !! S i = Some curr ->
       userSeries g !! i = Some (userPoint prev curr)
       /\ revenueSeries g !! i = Some (revenuePoint prev curr)
       /\ volumeSeries g !! i = Some (volumePoint prev curr).
Proof.
  cbn zeta. unfold growthRatesOf.
  destruct (fold_growthStep t (length t - 1) (Nat.le_refl _)) as (Hu & Hr & Hv & Hpts).
  split; [assumption |]. split; [assumption |]. split; [assumption |].
  intros i prev curr Hprev Hcurr.
  apply (Hpts i prev curr); try assumption.
  apply lookup_lt_Some in Hcurr. lia.
Qed.

Lemma length_transformGrowth (l : list GrowthPoint) :
  length (transformGrowth l) = length l.
Proof. unfold transformGrowth. apply length_map. Qed.

Lemma length_transformTrends (l : list TrendPoint) :
  length (transformTrends l) = length l.
Proof. unfold transformTrends. apply length_map. Qed.

Lemma lookup_transformGrowth (l : list GrowthPoint) (i : nat) (p : GrowthPoint) :
  l !! i = Some p ->
  transformGrowth l !! i = Some (mkGrowth (g_month p) (growth p) (log_floor (metric p))).
Proof. intros H. unfold transformGrowth. rewrite list_lookup_fmap, H. reflexivity. Qed.

End GrowthLoop.

(** ** The active-user counter *)

Module Counter.
Import Common Policy.

Lemma lookup_incr (c c' : string) (m : gmap string nat) :
  incr c' m !! c = if decide (c' = c) then Some (S (default 0%nat (m !! c'))) else m !! c.
Proof. unfold incr. apply lookup_insert. Qed.

Lemma lookup_countBalance (u : gmap string string) (c c' : string) (m : gmap string nat) (n : nat) :
  m !! c = Some n ->
  countBalance u c' m !! c
  = Some (n + (if decide (c' = c) then (if holds u c' then 1 else 0) else 0))%nat.
Proof.
  intros Hm. unfold countBalance. fold (holds u c').
  destruct (holds u c').
  - rewrite lookup_incr. destruct (decide (c' = c)) as [-> | Hne].
    + rewrite Hm. cbn. f_equal. lia.
    + rewrite Hm. f_equal. lia.
  - rewrite Hm. destruct (decide (c' = c)); f_equal; lia.
Qed.

Section Host.
Context (Date_parse : string -> Dates.date).

(** One wallet row adds one to the count of a currency exactly when the
    row passes the window test and the balance test of that currency. *)
Lemma lookup_countUser (s e : Dates.date) (m : gmap string nat) (u : gmap string string)
    (c : string) (n : nat) :
  c ∈ currencies -> m !! c = Some n ->
  countUser Date_parse s e m u !! c
  = Some (n + (if activeIn Date_parse s e u && holds u c then 1 else 0))%nat.
Proof.
  intros Hc Hm. unfold countUser, activeIn.
  destruct (truthy (u !! "Last Transaction")); cbn [negb andb];
    [| rewrite Hm; f_equal; lia].
  destruct (Dates.ge _ s && Dates.le _ e); cbn [andb];
    [| rewrite Hm; f_equal; lia].
  unfold currencies in Hc.
  rewrite (lookup_countBalance u c "CNY" _ _
            (lookup_countBalance u c "USD" _ _
              (lookup_countBalance u c "NGN" _ _
                (lookup_countBalance u c "UGX" _ _
                  (lookup_countBalance u c "KES" _ _ Hm))))).
  f_equal.
  repeat (apply elem_of_cons in Hc; destruct Hc as [-> | Hc]);
    [.. | apply elem_of_nil in Hc; destruct Hc].
  all: repeat case_decide; try congruence.
  all: destruct (holds u _); lia.
Qed.

Lemma lookup_fold_countUser (s e : Dates.date) (l : sheet) (m : gmap string nat)
    (c : string) (n : nat) :
  c ∈ currencies -> m !! c = Some n ->
  fold_left (countUser Date_parse s e) l m !! c
  = Some (n + length (List.filter (fun u => activeIn Date_parse s e u && holds u c) l))%nat.
Proof.
  intros Hc. revert m n. induction l as [| u l IH]; intros m n Hm; cbn [fold_left List.filter].
  - rewrite Hm. cbn. f_equal. lia.
  - rewrite (IH _ _ (lookup_countUser s e m u c n Hc Hm)).
    destruct (activeIn Date_parse s e u && holds u c); cbn [length]; f_equal; lia.
Qed.

(** The count of a currency is the number of wallet rows that pass the
    window test and hold a positive balance in it. *)
Lemma count_spec (walletBalances : sheet) (s e : Dates.date) (c : string) :
  c ∈ currencies ->
  getActiveUsersByCurrencyInRange Date_parse walletBalances s e !! c
  = Some (length (List.filter (fun u => activeIn Date_parse s e u && holds u c) walletBalances)).
Proof.
  intros Hc. unfold getActiveUsersByCurrencyInRange.
  rewrite (lookup_fold_countUser s e walletBalances _ c 0%nat Hc).
  - reflexivity.
  - unfold currencies in Hc.
    repeat (apply elem_of_cons in Hc; destruct Hc as [-> | Hc]);
      [.. | apply elem_of_nil in Hc; destruct Hc]; vm_compute; reflexivity.
Qed.

End Host.


End Counter.

Import Common Policy Summation Inputs.

(** Closes [x ∈ l] for a key and a list that are both written out. *)
Ltac listed := solve [repeat first [apply list_elem_of_here | apply list_elem_of_further]].

(** Closes a goal [x <> y] between two Numbers that evaluate to different
    values. *)
Ltac numbers_differ :=
  let H := fresh in
  intro H; apply (f_equal (fun x => PrimFloat.eqb x x && negb (Leibniz.eqb x 0))) in H;
  vm_compute in H; discriminate H.

(** ** C1: a currency without a configured rate *)

(** C1, counterexample. The sheet [unknown_fee] holds a fee of 100 in the
    currency "XYZ", which has no configured rate. The revenue loop of
    [App.js] returns the total 0 without throwing, and [convertToKES]
    returns the amount 100 unchanged: no error is raised on either path. *)
Lemma unconfigured_currency_raises_nothing :
  exchangeRates !! "XYZ" = None
  /\ ~ raises (App.totalRevenueKES unknown_fee)
  /\ App.totalRevenueKES unknown_fee = Return 0%float
  /\ Part002.convertToKES 100%float (Some "XYZ") exchangeRates = 100%float.
Proof.
  split; [vm_compute; reflexivity |].
  assert (Hret : App.totalRevenueKES unknown_fee = Return 0%float)
    by (vm_compute; reflexivity).
  split; [| split; [exact Hret | vm_compute; reflexivity]].
  intros [e He]. rewrite Hret in He. discriminate He.
Qed.

Lemma totalRevenueFrom_app (rates : gmap string number) (l1 l2 : sheet) (acc : number) :
  App.totalRevenueFrom rates acc (l1 ++ l2)
  = acc' ← App.totalRevenueFrom rates acc l1; App.totalRevenueFrom rates acc' l2.
Proof.
  revert acc. induction l1 as [| r l1 IH]; intros acc; cbn.
  - reflexivity.
  - destruct (App.addFee rates acc r) as [acc' | e]; cbn; [apply IH | reflexivity].
Qed.

(** C1, as amended. For a currency code [c] other than "KES" without a
    configured rate: [convertToKES] multiplies the amount by the default
    rate 1; the revenue loop of [App.js] leaves its running total as it
    was, so that the row contributes nothing to the total. Neither
    throws. (A code that names a property inherited from
    [Object.prototype] reads as a truthy non-number and is set aside.) *)
Theorem unconfigured_currency_defaults (rates : gmap string number) (c : string) :
  c <> "KES" -> c <> "" -> c ∉ inherited -> rates !! c = None ->
  (forall v, Part002.convertToKES v (Some c) rates = (v * 1)%float)
  /\ (forall acc r fee,
        r !! "Currency" = Some c -> r !! "Total_Fees_Original" = Some fee ->
        App.addFee rates acc r = Return acc)
  /\ (forall acc l1 l2 r fee,
        r !! "Currency" = Some c -> r !! "Total_Fees_Original" = Some fee ->
        App.totalRevenueFrom rates acc (l1 ++ r :: l2)
        = App.totalRevenueFrom rates acc (l1 ++ l2)).
Proof.
  intros Hkes Hne Hown Hnone.
  assert (Hfalsy : truthy_rate rates c = false).
  { unfold truthy_rate. rewrite Hnone. apply bool_decide_eq_false_2. exact Hown. }
  assert (Hfee : forall acc r fee,
            r !! "Currency" = Some c -> r !! "Total_Fees_Original" = Some fee ->
            App.addFee rates acc r = Return acc).
  { intros acc r fee Hc Hf. unfold App.addFee, App.key. rewrite Hc, Hf. cbn [default from_option id].
    rewrite Hfalsy.
    rewrite bool_decide_eq_false_2 by congruence. reflexivity. }
  split; [| split; [exact Hfee |]].
  - intros v. unfold Part002.convertToKES.
    assert (Htr : truthy (Some c) = true) by (destruct c; [congruence | reflexivity]).
    rewrite Htr. cbn [negb orb].
    destruct (String.eqb_spec c "KES") as [Heq | _]; [congruence |].
    rewrite Hfalsy. reflexivity.
  - intros acc l1 l2 r fee Hc Hf.
    rewrite !totalRevenueFrom_app.
    destruct (App.totalRevenueFrom rates acc l1) as [acc' | e]; cbn; [| reflexivity].
    rewrite (Hfee acc' r fee Hc Hf). reflexivity.
Qed.

Lemma unconfigured_currency_defaults_witness :
  Part002.convertToKES 100%float (Some "XYZ") exchangeRates = (100 * 1)%float
  /\ App.totalRevenueFrom exchangeRates 7%float ([] ++ obj [("Currency", "XYZ"); ("Total_Fees_Original", "100")] :: [])
     = App.totalRevenueFrom exchangeRates 7%float ([] ++ []).
Proof.
  destruct (unconfigured_currency_defaults exchangeRates "XYZ") as (Hconv & _ & Hloop).
  - discriminate.
  - discriminate.
  - intros H. unfold inherited in H.
    repeat (apply elem_of_cons in H; destruct H as [H | H]; [discriminate H |]).
    apply elem_of_nil in H. exact H.
  - vm_compute. reflexivity.
  - split.
    + apply Hconv.
    + apply (Hloop 7%float [] [] _ "100"); vm_compute; reflexivity.
Defined.

(** ** C2: the growth percent *)

Lemma calcGrowth_rule (current previous : number) :
  growth_rule (calcGrowth current previous) current previous.
Proof.
  unfold growth_rule, calcGrowth, formula. repeat split.
  - intros ->. reflexivity.
  - intros Hz Hc. rewrite (NumberFacts.eq_zero_not_gt _ Hz), Hc. reflexivity.
  - intros Hz Hc.
    rewrite (NumberFacts.eq_zero_not_gt _ Hz), (NumberFacts.eq_zero_not_gt _ Hc).
    reflexivity.
Qed.

Lemma momGrowth_rule (current previous : number) :
  mom_rule (momGrowth current previous) current previous.
Proof.
  unfold mom_rule, momGrowth, formula. repeat split.
  - intros ->. reflexivity.
  - intros ->. reflexivity.
  - intros Hz. rewrite (NumberFacts.eq_zero_not_gt _ Hz). reflexivity.
Qed.

(** C2, counterexample. In [zero_baseline] the revenue of 2025-01 is 0 and
    that of 2025-02 is 50, so the claim asks for a revenue growth of 100
    at 2025-02. The month-over-month loop stores [null] there, which is no
    percent at all. *)
Lemma month_over_month_growth_from_zero_is_null :
  ~ (forall i prev curr g,
       FinancialDashboard.monthlyTrendsRaw zero_baseline !! i = Some prev ->
       FinancialDashboard.monthlyTrendsRaw zero_baseline !! S i = Some curr ->
       revenueSeries (FinancialDashboard.growthRatesRaw zero_baseline) !! i = Some g ->
       exists v, growth g = Some v /\ growth_rule v (revenue curr) (revenue prev)).
Proof.
  intros H.
  edestruct (H 0%nat) as (v & Hv & _).
  - vm_compute. reflexivity.
  - vm_compute. reflexivity.
  - vm_compute. reflexivity.
  - cbn in Hv. discriminate Hv.
Qed.

Lemma growthRatesOf_mom_series (t : list TrendPoint) :
  mom_series t (growthRatesOf t).
Proof.
  intros i prev curr Hp Hc.
  destruct (GrowthLoop.growthRatesOf_spec t) as (_ & _ & _ & Hpts).
  destruct (Hpts i prev curr Hp Hc) as (Hu & Hr & Hv).
  exists (userPoint prev curr), (revenuePoint prev curr), (volumePoint prev curr).
  split; [exact Hu |]. split; [exact Hr |]. split; [exact Hv |].
  split; [| split]; apply momGrowth_rule.
Qed.

(** C2, as amended. In the per-currency MTD table each of the four growth
    percents follows the rule of the claim: the formula over a positive
    previous value, 100 from a zero previous value to a positive current
    one, 0 when both are zero (in [part_002] the volume growth is taken
    between the volumes in KES). In the month-over-month series of every
    revision the growth of each dimension is the formula over a positive
    previous value and [null] otherwise, in particular whenever the
    previous value is zero. *)
Theorem growth_percent_by_series
    (Date_parse : string -> Dates.date) (LocalTZA : Z -> Z) (wb : workbook)
    (k : FinancialDashboard.Clock) (counts revenues actives volumes : sheet) :
  (forall e, e ∈ FinancialDashboard.mtdGrowthData Date_parse wb k -> mtd_rule e)
  /\ (forall e, e ∈ Part002.mtdGrowthData Date_parse LocalTZA wb -> mtd_rule_kes e)
  /\ mom_series (FinancialDashboard.monthlyTrendsRaw wb) (FinancialDashboard.growthRatesRaw wb)
  /\ mom_series (Part002.monthlyTrendsRaw wb) (Part002.growthRatesRaw wb)
  /\ mom_series (App.rawMonthlyTrends counts revenues actives volumes)
                (App.rawGrowthRates counts revenues actives volumes).
Proof.
  split; [| split; [| split; [| split]]].
  - unfold FinancialDashboard.mtdGrowthData. intros e He.
    apply list_elem_of_fmap in He. destruct He as (c & -> & _).
    unfold mtd_rule, FinancialDashboard.mtdEntry.
    cbn [transactionCountGrowth currentTransactionCount previousTransactionCount
         transactionVolumeGrowth currentTransactionVolume previousTransactionVolume
         revenueGrowth currentRevenue previousRevenue
         userGrowth currentActiveUsers previousActiveUsers].
    split; [| split; [| split]]; apply calcGrowth_rule.
  - unfold Part002.mtdGrowthData. intros e He.
    apply list_elem_of_fmap in He. destruct He as (c & -> & _).
    unfold mtd_rule_kes, Part002.mtdEntry.
    cbn [transactionCountGrowth currentTransactionCount previousTransactionCount
         transactionVolumeGrowth volumeKES previousVolumeKES
         revenueGrowth currentRevenue previousRevenue
         userGrowth currentActiveUsers previousActiveUsers].
    split; [| split; [| split]]; apply calcGrowth_rule.
  - apply growthRatesOf_mom_series.
  - apply growthRatesOf_mom_series.
  - apply growthRatesOf_mom_series.
Qed.

(** ** C3: two runs on one snapshot *)

(** C3, counterexample. The wallet of [one_wallet] was last used on
    2025-02-10. A run whose clock reads 2025-02-27 counts it among the
    active users of the last 30 days; a run on the same sheets whose clock
    reads 2025-06-27 does not. The two outputs differ. *)
Lemma two_runs_differ_with_the_clock :
  FinancialDashboard.loadData Dates.parse_iso one_wallet noon_feb27
  <> FinancialDashboard.loadData Dates.parse_iso one_wallet noon_jun27.
Proof.
  intros H.
  apply (f_equal (fun c =>
    match c with
    | Return s => PrimFloat.eqb (FinancialDashboard.activeUsers (FinancialDashboard.keyMetrics s)) 1
    | Throw _ => false
    end)) in H.
  vm_compute in H. discriminate H.
Qed.

(** C3, as amended. Two runs on the same sheets, whatever their clocks
    read, end the same way (both return or both throw the same error) and
    agree on every output computed from the sheets alone: total revenue,
    total transactions, total users, the trend series, the three growth
    series, the rates, and in the MTD table the currency and the
    transaction, volume and revenue fields of each entry. Only the active
    user count and the three user fields of the MTD entries depend on the
    clock, and they are equal as soon as the two runs see the same window
    bounds. *)
Theorem two_runs_agree_up_to_the_clock
    (Date_parse : string -> Dates.date) (wb : workbook) (k1 k2 : FinancialDashboard.Clock) :
  (forall e, FinancialDashboard.loadData Date_parse wb k1 = Throw e
             <-> FinancialDashboard.loadData Date_parse wb k2 = Throw e)
  /\ (forall s1 s2,
        FinancialDashboard.loadData Date_parse wb k1 = Return s1 ->
        FinancialDashboard.loadData Date_parse wb k2 = Return s2 ->
        FinancialDashboard.totalRevenue (FinancialDashboard.keyMetrics s1)
          = FinancialDashboard.totalRevenue (FinancialDashboard.keyMetrics s2)
        /\ FinancialDashboard.totalTransactions (FinancialDashboard.keyMetrics s1)
          = FinancialDashboard.totalTransactions (FinancialDashboard.keyMetrics s2)
        /\ FinancialDashboard.totalUsersCount (FinancialDashboard.keyMetrics s1)
          = FinancialDashboard.totalUsersCount (FinancialDashboard.keyMetrics s2)
        /\ FinancialDashboard.monthlyTrends s1 = FinancialDashboard.monthlyTrends s2
        /\ FinancialDashboard.growthRates s1 = FinancialDashboard.growthRates s2
        /\ FinancialDashboard.rates s1 = FinancialDashboard.rates s2
        /\ map sheet_fields (FinancialDashboard.mtdGrowth s1)
           = map sheet_fields (FinancialDashboard.mtdGrowth s2)
        /\ (FinancialDashboard.startDateCurrent k1 = FinancialDashboard.startDateCurrent k2 ->
            FinancialDashboard.endDateCurrent k1 = FinancialDashboard.endDateCurrent k2 ->
            FinancialDashboard.startDatePrevious k1 = FinancialDashboard.startDatePrevious k2 ->
            s1 = s2)).
Proof.
  unfold FinancialDashboard.loadData.
  destruct (totalUsers (User_Statistics wb) (Wallet_Balances wb)) as [tu | err]; cbn.
  - split; [intros e; split; intros H; discriminate H |].
    intros s1 s2 H1 H2. injection H1 as <-. injection H2 as <-. cbn.
    do 6 (split; [reflexivity |]). split.
    + unfold FinancialDashboard.mtdGrowthData, currencies.
      cbn [map List.map]. reflexivity.
    + intros Hs He Hp.
      unfold FinancialDashboard.distinctActiveUsers, FinancialDashboard.mtdGrowthData,
        FinancialDashboard.currentActiveByCurrency, FinancialDashboard.previousActiveByCurrency,
        FinancialDashboard.endDatePrevious.
      rewrite Hs, He, Hp. reflexivity.
  - split; [intros e; split; intros H; exact H |].
    intros s1 s2 H1. discriminate H1.
Qed.

(** ** C4: totals in the base currency *)

(** The conversion of a row adds the non-empty columns in the order of
    [columns]. *)
Lemma rowToKES_sum (rates : gmap string number) (r : gmap string string) :
  rowToKES rates r = sumNonEmpty (converted rates) r.
Proof.
  unfold rowToKES, sumNonEmpty, columns. cbn [List.filter].
  destruct (truthy (r !! "KES")), (truthy (r !! "NGN")), (truthy (r !! "UGX")),
    (truthy (r !! "USD")), (truthy (r !! "CNY")); reflexivity.
Qed.

Lemma febToKES_sum (r : gmap string string) :
  Part001.febToKES r = sumNonEmpty converted001 r.
Proof.
  unfold Part001.febToKES, sumNonEmpty, columns. cbn [List.filter].
  destruct (truthy (r !! "KES")), (truthy (r !! "NGN")), (truthy (r !! "UGX")),
    (truthy (r !! "USD")), (truthy (r !! "CNY")); reflexivity.
Qed.

Lemma columns_NoDup : NoDup columns.
Proof. apply (@bool_decide_unpack _ (NoDup_dec _)). vm_compute. exact I. Qed.

Lemma columns_are_no_labels (c : string) : c ∈ columns -> c ∉ labels.
Proof.
  unfold columns, labels. intros Hc.
  repeat (apply elem_of_cons in Hc; destruct Hc as [-> | Hc]);
    [.. | apply elem_of_nil in Hc; destruct Hc];
    rewrite !not_elem_of_cons; repeat split; try discriminate; apply not_elem_of_nil.
Qed.

Lemma configured_columns (c : string) : configured exchangeRates c <-> c ∈ columns.
Proof.
  unfold configured, columns, exchangeRates. split.
  - intros [-> | [v Hv]]; [apply list_elem_of_here |].
    destruct (decide (c = "UGX")) as [-> | H1];
      [repeat first [apply list_elem_of_here | apply list_elem_of_further] |].
    destruct (decide (c = "NGN")) as [-> | H2];
      [repeat first [apply list_elem_of_here | apply list_elem_of_further] |].
    destruct (decide (c = "USD")) as [-> | H3];
      [repeat first [apply list_elem_of_here | apply list_elem_of_further] |].
    destruct (decide (c = "CNY")) as [-> | H4];
      [repeat first [apply list_elem_of_here | apply list_elem_of_further] |].
    rewrite !lookup_insert_ne in Hv by congruence.
    rewrite lookup_singleton_ne in Hv by congruence. discriminate.
  - intros Hc.
    repeat (apply elem_of_cons in Hc; destruct Hc as [-> | Hc]);
      [.. | apply elem_of_nil in Hc; destruct Hc];
      [left; reflexivity | right; eexists; vm_compute; reflexivity ..].
Qed.

(** When every non-empty currency column of a row is among those the
    engine reads, the sum the engine forms leaves none of them out and
    takes none twice. *)
Lemma sumNonEmpty_each_once (conv : gmap string string -> string -> number)
    (r : gmap string string) :
  all_configured exchangeRates r -> sums_each_once conv r (sumNonEmpty conv r).
Proof.
  intros Hall. exists (List.filter (fun c => truthy (r !! c)) columns).
  split; [apply NoDup_ListNoDup, List.NoDup_filter, NoDup_ListNoDup, columns_NoDup |].
  split; [| reflexivity].
  intros c. rewrite list_elem_of_In, filter_In, <- list_elem_of_In. split.
  - intros [Hc Ht]. split; [apply columns_are_no_labels; exact Hc | exact Ht].
  - intros Hcol. split; [apply configured_columns, Hall; exact Hcol | apply Hcol].
Qed.

Lemma all_configured_found (s : sheet) (ym : option string) :
  (forall r, r ∈ s -> all_configured exchangeRates r) ->
  all_configured exchangeRates (find_ym_or_empty s ym).
Proof.
  intros Hs. unfold find_ym_or_empty.
  destruct (find_ym s ym) as [r |] eqn:Hfind; cbn [default from_option id].
  - apply Hs. unfold find_ym in Hfind. apply find_some in Hfind.
    apply list_elem_of_In. apply Hfind.
  - intros c [_ Ht]. rewrite lookup_empty in Ht. discriminate.
Qed.

(** A column that the engine does not read contributes nothing. *)
Lemma unread_column_is_left_out (c v : string) (r : gmap string string) :
  c ∉ columns ->
  rowToKES exchangeRates (<[c := v]> r) = rowToKES exchangeRates r
  /\ Part001.febToKES (<[c := v]> r) = Part001.febToKES r.
Proof.
  unfold columns. rewrite !not_elem_of_cons. intros (H1 & H2 & H3 & H4 & H5 & _).
  unfold rowToKES, Part001.febToKES, cell.
  rewrite !lookup_insert_ne by congruence. split; reflexivity.
Qed.

Lemma lookup_obj_keys (l : list (string * string)) (c v : string) :
  obj l !! c = Some v -> c ∈ map fst l.
Proof.
  unfold obj. intros H. apply elem_of_list_to_map_2 in H.
  apply list_elem_of_In. apply in_map_iff. exists (c, v).
  split; [reflexivity | apply list_elem_of_In; exact H].
Qed.

Lemma obj_all_configured (l : list (string * string)) :
  Forall (fun c => c ∈ labels \/ c ∈ columns) (map fst l) ->
  all_configured exchangeRates (obj l).
Proof.
  intros Hl c [Hlab Ht].
  destruct (obj l !! c) as [v |] eqn:Hv; [| discriminate].
  apply lookup_obj_keys in Hv. rewrite Forall_forall in Hl.
  destruct (Hl c Hv) as [H | H]; [contradiction | apply configured_columns; exact H].
Qed.

Lemma sum_of_no_column (conv : gmap string string -> string -> number) (total : number) :
  sums_each_once conv ∅ total <-> total = 0%float.
Proof.
  split.
  - intros (cols & _ & Hmem & ->). destruct cols as [| c cols]; [reflexivity |].
    destruct (proj1 (Hmem c) (list_elem_of_here _ _)) as [_ Ht].
    rewrite lookup_empty in Ht. discriminate.
  - intros ->. exists []. split; [constructor |]. split; [| reflexivity].
    intros c. split; [intros H; apply elem_of_nil in H; destruct H |].
    intros [_ Ht]. rewrite lookup_empty in Ht. discriminate.
Qed.

(** C4, counterexample. Two snapshots on which a reported total is not
    the sum of the claim. In [zero_baseline] the period 2025-01 has no
    revenue row, so the sum over its non-empty currency columns is 0; the
    trend point reported for that period carries the revenue 0.1, which
    [transformForLogScale] puts in place of every value that is not
    positive. In [unsupported_column] the revenue row of 2025-02 has the
    non-empty columns KES and GBP; the engine reads the five columns it
    knows and no other, so the total revenue is the KES amount alone and
    the GBP column is omitted without an error. *)
Lemma reported_total_is_floored_or_misses_a_column :
  (exists snap p,
     FinancialDashboard.loadData Dates.parse_iso zero_baseline noon_feb27 = Return snap
     /\ FinancialDashboard.monthlyTrends snap !! 0%nat = Some p
     /\ month p = Some "2025-01"
     /\ revenue p = 0.1%float
     /\ ~ sums_each_once (converted exchangeRates)
            (find_ym_or_empty (Monthly_Revenue zero_baseline) (month p)) (revenue p))
  /\ (exists snap,
        FinancialDashboard.loadData Dates.parse_iso unsupported_column noon_feb27 = Return snap
        /\ find_ym (Monthly_Revenue unsupported_column) (Some "2025-02") = Some february_with_gbp
        /\ currencyColumn february_with_gbp "GBP"
        /\ february_with_gbp !! "GBP" = Some "50"
        /\ FinancialDashboard.totalRevenue (FinancialDashboard.keyMetrics snap)
           = parseFloat (cell february_with_gbp "KES")
        /\ FinancialDashboard.totalRevenue (FinancialDashboard.keyMetrics snap) = 100%float
        /\ ~ sums_each_once (converted exchangeRates) february_with_gbp
               (FinancialDashboard.totalRevenue (FinancialDashboard.keyMetrics snap))).
Proof.
  split.
  - eexists. eexists.
    split; [vm_compute; reflexivity |].
    split; [reflexivity |].
    split; [reflexivity |].
    split; [vm_compute; reflexivity |].
    change (find_ym_or_empty (Monthly_Revenue zero_baseline) _) with (∅ : gmap string string).
    rewrite sum_of_no_column. cbn [revenue]. numbers_differ.
  - eexists.
    split; [vm_compute; reflexivity |].
    split; [vm_compute; reflexivity |].
    split.
    { split; [| vm_compute; reflexivity].
      unfold labels. rewrite !not_elem_of_cons.
      repeat split; try discriminate. apply not_elem_of_nil. }
    split; [vm_compute; reflexivity |].
    split; [vm_compute; reflexivity |].
    split; [vm_compute; reflexivity |].
    intros (cols & Hnd & Hmem & Hsum).
    assert (Hperm : cols ≡ₚ ["KES"; "GBP"]).
    { apply NoDup_Permutation; [exact Hnd | |].
      - apply (@bool_decide_unpack _ (NoDup_dec _)). vm_compute. exact I.
      - intros c. rewrite Hmem. split.
        + intros [Hlab Ht].
          destruct (february_with_gbp !! c) as [v |] eqn:Hv; [| discriminate].
          apply lookup_obj_keys in Hv. cbn [map fst] in Hv.
          unfold labels in Hlab. rewrite !not_elem_of_cons in Hlab.
          destruct Hlab as (H1 & H2 & _).
          apply elem_of_cons in Hv. destruct Hv as [-> | Hv]; [congruence | exact Hv].
        + intros Hc.
          repeat (apply elem_of_cons in Hc; destruct Hc as [-> | Hc]);
            [.. | apply elem_of_nil in Hc; destruct Hc];
            (split; [| vm_compute; reflexivity]);
            unfold labels; rewrite !not_elem_of_cons;
            repeat split; try discriminate; apply not_elem_of_nil. }
    symmetry in Hperm. apply Permutation_length_2_inv in Hperm.
    destruct Hperm as [-> | ->]; vm_compute in Hsum;
      apply (f_equal PrimFloat.is_nan) in Hsum; vm_compute in Hsum; discriminate.
Qed.

Lemma converts_once_map (wb : workbook) (f : gmap string string -> TrendPoint) :
  (forall r, r ∈ Monthly_Revenue wb -> all_configured exchangeRates r) ->
  (forall item, month (f item) = item !! "YearMonth") ->
  (forall item, revenue (f item)
                = rowToKES exchangeRates
                    (find_ym_or_empty (Monthly_Revenue wb) (item !! "YearMonth"))) ->
  forall i item,
    List.filter notTotal (Monthly_Transaction_Count wb) !! i = Some item ->
    exists r p,
      map f (List.filter notTotal (Monthly_Transaction_Count wb)) !! i = Some r
      /\ transformTrends (map f (List.filter notTotal (Monthly_Transaction_Count wb))) !! i = Some p
      /\ month p = item !! "YearMonth"
      /\ sums_each_once (converted exchangeRates)
           (find_ym_or_empty (Monthly_Revenue wb) (item !! "YearMonth")) (revenue r)
      /\ (gt (revenue r) 0 = true -> revenue p = revenue r)
      /\ (PrimFloat.leb (revenue r) 0 = true -> revenue p = 0.1%float).
Proof.
  intros Hconf Hmonth Hrev i item Hi.
  exists (f item). eexists.
  split.
  { change (map f) with (fmap (M := list) f). rewrite list_lookup_fmap, Hi. reflexivity. }
  split.
  { unfold transformTrends. change map with (@fmap list _).
    rewrite !list_lookup_fmap, Hi. reflexivity. }
  cbn [month revenue].
  split; [apply Hmonth |].
  split.
  { rewrite Hrev, rowToKES_sum. apply sumNonEmpty_each_once, all_configured_found, Hconf. }
  unfold log_floor. split.
  - intros Hpos. rewrite (NumberFacts.gt_zero_not_le _ Hpos). reflexivity.
  - intros ->. reflexivity.
Qed.

Lemma total_of_february (wb : workbook) :
  (forall r, r ∈ Monthly_Revenue wb -> all_configured exchangeRates r) ->
  sums_each_once (converted exchangeRates)
    (find_ym_or_empty (Monthly_Revenue wb) (Some "2025-02"))
    match find_ym (Monthly_Revenue wb) (Some "2025-02") with
    | Some febRevenueRow => rowToKES exchangeRates febRevenueRow
    | None => 0%float
    end.
Proof.
  intros Hconf.
  pose proof (all_configured_found _ (Some "2025-02") Hconf) as Hrow.
  unfold find_ym_or_empty in *.
  destruct (find_ym (Monthly_Revenue wb) (Some "2025-02")) as [r |]; cbn [default from_option id] in *.
  - rewrite rowToKES_sum. apply sumNonEmpty_each_once. exact Hrow.
  - apply sum_of_no_column. reflexivity.
Qed.

(** C4, as amended. Let every non-empty currency column of every revenue
    row be of a configured currency (KES, or one with a rate in the
    table). Then the total revenue of the key metrics is the sum of the
    amounts of the non-empty currency columns of the 2025-02 revenue row
    (0 when there is no such row): every such column is added, none is
    added twice, the KES amount is added as it is and any other amount
    times the rate of its currency; [part_001] converts with its rates
    written in place. The revenue of each trend point, as the engine
    computes it, is the same sum over the revenue row of the point's
    period (the first row with that key). The trend series handed to the
    charts reports that sum when it is positive; a sum that is not
    positive is reported as 0.1. A column of a currency that is not
    configured is left out of the sum without an error. *)
Theorem base_currency_totals_convert_once
    (Date_parse : string -> Dates.date) (wb : workbook) (k : FinancialDashboard.Clock)
    (snap : FinancialDashboard.Snapshot) :
  FinancialDashboard.loadData Date_parse wb k = Return snap ->
  (forall r, r ∈ Monthly_Revenue wb -> all_configured exchangeRates r) ->
  converts_once wb (FinancialDashboard.totalRevenue (FinancialDashboard.keyMetrics snap))
    (FinancialDashboard.monthlyTrendsRaw wb) (FinancialDashboard.monthlyTrends snap)
  /\ (forall LocalTZA snap2,
        Part002.loadData Date_parse LocalTZA wb = Return snap2 ->
        converts_once wb (Part002.totalRevenue (Part002.keyMetrics snap2))
          (Part002.monthlyTrendsRaw wb) (Part002.monthlyTrends snap2))
  /\ sums_each_once converted001
       (find_ym_or_empty (Monthly_Revenue wb) (Some "2025-02"))
       (Part001.totalRevenue (Monthly_Revenue wb))
  /\ (forall (r : gmap string string) (c v : string),
        ~ configured exchangeRates c ->
        rowToKES exchangeRates (<[c := v]> r) = rowToKES exchangeRates r
        /\ Part001.febToKES (<[c := v]> r) = Part001.febToKES r).
Proof.
  intros Hload Hconf. split; [| split; [| split]].
  - revert Hload. unfold FinancialDashboard.loadData.
    destruct (totalUsers (User_Statistics wb) (Wallet_Balances wb)) as [tu | err]; cbn;
      [| intros H; discriminate H].
    intros H. injection H as <-.
    cbn [FinancialDashboard.totalRevenue FinancialDashboard.keyMetrics
         FinancialDashboard.monthlyTrends].
    split; [apply total_of_february; exact Hconf |].
    apply converts_once_map; [exact Hconf | ..]; intros item; reflexivity.
  - intros LocalTZA snap2. unfold Part002.loadData.
    destruct (totalUsers (User_Statistics wb) (Wallet_Balances wb)) as [tu | err]; cbn;
      [| intros H; discriminate H].
    intros H. injection H as <-.
    cbn [Part002.totalRevenue Part002.keyMetrics Part002.monthlyTrends].
    split; [apply total_of_february; exact Hconf |].
    apply converts_once_map; [exact Hconf | ..]; intros item; reflexivity.
  - pose proof (all_configured_found _ (Some "2025-02") Hconf) as Hrow.
    unfold Part001.totalRevenue, find_ym_or_empty in *.
    destruct (find_ym (Monthly_Revenue wb) (Some "2025-02")) as [r |];
      cbn [default from_option id] in *.
    + rewrite febToKES_sum. apply sumNonEmpty_each_once. exact Hrow.
    + apply sum_of_no_column. reflexivity.
  - intros r c v Hc. apply unread_column_is_left_out.
    intros Hin. apply Hc, configured_columns. exact Hin.
Qed.

Lemma base_currency_totals_convert_once_witness :
  exists snap,
    FinancialDashboard.loadData Dates.parse_iso scenario noon_feb27 = Return snap
    /\ (forall r, r ∈ Monthly_Revenue scenario -> all_configured exchangeRates r)
    /\ converts_once scenario
         (FinancialDashboard.totalRevenue (FinancialDashboard.keyMetrics snap))
         (FinancialDashboard.monthlyTrendsRaw scenario) (FinancialDashboard.monthlyTrends snap).
Proof.
  assert (Hconf : forall r, r ∈ Monthly_Revenue scenario -> all_configured exchangeRates r).
  { unfold scenario. cbn [Monthly_Revenue]. intros r Hr.
    repeat (apply elem_of_cons in Hr; destruct Hr as [-> | Hr]);
      [.. | apply elem_of_nil in Hr; destruct Hr];
      apply obj_all_configured; cbn [map fst];
      repeat (apply Forall_cons; split;
              [first [left; listed | right; listed] |]);
      apply Forall_nil_2. }
  eexists. split; [vm_compute; reflexivity |]. split; [exact Hconf |].
  eapply proj1.
  apply (base_currency_totals_convert_once Dates.parse_iso scenario noon_feb27).
  - vm_compute. reflexivity.
  - exact Hconf.
Defined.

(** ** C5: the scenario of the specification *)

(** C5. On the sheets of [scenario] (KES revenue 1,000,000 in 2025-01; KES
    revenue 1,200,000 and USD revenue 1,000 in 2025-02; 129.3827 KES per
    USD) the engine reports the total revenue 1,329,382.7, the same
    revenue at the trend point of 2025-02, and at 2025-02 a revenue growth
    [g] over 2025-01 with 32.935 <= g < 32.945, which is 32.94 to two
    decimal places. *)
Theorem scenario_revenue_and_growth :
  exists snap p g,
    FinancialDashboard.loadData Dates.parse_iso scenario noon_feb27 = Return snap
    /\ FinancialDashboard.totalRevenue (FinancialDashboard.keyMetrics snap) = 1329382.7%float
    /\ map month (FinancialDashboard.monthlyTrends snap) = [Some "2025-01"; Some "2025-02"]
    /\ map revenue (FinancialDashboard.monthlyTrends snap) = [1000000%float; 1329382.7%float]
    /\ revenueSeries (FinancialDashboard.growthRates snap) = [p]
    /\ g_month p = Some "2025-02"
    /\ growth p = Some g
    /\ PrimFloat.leb 32.935%float g = true
    /\ PrimFloat.ltb g 32.945%float = true.
Proof.
  do 3 eexists.
  split; [vm_compute; reflexivity |].
  split; [vm_compute; reflexivity |].
  split; [vm_compute; reflexivity |].
  split; [vm_compute; reflexivity |].
  split; [vm_compute; reflexivity |].
  split; [vm_compute; reflexivity |].
  split; [vm_compute; reflexivity |].
  split; vm_compute; reflexivity.
Qed.

(** ** C6: the length of the trend series *)

Lemma length_remove_dups_le {A : Type} `{EqDecision A} (l : list A) :
  (length (remove_dups l) <= length l)%nat.
Proof.
  induction l as [| x l IH]; cbn; [lia |].
  destruct (decide_rel elem_of x l); cbn; lia.
Qed.

Lemma remove_dups_NoDup {A : Type} `{EqDecision A} (l : list A) :
  NoDup l -> remove_dups l = l.
Proof.
  induction 1 as [| x l Hx _ IH]; cbn; [reflexivity |].
  destruct (decide_rel elem_of x l); [contradiction | f_equal; exact IH].
Qed.

Lemma length_omap_le {A B : Type} (f : A -> option B) (l : list A) :
  (length (omap f l) <= length l)%nat.
Proof.
  induction l as [| x l IH]; cbn; [lia |].
  destruct (f x); cbn; lia.
Qed.

(** When every row carries a key, the keys are the row-wise keys. *)
Lemma omap_all_some {A B : Type} (f : A -> option B) (l : list A) :
  Forall (fun x => is_Some (f x)) l -> Some <$> omap f l = f <$> l.
Proof.
  induction 1 as [| x l [y Hy] _ IH]; cbn; [reflexivity |].
  rewrite Hy. cbn. rewrite IH. reflexivity.
Qed.

Lemma length_trends (wb : workbook) :
  length (FinancialDashboard.monthlyTrendsRaw wb)
  = length (List.filter notTotal (Monthly_Transaction_Count wb)).
Proof. unfold FinancialDashboard.monthlyTrendsRaw. apply length_map. Qed.

(** C6, counterexample. The sheet of [repeated_period] has two rows for
    the period 2025-01 and a "Total" row: one distinct period. The trend
    series has two points, both for 2025-01. *)
Lemma repeated_period_rows_repeat_trend_points :
  exists snap,
    FinancialDashboard.loadData Dates.parse_iso repeated_period noon_feb27 = Return snap
    /\ map month (FinancialDashboard.monthlyTrends snap) = [Some "2025-01"; Some "2025-01"]
    /\ distinctPeriods (Monthly_Transaction_Count repeated_period) = 1%nat
    /\ length (FinancialDashboard.monthlyTrends snap)
       <> distinctPeriods (Monthly_Transaction_Count repeated_period).
Proof.
  eexists.
  split; [vm_compute; reflexivity |].
  split; [vm_compute; reflexivity |].
  split; [vm_compute; reflexivity |].
  vm_compute. discriminate.
Qed.

(** C6, as amended. The trend series has one point per row of the
    transaction-count sheet whose [YearMonth] is not "Total", in the order
    of the rows. Its length is therefore at least the number of distinct
    period keys of those rows, and equal to it when each of those rows
    carries a key and no key is repeated; a repeated period row yields a
    repeated trend point. The series of [App.js] has the same periods at
    the same positions. *)
Theorem trend_series_has_one_point_per_row
    (Date_parse : string -> Dates.date) (wb : workbook) (k : FinancialDashboard.Clock)
    (snap : FinancialDashboard.Snapshot) :
  FinancialDashboard.loadData Date_parse wb k = Return snap ->
  let rows := List.filter notTotal (Monthly_Transaction_Count wb) in
  length (FinancialDashboard.monthlyTrends snap) = length rows
  /\ map month (FinancialDashboard.monthlyTrends snap)
     = map (fun r : gmap string string => r !! "YearMonth") rows
  /\ (distinctPeriods (Monthly_Transaction_Count wb)
      <= length (FinancialDashboard.monthlyTrends snap))%nat
  /\ (Forall (fun r : gmap string string => is_Some (r !! "YearMonth")) rows ->
      NoDup (map (fun r : gmap string string => r !! "YearMonth") rows) ->
      length (FinancialDashboard.monthlyTrends snap)
      = distinctPeriods (Monthly_Transaction_Count wb))
  /\ (forall revenues actives volumes,
        map month (App.rawMonthlyTrends (Monthly_Transaction_Count wb) revenues actives volumes)
        = map (fun r : gmap string string => r !! "YearMonth") rows).
Proof.
  unfold FinancialDashboard.loadData.
  destruct (totalUsers (User_Statistics wb) (Wallet_Balances wb)) as [tu | err]; cbn;
    [| intros H; discriminate H].
  intros H. injection H as <-. cbn [FinancialDashboard.monthlyTrends].
  rewrite GrowthLoop.length_transformTrends, length_trends.
  split; [reflexivity |]. split.
  { unfold transformTrends, FinancialDashboard.monthlyTrendsRaw.
    rewrite !map_map. reflexivity. }
  split; [| split].
  - unfold distinctPeriods, periodKeys.
    etransitivity; [apply length_remove_dups_le | apply length_omap_le].
  - intros Hall Hnodup. unfold distinctPeriods, periodKeys.
    pose proof (omap_all_some (fun r : gmap string string => r !! "YearMonth") _ Hall) as Hkeys.
    change (map (fun r : gmap string string => r !! "YearMonth"))
      with (fmap (M := list) (fun r : gmap string string => r !! "YearMonth")) in Hnodup.
    rewrite <- Hkeys in Hnodup.
    apply NoDup_fmap_1 in Hnodup.
    rewrite (remove_dups_NoDup _ Hnodup).
    apply (f_equal length) in Hkeys. rewrite !length_fmap in Hkeys. symmetry. exact Hkeys.
  - intros revenues actives volumes. unfold App.rawMonthlyTrends.
    rewrite map_map. reflexivity.
Qed.

Lemma trend_series_has_one_point_per_row_witness :
  exists snap,
    FinancialDashboard.loadData Dates.parse_iso scenario noon_feb27 = Return snap
    /\ length (FinancialDashboard.monthlyTrends snap)
       = distinctPeriods (Monthly_Transaction_Count scenario).
Proof.
  eexists. split.
  - vm_compute. reflexivity.
  - apply (trend_series_has_one_point_per_row Dates.parse_iso scenario noon_feb27).
    + vm_compute. reflexivity.
    + repeat constructor; eexists; vm_compute; reflexivity.
    + apply (@bool_decide_unpack _ (NoDup_dec _)). vm_compute. exact I.
Defined.

(** ** C7: the growth series against the trend series *)

Lemma growthRatesOf_adjacent (t : list TrendPoint) :
  pairs_adjacent t (transformRates (growthRatesOf t)).
Proof.
  intros i [Hlo Hhi].
  destruct (GrowthLoop.growthRatesOf_spec t) as (_ & _ & _ & Hpts).
  destruct (lookup_lt_is_Some_2 t (i - 1)) as [prev Hprev]; [lia |].
  destruct (lookup_lt_is_Some_2 t i) as [curr Hcurr]; [lia |].
  assert (Hcurr' : t !! S (i - 1) = Some curr)
    by (replace (S (i - 1)) with i by lia; exact Hcurr).
  destruct (Hpts (i - 1)%nat prev curr Hprev Hcurr') as (Hu & Hr & Hv).
  exists prev, curr.
  eexists. eexists. eexists.
  split; [exact Hprev |]. split; [exact Hcurr |].
  cbn [transformRates userSeries revenueSeries volumeSeries].
  split; [apply GrowthLoop.lookup_transformGrowth; exact Hu |].
  split; [apply GrowthLoop.lookup_transformGrowth; exact Hr |].
  split; [apply GrowthLoop.lookup_transformGrowth; exact Hv |].
  cbn [g_month growth userPoint revenuePoint volumePoint].
  split; [reflexivity |]. split; [reflexivity |]. split; [reflexivity |].
  split; [apply momGrowth_rule |]. split; apply momGrowth_rule.
Qed.

Lemma growthRatesOf_one_shorter (t : list TrendPoint) :
  t <> [] -> one_shorter t (transformRates (growthRatesOf t)).
Proof.
  intros Hne.
  destruct (GrowthLoop.growthRatesOf_spec t) as (Hu & Hr & Hv & _).
  assert (0 < length t)%nat by (destruct t; [congruence | cbn; lia]).
  unfold one_shorter. cbn [transformRates userSeries revenueSeries volumeSeries].
  rewrite !GrowthLoop.length_transformGrowth, Hu, Hr, Hv.
  lia.
Qed.

Lemma transformTrends_floored (t : list TrendPoint) : floored t (transformTrends t).
Proof.
  split; [apply GrowthLoop.length_transformTrends |].
  intros i p Hi. eexists. split.
  { unfold transformTrends. change map with (@fmap list _).
    rewrite list_lookup_fmap, Hi. reflexivity. }
  cbn [month transactions revenue volume users]. unfold log_floor.
  split; [reflexivity |].
  repeat split; intros H; rewrite ?H, ?(NumberFacts.gt_zero_not_le _ H); reflexivity.
Qed.

(** The same relation in [part_002], whose loop is the same. *)
Lemma part002_growth_pairs_adjacent
    (Date_parse : string -> Dates.date) (LocalTZA : Z -> Z) (wb : workbook) (snap : Part002.Snapshot) :
  Part002.loadData Date_parse LocalTZA wb = Return snap ->
  Part002.monthlyTrendsRaw wb <> [] ->
  one_shorter (Part002.monthlyTrendsRaw wb) (Part002.growthRates snap)
  /\ pairs_adjacent (Part002.monthlyTrendsRaw wb) (Part002.growthRates snap).
Proof.
  unfold Part002.loadData.
  destruct (totalUsers (User_Statistics wb) (Wallet_Balances wb)) as [tu | err]; cbn;
    [| intros H; discriminate H].
  intros H. injection H as <-. cbn [Part002.monthlyTrends Part002.growthRates].
  intros Hne. split.
  - apply growthRatesOf_one_shorter. exact Hne.
  - apply growthRatesOf_adjacent.
Qed.

(** C7. Let the trend series that [loadData] builds and its loop reads
    be not empty. Each of the three growth series of the snapshot is one
    entry shorter than that series. The entry for the period at position
    [i] of the series (the [i]-th entry of each growth series, positions
    counted from 0 and entries from 1) carries the key of the period at
    position [i], and its growth is computed from the values of the
    trend points at positions [i - 1] and [i] of the same series: the
    formula over a positive earlier value, [null] otherwise. The series
    handed to the charts is this series with the floor applied, with the
    same periods at the same positions. The loop of [App.js] gives the
    same relation. *)
Theorem growth_series_pairs_adjacent_periods
    (Date_parse : string -> Dates.date) (wb : workbook) (k : FinancialDashboard.Clock)
    (snap : FinancialDashboard.Snapshot) :
  FinancialDashboard.loadData Date_parse wb k = Return snap ->
  FinancialDashboard.monthlyTrendsRaw wb <> [] ->
  one_shorter (FinancialDashboard.monthlyTrendsRaw wb) (FinancialDashboard.growthRates snap)
  /\ pairs_adjacent (FinancialDashboard.monthlyTrendsRaw wb) (FinancialDashboard.growthRates snap)
  /\ floored (FinancialDashboard.monthlyTrendsRaw wb) (FinancialDashboard.monthlyTrends snap)
  /\ (forall counts revenues actives volumes,
        let t := App.rawMonthlyTrends counts revenues actives volumes in
        let g := transformRates (App.rawGrowthRates counts revenues actives volumes) in
        t <> [] -> one_shorter t g /\ pairs_adjacent t g).
Proof.
  unfold FinancialDashboard.loadData.
  destruct (totalUsers (User_Statistics wb) (Wallet_Balances wb)) as [tu | err]; cbn;
    [| intros H; discriminate H].
  intros H. injection H as <-.
  cbn [FinancialDashboard.monthlyTrends FinancialDashboard.growthRates].
  intros Hne. split; [| split; [| split]].
  - apply growthRatesOf_one_shorter. exact Hne.
  - apply growthRatesOf_adjacent.
  - apply transformTrends_floored.
  - intros counts revenues actives volumes. cbv zeta. intros Ht. split.
    + apply growthRatesOf_one_shorter. exact Ht.
    + apply growthRatesOf_adjacent.
Qed.

Lemma growth_series_pairs_adjacent_periods_witness :
  exists snap,
    FinancialDashboard.loadData Dates.parse_iso scenario noon_feb27 = Return snap
    /\ FinancialDashboard.monthlyTrendsRaw scenario <> []
    /\ one_shorter (FinancialDashboard.monthlyTrendsRaw scenario)
                   (FinancialDashboard.growthRates snap)
    /\ pairs_adjacent (FinancialDashboard.monthlyTrendsRaw scenario)
                      (FinancialDashboard.growthRates snap).
Proof.
  assert (Hne : FinancialDashboard.monthlyTrendsRaw scenario <> [])
    by (vm_compute; discriminate).
  eexists. split; [vm_compute; reflexivity |]. split; [exact Hne |].
  destruct (growth_series_pairs_adjacent_periods Dates.parse_iso scenario noon_feb27 _
              ltac:(vm_compute; reflexivity) Hne) as (H1 & H2 & _ & _).
  split; [exact H1 | exact H2].
Defined.

(** ** C8: the two rolling windows *)

(** Whatever the clock reads, as long as the three readings are taken in
    order within 30 days, the start of the current window passes the test
    of the current window and the test of the previous window. *)
Lemma rolling_windows_share_their_boundary (k : FinancialDashboard.Clock) :
  FinancialDashboard.read_endDateCurrent k <= FinancialDashboard.read_startDateCurrent k ->
  FinancialDashboard.read_startDateCurrent k <= FinancialDashboard.read_startDatePrevious k ->
  FinancialDashboard.read_startDatePrevious k
    <= FinancialDashboard.read_endDateCurrent k + 30 * Dates.msPerDay ->
  let t := FinancialDashboard.startDateCurrent k in
  Dates.ge t (FinancialDashboard.startDateCurrent k)
  && Dates.le t (FinancialDashboard.endDateCurrent k) = true
  /\ Dates.ge t (FinancialDashboard.startDatePrevious k)
     && Dates.le t (FinancialDashboard.endDatePrevious k) = true.
Proof.
  destruct k as [r1 r2 r3]. cbn. unfold Dates.setDate_back, Dates.msPerDay.
  intros H12 H23 H31. split; apply andb_true_intro; split; apply Z.leb_le; lia.
Qed.

(** C8. The clock of [noon_feb27] reads 2025-02-27 12:00:00.000 and the
    wallet of [boundary_wallet] was last used on 2025-01-28 at
    12:00:00.000, 30 days earlier to the millisecond. The KES entry of the
    MTD table counts that wallet as active in the current window and in
    the previous window: the two windows share the instant at which the
    previous one ends and the current one starts. *)
Theorem boundary_instant_is_counted_in_both_windows :
  exists snap,
    FinancialDashboard.loadData Dates.parse_iso boundary_wallet noon_feb27 = Return snap
    /\ map (fun e => (currency e, currentActiveUsers e, previousActiveUsers e))
           (FinancialDashboard.mtdGrowth snap)
       = [ ("KES", 1%float, 1%float); ("UGX", 0%float, 0%float); ("NGN", 0%float, 0%float);
           ("USD", 0%float, 0%float); ("CNY", 0%float, 0%float) ]
    /\ activeIn Dates.parse_iso (FinancialDashboard.startDateCurrent noon_feb27)
         (FinancialDashboard.endDateCurrent noon_feb27)
         (obj [("Last Transaction", "2025-01-28T12:00:00.000Z"); ("KES", "100.00")]) = true
    /\ activeIn Dates.parse_iso (FinancialDashboard.startDatePrevious noon_feb27)
         (FinancialDashboard.endDatePrevious noon_feb27)
         (obj [("Last Transaction", "2025-01-28T12:00:00.000Z"); ("KES", "100.00")]) = true.
Proof.
  eexists.
  split; [vm_compute; reflexivity |].
  split; [vm_compute; reflexivity |].
  split; vm_compute; reflexivity.
Qed.

(** ** C9: a wallet holding NGN only *)

Lemma length_filter_middle {A : Type} (f : A -> bool) (l1 l2 : list A) (x : A) :
  length (List.filter f (l1 ++ x :: l2))
  = (length (List.filter f (l1 ++ l2)) + (if f x then 1 else 0))%nat.
Proof.
  rewrite !List.filter_app, !length_app. cbn [List.filter].
  destruct (f x); cbn [length]; lia.
Qed.

Lemma lookup_countNonZero (u : gmap string string) (c c' : string) (m : gmap string nat) (n : nat) :
  m !! c = Some n ->
  Part001.countNonZero u c' m !! c
  = Some (n + (if decide (c' = c) then (if Part001.nonZeroText u c' then 1 else 0) else 0))%nat.
Proof.
  intros Hm. unfold Part001.countNonZero.
  destruct (Part001.nonZeroText u c').
  - rewrite Counter.lookup_incr. destruct (decide (c' = c)) as [-> | Hne].
    + rewrite Hm. cbn. f_equal. lia.
    + rewrite Hm. f_equal. lia.
  - rewrite Hm. destruct (decide (c' = c)); f_equal; lia.
Qed.







(** ** C10: the shape of the MTD table *)

Lemma find_ym_or_empty_absent (s : sheet) (ym : option string) (c : string) :
  (forall r : gmap string string, r ∈ s -> r !! c = None) ->
  find_ym_or_empty s ym !! c = None.
Proof.
  intros Habs. unfold find_ym_or_empty, find_ym.
  destruct (List.find _ s) as [r |] eqn:Hfind; cbn [default from_option id].
  - apply Habs. apply List.find_some in Hfind. apply list_elem_of_In. tauto.
  - apply lookup_empty.
Qed.

Lemma no_holder_no_count (Date_parse : string -> Dates.date) (l : sheet)
    (s e : Dates.date) (c : string) :
  (forall r : gmap string string, r ∈ l -> r !! c = None) ->
  length (List.filter (fun u => activeIn Date_parse s e u && holds u c) l) = 0%nat.
Proof.
  induction l as [| u l IH]; intros Habs; cbn [List.filter]; [reflexivity |].
  unfold holds at 1. rewrite (Habs u) by (apply elem_of_cons; left; reflexivity).
  cbn [truthy andb]. rewrite andb_false_r.
  apply IH. intros r Hr. apply Habs. apply elem_of_cons. right. exact Hr.
Qed.

Lemma zero_entry_of_absent_currency
    (wb : workbook) (cur prev : gmap string nat) (c : string) :
  c ∈ currencies -> absent wb c ->
  countOf cur c = 0%nat -> countOf prev c = 0%nat ->
  FinancialDashboard.mtdEntry wb cur prev c = zeroEntry c
  /\ Part002.mtdEntry wb cur prev c = zeroEntry c.
Proof.
  intros Hc Habs Hcur Hprev.
  assert (Hsheet : forall s ym,
            (forall r : gmap string string, r ∈ s ->
               r ∈ (Wallet_Balances wb ++ Monthly_Transaction_Count wb
                    ++ Monthly_Revenue wb ++ Monthly_Transaction_Volume wb)%list) ->
            find_ym_or_empty s ym !! c = None).
  { intros s ym Hin. apply find_ym_or_empty_absent. intros r Hr. apply Habs, Hin, Hr. }
  unfold countOf in Hcur, Hprev.
  unfold FinancialDashboard.mtdEntry, Part002.mtdEntry.
  rewrite !Hsheet by (intros r Hr; rewrite !elem_of_app; tauto).
  rewrite Hcur, Hprev.
  unfold currencies in Hc.
  repeat (apply elem_of_cons in Hc; destruct Hc as [-> | Hc]);
    [.. | apply elem_of_nil in Hc; destruct Hc].
  all: split; vm_compute; reflexivity.
Qed.

(** C10. The MTD table is the image of the fixed list KES, UGX, NGN, USD,
    CNY: whatever the sheets hold, it has exactly five entries, one per
    currency in that order, in the rolling-window revision and in the
    calendar-month revision, and a returned snapshot carries that table.
    The entry of a currency that is a property of no row of the snapshot
    has the value zero in every field. *)
Theorem mtd_table_has_the_five_currencies
    (Date_parse : string -> Dates.date) (LocalTZA : Z -> Z) (wb : workbook)
    (k : FinancialDashboard.Clock) :
  five_currency_table (FinancialDashboard.mtdGrowthData Date_parse wb k)
  /\ five_currency_table (Part002.mtdGrowthData Date_parse LocalTZA wb)
  /\ (forall snap, FinancialDashboard.loadData Date_parse wb k = Return snap ->
        FinancialDashboard.mtdGrowth snap = FinancialDashboard.mtdGrowthData Date_parse wb k)
  /\ (forall snap, Part002.loadData Date_parse LocalTZA wb = Return snap ->
        Part002.mtdGrowth snap = Part002.mtdGrowthData Date_parse LocalTZA wb)
  /\ (forall c, c ∈ currencies -> absent wb c ->
        zeroEntry c ∈ FinancialDashboard.mtdGrowthData Date_parse wb k
        /\ zeroEntry c ∈ Part002.mtdGrowthData Date_parse LocalTZA wb).
Proof.
  split; [split; reflexivity |]. split; [split; reflexivity |]. split; [| split].
  - unfold FinancialDashboard.loadData.
    destruct (totalUsers (User_Statistics wb) (Wallet_Balances wb)) as [tu | err]; cbn;
      intros snap H; [injection H as <-; reflexivity | discriminate H].
  - unfold Part002.loadData.
    destruct (totalUsers (User_Statistics wb) (Wallet_Balances wb)) as [tu | err]; cbn;
      intros snap H; [injection H as <-; reflexivity | discriminate H].
  - intros c Hc Habs.
    assert (Hcount : forall s e,
              countOf (getActiveUsersByCurrencyInRange Date_parse (Wallet_Balances wb) s e) c = 0%nat).
    { intros s e. unfold countOf. rewrite (Counter.count_spec Date_parse _ s e c Hc).
      cbn [default from_option id]. apply no_holder_no_count.
      intros r Hr. apply Habs. rewrite elem_of_app. left. exact Hr. }
    split.
    + unfold FinancialDashboard.mtdGrowthData.
      apply list_elem_of_fmap. exists c. split; [| exact Hc].
      symmetry. apply zero_entry_of_absent_currency; try assumption; apply Hcount.
    + unfold Part002.mtdGrowthData.
      apply list_elem_of_fmap. exists c. split; [| exact Hc].
      symmetry. apply zero_entry_of_absent_currency; try assumption; apply Hcount.
Qed.

Import MoreInputs.

(** ** Further properties of the active-user counter *)

Lemma lookup_countBalance_other (u : gmap string string) (c c' : string) (m : gmap string nat) :
  c' <> c -> countBalance u c' m !! c = m !! c.
Proof.
  intros Hne. unfold countBalance. destruct (truthy (u !! c') && gt _ 0); [| reflexivity].
  rewrite Counter.lookup_incr. destruct (decide (c' = c)); [congruence | reflexivity].
Qed.

Lemma lookup_countUser_other (Date_parse : string -> Dates.date) (s e : Dates.date)
    (m : gmap string nat) (u : gmap string string) (c : string) :
  c ∉ currencies -> countUser Date_parse s e m u !! c = m !! c.
Proof.
  intros Hc. unfold countUser.
  destruct (negb (truthy (u !! "Last Transaction"))); [reflexivity |].
  destruct (Dates.ge _ s && Dates.le _ e); [| reflexivity].
  unfold currencies in Hc.
  rewrite !lookup_countBalance_other; [reflexivity | ..];
    intros <-; apply Hc; listed.
Qed.

Lemma lookup_fold_countUser_other (Date_parse : string -> Dates.date) (s e : Dates.date)
    (l : sheet) (m : gmap string nat) (c : string) :
  c ∉ currencies -> fold_left (countUser Date_parse s e) l m !! c = m !! c.
Proof.
  intros Hc. revert m. induction l as [| u l IH]; intros m; cbn [fold_left]; [reflexivity |].
  rewrite IH. apply lookup_countUser_other. exact Hc.
Qed.

(** X1. [getActiveUsersByCurrencyInRange] returns an object with the five
    currency keys and no other: the count of a supported currency is the
    number of wallet rows that pass the window test and hold a positive
    balance in it, and any other key is missing. *)
Theorem active_counts_are_holders_in_window
    (Date_parse : string -> Dates.date) (walletBalances : sheet) (s e : Dates.date) (c : string) :
  getActiveUsersByCurrencyInRange Date_parse walletBalances s e !! c
  = if bool_decide (c ∈ currencies)
    then Some (length (List.filter (fun u => activeIn Date_parse s e u && holds u c) walletBalances))
    else None.
Proof.
  case_bool_decide as Hc.
  - apply Counter.count_spec. exact Hc.
  - unfold getActiveUsersByCurrencyInRange.
    rewrite (lookup_fold_countUser_other Date_parse s e walletBalances _ c Hc).
    unfold currencies in Hc.
    rewrite !not_elem_of_cons in Hc. destruct Hc as (H1 & H2 & H3 & H4 & H5 & _).
    rewrite !lookup_insert_ne by congruence. apply lookup_singleton_ne. congruence.
Qed.

Lemma length_filter_implies {A : Type} (f g : A -> bool) (l : list A) :
  (forall x, f x = true -> g x = true) ->
  (length (List.filter f l) <= length (List.filter g l))%nat.
Proof.
  intros Himp. induction l as [| x l IH]; cbn [List.filter]; [lia |].
  destruct (f x) eqn:Hf.
  - rewrite (Himp x Hf). cbn [length]. lia.
  - destruct (g x); cbn [length]; lia.
Qed.

Lemma length_filter_le_length {A : Type} (f : A -> bool) (l : list A) :
  (length (List.filter f l) <= length l)%nat.
Proof.
  induction l as [| x l IH]; cbn [List.filter]; [lia |].
  destruct (f x); cbn [length]; lia.
Qed.

Lemma countOf_at_most_distinct (Date_parse : string -> Dates.date) (l : sheet)
    (s e : Dates.date) (c : string) :
  (countOf (getActiveUsersByCurrencyInRange Date_parse l s e) c
   <= distinctActive Date_parse l s e)%nat.
Proof.
  unfold countOf. destruct (decide (c ∈ currencies)) as [Hc | Hc].
  - rewrite (Counter.count_spec Date_parse l s e c Hc). cbn [default from_option id].
    unfold distinctActive. apply length_filter_implies.
    intros u Hu. unfold activeIn in Hu.
    apply andb_true_iff in Hu. destruct Hu as [Hu _].
    apply andb_true_iff in Hu. destruct Hu as [_ Hu]. exact Hu.
  - unfold getActiveUsersByCurrencyInRange.
    rewrite (lookup_fold_countUser_other Date_parse s e l _ c Hc).
    unfold currencies in Hc.
    rewrite !not_elem_of_cons in Hc. destruct Hc as (H1 & H2 & H3 & H4 & H5 & _).
    rewrite !lookup_insert_ne by congruence.
    rewrite lookup_singleton_ne by congruence. cbn. lia.
Qed.

(** X2. No currency has more active users than there are distinct active
    users: in each window of [FinancialDashboard.js] and of [part_002]
    the count of a currency is at most the number of wallet rows that pass
    the window test, which is at most the number of wallet rows. *)
Theorem currency_count_at_most_distinct_count
    (Date_parse : string -> Dates.date) (LocalTZA : Z -> Z) (wb : workbook)
    (k : FinancialDashboard.Clock) (c : string) :
  (countOf (FinancialDashboard.currentActiveByCurrency Date_parse wb k) c
   <= FinancialDashboard.distinctActiveUsers Date_parse wb k)%nat
  /\ (FinancialDashboard.distinctActiveUsers Date_parse wb k
      <= length (Wallet_Balances wb))%nat
  /\ (countOf (Part002.currentActiveByCurrency Date_parse LocalTZA wb) c
      <= distinctActive Date_parse (Wallet_Balances wb) (Part002.febStart LocalTZA) (Part002.febEnd LocalTZA))%nat
  /\ (countOf (Part002.previousActiveByCurrency Date_parse LocalTZA wb) c
      <= distinctActive Date_parse (Wallet_Balances wb) (Part002.janStart LocalTZA) (Part002.janEnd LocalTZA))%nat.
Proof.
  split; [apply countOf_at_most_distinct |].
  split; [apply length_filter_le_length |].
  split; apply countOf_at_most_distinct.
Qed.

Lemma activeIn_invalid (Date_parse : string -> Dates.date) (s e : Dates.date)
    (u : gmap string string) :
  Date_parse (or_empty (u !! "Last Transaction")) = None ->
  activeIn Date_parse s e u = false.
Proof. intros H. unfold activeIn. rewrite H. cbn. apply andb_false_r. Qed.

(** X3. A wallet row whose last-transaction text the host does not read as
    a date is counted nowhere: wherever it stands in the sheet and
    whatever the window, the per-currency counts and the distinct count
    are what they are without the row. *)
Theorem unreadable_date_is_counted_nowhere
    (Date_parse : string -> Dates.date) (s e : Dates.date) (before after : sheet)
    (u : gmap string string) :
  Date_parse (or_empty (u !! "Last Transaction")) = None ->
  getActiveUsersByCurrencyInRange Date_parse (before ++ u :: after) s e
  = getActiveUsersByCurrencyInRange Date_parse (before ++ after) s e
  /\ distinctActive Date_parse (before ++ u :: after) s e
     = distinctActive Date_parse (before ++ after) s e.
Proof.
  intros Hnone. split.
  - apply map_eq. intros c. destruct (decide (c ∈ currencies)) as [Hc | Hc].
    + rewrite !(Counter.count_spec Date_parse _ s e c Hc).
      rewrite length_filter_middle, (activeIn_invalid Date_parse s e u Hnone).
      cbn [andb]. f_equal. lia.
    + unfold getActiveUsersByCurrencyInRange.
      rewrite !(lookup_fold_countUser_other Date_parse s e _ _ c Hc). reflexivity.
  - unfold distinctActive. rewrite length_filter_middle, Hnone. cbn. lia.
Qed.

Lemma unreadable_date_is_counted_nowhere_witness :
  getActiveUsersByCurrencyInRange Dates.parse_iso ([kes_holder] ++ undated :: [])
    (Part002.febStart EAT) (Part002.febEnd EAT)
  = getActiveUsersByCurrencyInRange Dates.parse_iso ([kes_holder] ++ [])
      (Part002.febStart EAT) (Part002.febEnd EAT).
Proof.
  eapply proj1.
  apply (unreadable_date_is_counted_nowhere Dates.parse_iso
           (Part002.febStart EAT) (Part002.febEnd EAT) [kes_holder] [] undated).
  vm_compute. reflexivity.
Defined.

(** ** The windows *)

Lemma calendar_bounds (LocalTZA : Z -> Z) (tza : Z) :
  same_offset_at_the_bounds LocalTZA tza ->
  Part002.janStart LocalTZA = Some (1735689600000 - tza)
  /\ Part002.janEnd LocalTZA = Some (1738367999000 - tza)
  /\ Part002.febStart LocalTZA = Some (1738368000000 - tza)
  /\ Part002.febEnd LocalTZA = Some (1740787199000 - tza).
Proof.
  intros (H1 & H2 & H3 & H4).
  unfold Part002.janStart, Part002.janEnd, Part002.febStart, Part002.febEnd, Dates.local.
  cbv zeta. rewrite H1, H2, H3, H4. repeat split.
Qed.

(** X4. In a zone whose offset from UTC is the same at the four bounds,
    the two calendar windows of [part_002] never both hold a
    timestamp, and they leave gaps: a last transaction later than
    23:59:59.000 on the last day of January and earlier than the next
    midnight (local time) is in neither month, and one later than
    23:59:59.000 on 28 February is not in February, so that such a
    wallet is not counted as active at all. *)
Theorem calendar_windows_are_disjoint_with_gaps
    (Date_parse : string -> Dates.date) (LocalTZA : Z -> Z) (tza : Z)
    (u : gmap string string) (t : Z) :
  same_offset_at_the_bounds LocalTZA tza ->
  Date_parse (or_empty (u !! "Last Transaction")) = Some t ->
  activeIn Date_parse (Part002.janStart LocalTZA) (Part002.janEnd LocalTZA) u
  && activeIn Date_parse (Part002.febStart LocalTZA) (Part002.febEnd LocalTZA) u = false
  /\ (Dates.UTC 2025 0 31 23 59 59 - tza < t < Dates.UTC 2025 1 1 0 0 0 - tza ->
      activeIn Date_parse (Part002.janStart LocalTZA) (Part002.janEnd LocalTZA) u = false
      /\ activeIn Date_parse (Part002.febStart LocalTZA) (Part002.febEnd LocalTZA) u = false)
  /\ (Dates.UTC 2025 1 28 23 59 59 - tza < t ->
      activeIn Date_parse (Part002.febStart LocalTZA) (Part002.febEnd LocalTZA) u = false).
Proof.
  intros Hzone Ht.
  destruct (calendar_bounds LocalTZA tza Hzone) as (Hjs & Hje & Hfs & Hfe).
  unfold activeIn. rewrite Ht, Hjs, Hje, Hfs, Hfe. cbn [Dates.ge Dates.le].
  change (Dates.UTC 2025 0 31 23 59 59) with 1738367999000.
  change (Dates.UTC 2025 1 1 0 0 0) with 1738368000000.
  change (Dates.UTC 2025 1 28 23 59 59) with 1740787199000.
  split; [| split].
  - destruct (truthy (u !! "Last Transaction")); cbn [andb]; [| reflexivity].
    destruct (Z.leb_spec (1735689600000 - tza) t), (Z.leb_spec t (1738367999000 - tza)),
      (Z.leb_spec (1738368000000 - tza) t), (Z.leb_spec t (1740787199000 - tza));
      cbn; try reflexivity; lia.
  - intros Hgap. split; apply andb_false_iff; right.
    + apply andb_false_iff. right. apply Z.leb_gt. lia.
    + apply andb_false_iff. left. apply Z.leb_gt. lia.
  - intros Hlate. apply andb_false_iff. right.
    apply andb_false_iff. right. apply Z.leb_gt. lia.
Qed.

Lemma calendar_windows_are_disjoint_with_gaps_witness :
  activeIn Dates.parse_iso (Part002.janStart EAT) (Part002.janEnd EAT) last_second_of_january = false
  /\ activeIn Dates.parse_iso (Part002.febStart EAT) (Part002.febEnd EAT) last_second_of_january = false.
Proof.
  apply (calendar_windows_are_disjoint_with_gaps Dates.parse_iso EAT 10800000
           last_second_of_january 1738357199500).
  - repeat split.
  - vm_compute. reflexivity.
  - vm_compute. split; reflexivity.
Defined.

(** X5. With a steady clock the two rolling windows of
    [FinancialDashboard.js] cover the last 60 days without a gap, and the
    only timestamp that passes both tests is the instant 30 days before
    the clock's reading. *)
Theorem rolling_windows_cover_sixty_days (now t : Z) :
  let k := steady now in
  let current :=
    inside (Some t) (FinancialDashboard.startDateCurrent k) (FinancialDashboard.endDateCurrent k) in
  let previous :=
    inside (Some t) (FinancialDashboard.startDatePrevious k) (FinancialDashboard.endDatePrevious k) in
  (current && previous = true <-> t = now - 30 * Dates.msPerDay)
  /\ (current || previous = true <-> now - 60 * Dates.msPerDay <= t <= now).
Proof.
  cbv zeta.
  unfold inside, steady, FinancialDashboard.endDatePrevious,
    FinancialDashboard.startDateCurrent, FinancialDashboard.endDateCurrent,
    FinancialDashboard.startDatePrevious, Dates.setDate_back, Dates.msPerDay.
  cbn [Dates.ge Dates.le FinancialDashboard.read_startDateCurrent
       FinancialDashboard.read_endDateCurrent FinancialDashboard.read_startDatePrevious].
  rewrite !andb_true_iff, orb_true_iff, !andb_true_iff, !Z.leb_le. lia.
Qed.

(** ** The log-scale floor *)

Lemma log_floor_positive (x : number) : PrimFloat.leb (log_floor x) 0 = false.
Proof.
  unfold log_floor. destruct (PrimFloat.leb x 0) eqn:Hx; [reflexivity | exact Hx].
Qed.

Lemma log_floor_idempotent (x : number) : log_floor (log_floor x) = log_floor x.
Proof.
  unfold log_floor at 1. rewrite log_floor_positive. reflexivity.
Qed.

Lemma log_floor_floored (x : number) : floored_value x (log_floor x).
Proof.
  unfold floored_value, log_floor. split; intros H; rewrite H; reflexivity.
Qed.

(** X6. [transformForLogScale] keeps the number and the order of the
    points. On the trend series it keeps the period of each point and
    replaces each of the four listed values (transactions, revenue,
    users, volume) by 0.1 when the value is [<= 0], leaving it as it is
    otherwise. On a growth series it keeps the period and the growth of
    each point, negative or [null], and treats the listed metric in the
    same way. No listed value of the result is [<= 0], and applying the
    transformation a second time changes nothing. *)
Theorem log_scale_transform_leaves_no_value_below_zero
    (l : list TrendPoint) (g : list GrowthPoint) :
  length (transformTrends l) = length l
  /\ (forall i p, l !! i = Some p ->
        exists q, transformTrends l !! i = Some q
          /\ month q = month p
          /\ floored_value (transactions p) (transactions q)
          /\ floored_value (revenue p) (revenue q)
          /\ floored_value (users p) (users q)
          /\ floored_value (volume p) (volume q))
  /\ length (transformGrowth g) = length g
  /\ (forall i p, g !! i = Some p ->
        exists q, transformGrowth g !! i = Some q
          /\ g_month q = g_month p
          /\ growth q = growth p
          /\ floored_value (metric p) (metric q))
  /\ (forall p, p ∈ transformTrends l ->
        PrimFloat.leb (transactions p) 0 = false /\ PrimFloat.leb (revenue p) 0 = false
        /\ PrimFloat.leb (users p) 0 = false /\ PrimFloat.leb (volume p) 0 = false)
  /\ (forall p, p ∈ transformGrowth g -> PrimFloat.leb (metric p) 0 = false)
  /\ transformTrends (transformTrends l) = transformTrends l
  /\ transformGrowth (transformGrowth g) = transformGrowth g.
Proof.
  split; [apply GrowthLoop.length_transformTrends |].
  split.
  { intros i p Hi. eexists. split.
    - unfold transformTrends. change map with (@fmap list _).
      rewrite list_lookup_fmap, Hi. reflexivity.
    - cbn [month transactions revenue users volume].
      split; [reflexivity |]. repeat split; apply log_floor_floored. }
  split; [apply GrowthLoop.length_transformGrowth |].
  split.
  { intros i p Hi. eexists. split.
    - unfold transformGrowth. change map with (@fmap list _).
      rewrite list_lookup_fmap, Hi. reflexivity.
    - cbn [g_month growth metric].
      split; [reflexivity |]. split; [reflexivity |]. apply log_floor_floored. }
  split.
  { intros p Hp. unfold transformTrends in Hp.
    apply list_elem_of_fmap in Hp. destruct Hp as (q & -> & _). cbn.
    repeat split; apply log_floor_positive. }
  split.
  { intros p Hp. unfold transformGrowth in Hp.
    apply list_elem_of_fmap in Hp. destruct Hp as (q & -> & _). cbn.
    apply log_floor_positive. }
  split.
  - unfold transformTrends. rewrite map_map. apply map_ext. intros p. cbn.
    rewrite !log_floor_idempotent. reflexivity.
  - unfold transformGrowth. rewrite map_map. apply map_ext. intros p. cbn.
    rewrite !log_floor_idempotent. reflexivity.
Qed.

(** ** Repeated rows in the joined sheets *)

Lemma find_ym_first_match_wins (l1 l2 l3 : sheet) (r r' : gmap string string)
    (ym : option string) :
  r' !! "YearMonth" = r !! "YearMonth" ->
  find_ym (l1 ++ r :: l2 ++ r' :: l3) ym = find_ym (l1 ++ r :: l2 ++ l3) ym.
Proof.
  intros Hkey. unfold find_ym.
  induction l1 as [| x l1 IH]; cbn [app List.find].
  - destruct (bool_decide (r !! "YearMonth" = ym)) eqn:Hr; [reflexivity |].
    induction l2 as [| y l2 IH2]; cbn [app List.find].
    + rewrite Hkey, Hr. reflexivity.
    + destruct (bool_decide (y !! "YearMonth" = ym)); [reflexivity | exact IH2].
  - destruct (bool_decide (x !! "YearMonth" = ym)); [reflexivity | exact IH].
Qed.

Lemma find_ym_or_empty_first_match_wins (l1 l2 l3 : sheet) (r r' : gmap string string)
    (ym : option string) :
  r' !! "YearMonth" = r !! "YearMonth" ->
  find_ym_or_empty (l1 ++ r :: l2 ++ r' :: l3) ym = find_ym_or_empty (l1 ++ r :: l2 ++ l3) ym.
Proof.
  intros Hkey. unfold find_ym_or_empty.
  rewrite (find_ym_first_match_wins l1 l2 l3 r r' ym Hkey). reflexivity.
Qed.

Lemma trendPoint_ext (wb1 wb2 : workbook) (item : gmap string string) :
  (forall ym, find_ym (Monthly_Revenue wb1) ym = find_ym (Monthly_Revenue wb2) ym) ->
  (forall ym, find_ym (Monthly_Transaction_Volume wb1) ym
              = find_ym (Monthly_Transaction_Volume wb2) ym) ->
  FinancialDashboard.trendPoint wb1 item = FinancialDashboard.trendPoint wb2 item.
Proof.
  intros Hr Hv. unfold FinancialDashboard.trendPoint, find_ym_or_empty.
  rewrite Hr, Hv. reflexivity.
Qed.

Lemma mtdEntry_ext (wb1 wb2 : workbook) (cur prev : gmap string nat) (c : string) :
  Monthly_Transaction_Count wb1 = Monthly_Transaction_Count wb2 ->
  (forall ym, find_ym (Monthly_Revenue wb1) ym = find_ym (Monthly_Revenue wb2) ym) ->
  (forall ym, find_ym (Monthly_Transaction_Volume wb1) ym
              = find_ym (Monthly_Transaction_Volume wb2) ym) ->
  FinancialDashboard.mtdEntry wb1 cur prev c = FinancialDashboard.mtdEntry wb2 cur prev c.
Proof.
  intros Hc Hr Hv. unfold FinancialDashboard.mtdEntry, find_ym_or_empty.
  rewrite Hc, !Hr, !Hv. reflexivity.
Qed.

(** [loadData] reads the revenue and the volume sheet through [find] on
    the period key only. *)
Lemma loadData_ext (Date_parse : string -> Dates.date) (wb1 wb2 : workbook)
    (k : FinancialDashboard.Clock) :
  Wallet_Balances wb1 = Wallet_Balances wb2 ->
  Monthly_Transaction_Count wb1 = Monthly_Transaction_Count wb2 ->
  User_Statistics wb1 = User_Statistics wb2 ->
  (forall ym, find_ym (Monthly_Revenue wb1) ym = find_ym (Monthly_Revenue wb2) ym) ->
  (forall ym, find_ym (Monthly_Transaction_Volume wb1) ym
              = find_ym (Monthly_Transaction_Volume wb2) ym) ->
  FinancialDashboard.loadData Date_parse wb1 k = FinancialDashboard.loadData Date_parse wb2 k.
Proof.
  intros Hw Hc Hu Hr Hv.
  assert (Ht : FinancialDashboard.monthlyTrendsRaw wb1 = FinancialDashboard.monthlyTrendsRaw wb2).
  { unfold FinancialDashboard.monthlyTrendsRaw. rewrite Hc.
    apply map_ext. intros item. apply trendPoint_ext; assumption. }
  assert (Hm : FinancialDashboard.mtdGrowthData Date_parse wb1 k
               = FinancialDashboard.mtdGrowthData Date_parse wb2 k).
  { unfold FinancialDashboard.mtdGrowthData, FinancialDashboard.currentActiveByCurrency,
      FinancialDashboard.previousActiveByCurrency. rewrite Hw.
    apply map_ext. intros c. apply mtdEntry_ext; assumption. }
  unfold FinancialDashboard.loadData, FinancialDashboard.growthRatesRaw,
    FinancialDashboard.distinctActiveUsers, FinancialDashboard.totalKesRevenue.
  rewrite Ht, Hm, Hw, Hc, Hu, Hr. reflexivity.
Qed.

(** X8. In the revenue sheet and in the volume sheet the first row of a
    period wins: a further row with the key of an earlier row changes
    nothing in the output of [loadData], wherever it stands after that
    row. *)
Theorem later_rows_of_a_period_are_ignored
    (Date_parse : string -> Dates.date) (wb : workbook) (k : FinancialDashboard.Clock)
    (l1 l2 l3 : sheet) (r r' : gmap string string) :
  r' !! "YearMonth" = r !! "YearMonth" ->
  FinancialDashboard.loadData Date_parse (with_revenue wb (l1 ++ r :: l2 ++ r' :: l3)) k
  = FinancialDashboard.loadData Date_parse (with_revenue wb (l1 ++ r :: l2 ++ l3)) k
  /\ FinancialDashboard.loadData Date_parse (with_volume wb (l1 ++ r :: l2 ++ r' :: l3)) k
     = FinancialDashboard.loadData Date_parse (with_volume wb (l1 ++ r :: l2 ++ l3)) k.
Proof.
  intros Hkey.
  split; apply loadData_ext; try reflexivity; intros ym;
    unfold with_revenue, with_volume;
    cbn [Monthly_Revenue Monthly_Transaction_Volume];
    try reflexivity; apply find_ym_first_match_wins; exact Hkey.
Qed.

Lemma later_rows_of_a_period_are_ignored_witness :
  FinancialDashboard.loadData Dates.parse_iso
    (with_revenue scenario ([] ++ february_first :: [] ++ february_again :: [])) noon_feb27
  = FinancialDashboard.loadData Dates.parse_iso
      (with_revenue scenario ([] ++ february_first :: [] ++ [])) noon_feb27.
Proof.
  eapply proj1.
  apply (later_rows_of_a_period_are_ignored Dates.parse_iso scenario noon_feb27
           [] [] [] february_first february_again).
  reflexivity.
Defined.

(** ** Headline figures and the trend series *)

Lemma pointOf_map_filter (f : gmap string string -> TrendPoint) (l : sheet) (ym : string) :
  (forall item, month (f item) = item !! "YearMonth") ->
  ym <> "Total" ->
  pointOf ym (map f (List.filter notTotal l)) = f <$> find_ym l (Some ym).
Proof.
  intros Hf Hym. unfold pointOf, find_ym.
  induction l as [| item l IH]; cbn [List.filter map List.find]; [reflexivity |].
  unfold notTotal at 1.
  destruct (bool_decide (item !! "YearMonth" = Some "Total")) eqn:Htot; cbn [negb].
  - apply bool_decide_eq_true in Htot.
    rewrite (bool_decide_eq_false_2 (item !! "YearMonth" = Some ym)); [exact IH |].
    rewrite Htot. intros [= E]. apply Hym. symmetry. exact E.
  - cbn [map List.find]. rewrite Hf.
    destruct (bool_decide (item !! "YearMonth" = Some ym)); [reflexivity | exact IH].
Qed.

Lemma rowToKES_empty : rowToKES exchangeRates ∅ = 0%float.
Proof. reflexivity. Qed.

(** X9. The headline figures of February agree with the trend series as
    [loadData] computes it (before the floor of the charts): when the
    series has a point of the period 2025-02, the first such point
    carries the total of transactions and the total revenue of the key
    metrics; when it has none, the total of transactions is 0. This holds
    in [FinancialDashboard.js] and in [part_002]. *)
Theorem february_headline_is_the_february_trend_point (wb : workbook) :
  match pointOf "2025-02" (FinancialDashboard.monthlyTrendsRaw wb) with
  | Some p =>
      transactions p = FinancialDashboard.totalTransactionsOf (Monthly_Transaction_Count wb)
      /\ revenue p = FinancialDashboard.totalKesRevenue (Monthly_Revenue wb)
  | None =>
      FinancialDashboard.totalTransactionsOf (Monthly_Transaction_Count wb) = 0%float
  end
  /\ match pointOf "2025-02" (Part002.monthlyTrendsRaw wb) with
     | Some p =>
         transactions p = Part002.totalTransactionsOf (Monthly_Transaction_Count wb)
         /\ revenue p = Part002.totalKesRevenue (Monthly_Revenue wb)
     | None =>
         Part002.totalTransactionsOf (Monthly_Transaction_Count wb) = 0%float
     end.
Proof.
  unfold FinancialDashboard.monthlyTrendsRaw, Part002.monthlyTrendsRaw.
  rewrite !pointOf_map_filter by (try reflexivity; discriminate).
  unfold FinancialDashboard.totalTransactionsOf, Part002.totalTransactionsOf,
    FinancialDashboard.totalKesRevenue, Part002.totalKesRevenue.
  destruct (find_ym (Monthly_Transaction_Count wb) (Some "2025-02")) as [item |] eqn:Hitem;
    cbn [fmap option_fmap option_map]; [| split; reflexivity].
  assert (Hym : item !! "YearMonth" = Some "2025-02").
  { unfold find_ym in Hitem. apply find_some in Hitem. destruct Hitem as [_ Hb].
    apply bool_decide_eq_true in Hb. exact Hb. }
  unfold FinancialDashboard.trendPoint, Part002.trendPoint, find_ym_or_empty.
  cbn [transactions revenue]. rewrite Hym.
  destruct (find_ym (Monthly_Revenue wb) (Some "2025-02")); cbn [default from_option id];
    repeat split; reflexivity.
Qed.

(** ** The two revisions of the MTD table *)

Lemma volKES_convertToKES (c : string) (v : number) :
  c ∈ currencies ->
  FinancialDashboard.volKES c v = Part002.convertToKES v (Some c) exchangeRates.
Proof.
  intros Hc. unfold currencies in Hc.
  repeat (apply elem_of_cons in Hc; destruct Hc as [-> | Hc]);
    [.. | apply elem_of_nil in Hc; destruct Hc]; reflexivity.
Qed.

(** X10. The MTD tables of [FinancialDashboard.js] and of [part_002] are
    built from the same sheets and counts in the same way but for one
    field: [part_002] takes the growth of the volume between the two
    volumes in KES, [FinancialDashboard.js] between the volumes in the
    currency itself. Every other field of every entry is the same. *)
Theorem mtd_tables_differ_in_volume_growth_only
    (wb : workbook) (cur prev : gmap string nat) :
  map (Part002.mtdEntry wb cur prev) currencies
  = map (fun c =>
           let e := FinancialDashboard.mtdEntry wb cur prev c in
           with_volume_growth (calcGrowth (volumeKES e) (previousVolumeKES e)) e)
        currencies.
Proof.
  apply Forall_fmap_ext_1. apply Forall_forall. intros c Hc.
  unfold Part002.mtdEntry, FinancialDashboard.mtdEntry, with_volume_growth.
  cbv zeta.
  cbn [currency transactionCountGrowth currentTransactionCount previousTransactionCount
       transactionVolumeGrowth currentTransactionVolume previousTransactionVolume
       volumeKES previousVolumeKES revenueGrowth currentRevenue previousRevenue
       userGrowth currentActiveUsers previousActiveUsers].
  rewrite !(volKES_convertToKES c _ Hc). reflexivity.
Qed.

(** ** The fee loop of [App.js] *)

Lemma totalRevenueFrom_throws (rates : gmap string number) (l : sheet) (acc : number) :
  Exists (fun r => r !! "Total_Fees_Original" = None) l ->
  App.totalRevenueFrom rates acc l = Throw replace_of_undefined.
Proof.
  intros Hex. revert acc. induction Hex as [r l Hr | r l Hex IH]; intros acc;
    cbn [App.totalRevenueFrom]; unfold App.addFee.
  - rewrite Hr. reflexivity.
  - destruct (r !! "Total_Fees_Original") as [fee |]; [| reflexivity].
    destruct (bool_decide (r !! "Currency" = Some "KES")); [apply IH |].
    destruct (truthy_rate rates (App.key (r !! "Currency"))); apply IH.
Qed.

Lemma totalRevenueFrom_returns (rates : gmap string number) (l : sheet) (acc : number) :
  Forall (fun r => r !! "Total_Fees_Original" <> None) l ->
  exists total, App.totalRevenueFrom rates acc l = Return total.
Proof.
  intros Hall. revert acc. induction Hall as [| r l Hr Hall IH]; intros acc;
    cbn [App.totalRevenueFrom]; unfold App.addFee.
  - eexists. reflexivity.
  - destruct (r !! "Total_Fees_Original") as [fee |]; [| congruence].
    destruct (bool_decide (r !! "Currency" = Some "KES")); [apply IH |].
    destruct (truthy_rate rates (App.key (r !! "Currency"))); apply IH.
Qed.

(** X11. The fee loop of [App.js] over [Currency_Summary] ends with a
    total exactly when every row has a [Total_Fees_Original]; one row
    without it, wherever it stands and whatever its currency, makes the
    loop throw the [TypeError] of reading [.replace] of [undefined], so
    that no total is produced. *)
Theorem fee_loop_throws_exactly_on_a_missing_fee
    (rates : gmap string number) (acc : number) (currencySummary : sheet) :
  ((exists total, App.totalRevenueFrom rates acc currencySummary = Return total)
   <-> Forall (fun r => r !! "Total_Fees_Original" <> None) currencySummary)
  /\ (App.totalRevenueFrom rates acc currencySummary = Throw replace_of_undefined
      <-> Exists (fun r => r !! "Total_Fees_Original" = None) currencySummary).
Proof.
  assert (Hdec : Forall (fun r : gmap string string => r !! "Total_Fees_Original" <> None)
                   currencySummary
                 \/ Exists (fun r : gmap string string => r !! "Total_Fees_Original" = None)
                      currencySummary).
  { induction currencySummary as [| r l IH]; [left; constructor |].
    destruct (r !! "Total_Fees_Original") as [fee |] eqn:Hr.
    - destruct IH as [IH | IH].
      + left. constructor; [congruence | exact IH].
      + right. apply Exists_cons_tl. exact IH.
    - right. apply Exists_cons_hd. exact Hr. }
  split; split.
  - intros [total Ht]. destruct Hdec as [Hall | Hex]; [exact Hall |].
    rewrite (totalRevenueFrom_throws rates _ acc Hex) in Ht. discriminate.
  - apply totalRevenueFrom_returns.
  - intros Ht. destruct Hdec as [Hall | Hex]; [| exact Hex].
    destruct (totalRevenueFrom_returns rates _ acc Hall) as [total Hr].
    rewrite Hr in Ht. discriminate.
  - apply totalRevenueFrom_throws.
Qed.

(** ** The counter of [part_001] *)

Lemma lookup_countActive (m : gmap string nat) (u : gmap string string) (c : string) (n : nat) :
  c ∈ currencies -> m !! c = Some n ->
  Part001.countActive m u !! c
  = Some (n + (if transacting u
               then (if decide (c = "KES") then 1 else 0)
                    + (if Part001.nonZeroText u c then 1 else 0)
               else 0))%nat.
Proof.
  intros Hc Hm. unfold Part001.countActive. fold (transacting u).
  destruct (transacting u); [| rewrite Hm; f_equal; lia].
  assert (Hk : incr "KES" m !! c = Some (n + (if decide (c = "KES") then 1 else 0))%nat).
  { rewrite Counter.lookup_incr. destruct (decide ("KES" = c)) as [<- | Hne].
    - rewrite Hm. cbn [default from_option id]. destruct (decide ("KES" = "KES"));
        [f_equal; lia | congruence].
    - rewrite Hm. destruct (decide (c = "KES")); [congruence | f_equal; lia]. }
  rewrite (lookup_countNonZero u c "CNY" _ _
            (lookup_countNonZero u c "USD" _ _
              (lookup_countNonZero u c "NGN" _ _
                (lookup_countNonZero u c "UGX" _ _
                  (lookup_countNonZero u c "KES" _ _ Hk))))).
  f_equal. unfold currencies in Hc.
  repeat (apply elem_of_cons in Hc; destruct Hc as [-> | Hc]);
    [.. | apply elem_of_nil in Hc; destruct Hc].
  all: repeat case_decide; try congruence.
  all: destruct (Part001.nonZeroText u _); lia.
Qed.

Lemma lookup_fold_countActive (l : sheet) (m : gmap string nat) (c : string) (n : nat) :
  c ∈ currencies -> m !! c = Some n ->
  fold_left Part001.countActive l m !! c
  = Some (n + (if decide (c = "KES") then length (List.filter transacting l) else 0)
            + length (List.filter (fun u => transacting u && Part001.nonZeroText u c) l))%nat.
Proof.
  intros Hc. revert m n. induction l as [| u l IH]; intros m n Hm; cbn [fold_left List.filter].
  - rewrite Hm. cbn [length]. f_equal. destruct (decide (c = "KES")); lia.
  - rewrite (IH _ _ (lookup_countActive m u c n Hc Hm)).
    destruct (transacting u); cbn [andb]; [| f_equal; lia].
    destruct (Part001.nonZeroText u c), (decide (c = "KES")); cbn [length]; f_equal; lia.
Qed.

(** X12. What the counter of [part_001] counts, over the wallets active
    in the last 30 days: for a currency other than KES, the active
    wallets with a positive 'Transaction Count' whose balance text in the
    currency is neither empty nor a zero text; for KES, every active
    wallet with a positive 'Transaction Count' once, and once more when
    its KES balance is not a zero text. So the KES count is at most twice
    the number of active wallets, and the count of any other currency at
    most that number. *)
Theorem part001_counts_transacting_wallets
    (Date_parse : string -> Dates.date) (walletBalances : sheet)
    (thirtyDaysAgo : Dates.date) (c : string) :
  c ∈ currencies ->
  let active := Part001.activeUsers Date_parse walletBalances thirtyDaysAgo in
  let count := Part001.activeUsersByCurrency Date_parse walletBalances thirtyDaysAgo in
  count !! c
  = Some ((if decide (c = "KES") then length (List.filter transacting active) else 0)
          + length (List.filter (fun u => transacting u && Part001.nonZeroText u c) active))%nat
  /\ (countOf count "KES" <= 2 * length active)%nat
  /\ (c <> "KES" -> countOf count c <= length active)%nat.
Proof.
  intros Hc active count.
  assert (Hl : forall c', c' ∈ currencies ->
    count !! c'
    = Some ((if decide (c' = "KES") then length (List.filter transacting active) else 0)
            + length (List.filter (fun u => transacting u && Part001.nonZeroText u c') active))%nat).
  { intros c' Hc'. unfold count, Part001.activeUsersByCurrency. fold active.
    rewrite (lookup_fold_countActive active _ c' 0%nat Hc').
    - f_equal.
    - unfold currencies in Hc'.
      repeat (apply elem_of_cons in Hc'; destruct Hc' as [-> | Hc']);
        [.. | apply elem_of_nil in Hc'; destruct Hc']; vm_compute; reflexivity. }
  split; [exact (Hl c Hc) |]. split.
  - unfold countOf. rewrite (Hl "KES") by listed.
    cbn [default from_option id]. destruct (decide ("KES" = "KES")); [| congruence].
    pose proof (length_filter_le_length transacting active).
    pose proof (length_filter_le_length
                  (fun u => transacting u && Part001.nonZeroText u "KES") active).
    lia.
  - intros Hne. unfold countOf. rewrite (Hl c Hc).
    cbn [default from_option id]. destruct (decide (c = "KES")); [congruence |].
    pose proof (length_filter_le_length
                  (fun u => transacting u && Part001.nonZeroText u c) active).
    lia.
Qed.

Lemma part001_counts_transacting_wallets_witness :
  (countOf (Part001.activeUsersByCurrency Dates.parse_iso
              [ngn_only_transacting] thirtyDaysAgo_feb27) "KES"
   <= 2 * length (Part001.activeUsers Dates.parse_iso
                    [ngn_only_transacting] thirtyDaysAgo_feb27))%nat.
Proof.
  apply (part001_counts_transacting_wallets Dates.parse_iso
           [ngn_only_transacting] thirtyDaysAgo_feb27 "KES").
  listed.
Defined.

(** ** The total of users in [part_001] *)

Lemma totalUsersFrom_app (l1 l2 : sheet) (t : number) :
  Part001Data.totalUsersFrom t (l1 ++ l2)
  = (t' ← Part001Data.totalUsersFrom t l1; Part001Data.totalUsersFrom t' l2).
Proof.
  revert t. induction l1 as [| item l1 IH]; intros t; cbn [app Part001Data.totalUsersFrom].
  - reflexivity.
  - destruct (Part001Data.setTotalUsers t item) as [t' | err]; cbn; [apply IH | reflexivity].
Qed.

Lemma totalUsersFrom_no_row (l : sheet) (t : number) :
  Forall (fun item => item !! "Metric" <> Some "Total Users") l ->
  Part001Data.totalUsersFrom t l = Return t.
Proof.
  intros Hall. induction Hall as [| item l Hitem Hall IH]; cbn [Part001Data.totalUsersFrom];
    [reflexivity |].
  unfold Part001Data.setTotalUsers. rewrite bool_decide_eq_false_2 by exact Hitem.
  cbn. exact IH.
Qed.

(** X13. In [part_001] the total of users is read in a loop over
    [User_Statistics], so the last 'Total Users' row wins, where the
    later revisions take the first: with rows before it that all carry a
    [Value], and no such row after it, the total is the integer read from
    its value. A sheet without such a row gives 0, not the number of
    wallets. *)
Theorem part001_last_total_users_row_wins
    (before after : sheet) (item : gmap string string) (v : string) :
  Forall (fun r => r !! "Metric" = Some "Total Users" -> r !! "Value" <> None) before ->
  item !! "Metric" = Some "Total Users" ->
  item !! "Value" = Some v ->
  Forall (fun r => r !! "Metric" <> Some "Total Users") after ->
  Part001Data.totalUsers (before ++ item :: after) = Return (parseIntAuto (remove_commas v))
  /\ Part001Data.totalUsers after = Return 0%float.
Proof.
  intros Hbefore Hmetric Hvalue Hafter. split.
  - unfold Part001Data.totalUsers. rewrite totalUsersFrom_app.
    assert (Hb : forall t, exists t', Part001Data.totalUsersFrom t before = Return t').
    { induction Hbefore as [| r l Hr Hl IH]; intros t; cbn [Part001Data.totalUsersFrom].
      - eexists. reflexivity.
      - unfold Part001Data.setTotalUsers.
        destruct (bool_decide (r !! "Metric" = Some "Total Users")) eqn:Hm.
        + apply bool_decide_eq_true in Hm. specialize (Hr Hm).
          destruct (r !! "Value"); [cbn; apply IH | congruence].
        + cbn. apply IH. }
    destruct (Hb 0%float) as [t' Ht']. rewrite Ht'.
    cbn [mbind completion_bind Part001Data.totalUsersFrom].
    unfold Part001Data.setTotalUsers.
    rewrite bool_decide_eq_true_2 by exact Hmetric. rewrite Hvalue.
    cbn. apply totalUsersFrom_no_row. exact Hafter.
  - apply totalUsersFrom_no_row. exact Hafter.
Qed.

Lemma part001_last_total_users_row_wins_witness :
  Part001Data.totalUsers two_totals = Return 2000%float.
Proof.
  eapply eq_trans.
  - eapply proj1.
    apply (part001_last_total_users_row_wins
             [ list_to_map [("Metric", "Total Users"); ("Value", "1,250")] ] []
             (list_to_map [("Metric", "Total Users"); ("Value", "2,000")]) "2,000").
    + constructor; [| constructor]. intros _. vm_compute. discriminate.
    + vm_compute. reflexivity.
    + vm_compute. reflexivity.
    + constructor.
  - vm_compute. reflexivity.
Defined.

(** ** The MTD table of [part_001] *)

Lemma amount_or_zero (s : sheet) (ym : option string) (c : string) :
  Part001Data.amount (find_ym s ym) c = parseFloat (or_zero (find_ym_or_empty s ym !! c)).
Proof.
  unfold Part001Data.amount, find_ym_or_empty.
  destruct (find_ym s ym) as [r |]; cbn [default from_option id].
  - unfold or_zero, cell, or_empty. destruct (r !! c) as [x |]; [| reflexivity].
    destruct (truthy (Some x)); reflexivity.
  - reflexivity.
Qed.

(** X14. For every currency the MTD entry of [part_001] carries the same
    amounts of revenue, transactions and volume, current and previous,
    and the same three growth rates as the entry of
    [FinancialDashboard.js] on the same sheets, whatever the counts of
    active users: the guarded reads [data && data[currency] ? ... : 0] of
    the one and the defaults [(find(...) || {})[currency] || 0] of the
    other give the same numbers. *)
Theorem part001_mtd_amounts_agree_with_the_dashboard
    (wb : workbook) (monthlyActiveUsers : sheet)
    (active cur prev : gmap string nat) :
  let e001 c := Part001Data.fields
                  (Part001Data.mtdEntry (Monthly_Transaction_Count wb) (Monthly_Revenue wb)
                     (Monthly_Transaction_Volume wb) monthlyActiveUsers active c) in
  let e c := FinancialDashboard.mtdEntry wb cur prev c in
  forall f : MtdEntry -> number,
    f ∈ [ currentRevenue; previousRevenue; revenueGrowth;
          currentTransactionCount; previousTransactionCount; transactionCountGrowth;
          currentTransactionVolume; previousTransactionVolume; transactionVolumeGrowth ] ->
    map (fun c => f (e001 c)) currencies = map (fun c => f (e c)) currencies.
Proof.
  intros e001 e f Hf. apply map_ext. intros c.
  unfold e001, e, Part001Data.mtdEntry, FinancialDashboard.mtdEntry.
  cbv zeta. cbn [Part001Data.fields]. rewrite !amount_or_zero.
  repeat (apply elem_of_cons in Hf; destruct Hf as [-> | Hf]);
    [.. | apply elem_of_nil in Hf; destruct Hf]; reflexivity.
Qed.

Lemma part001_mtd_amounts_agree_with_the_dashboard_witness :
  map (fun c => revenueGrowth (Part001Data.fields
         (Part001Data.mtdEntry (Monthly_Transaction_Count scenario) (Monthly_Revenue scenario)
            (Monthly_Transaction_Volume scenario) [] ∅ c))) currencies
  = map (fun c => revenueGrowth (FinancialDashboard.mtdEntry scenario ∅ ∅ c)) currencies.
Proof.
  apply (part001_mtd_amounts_agree_with_the_dashboard scenario [] ∅ ∅ ∅ revenueGrowth).
  listed.
Defined.

(** ** The overall figures of [part_002] *)

(** X15. In [part_002] the total volume of the key metrics is the sum of
    the column [volumeKES] of the MTD table, added up in the order of the
    table, and the overall growth of the volume is the growth between the
    sums of its columns [volumeKES] and [previousVolumeKES]. *)
Theorem part002_total_volume_is_the_sum_of_the_table
    (Date_parse : string -> Dates.date) (LocalTZA : Z -> Z) (wb : workbook) (s : Part002.Snapshot) :
  Part002.loadData Date_parse LocalTZA wb = Return s ->
  Part002.totalVolumeKES (Part002.keyMetrics s) = sumOf volumeKES (Part002.mtdGrowth s)
  /\ Part002.overallVolumeGrowth (Part002.keyMetrics s)
     = calcGrowth (sumOf volumeKES (Part002.mtdGrowth s))
                  (sumOf previousVolumeKES (Part002.mtdGrowth s)).
Proof.
  unfold Part002.loadData.
  destruct (totalUsers (User_Statistics wb) (Wallet_Balances wb)) as [tu | err];
    cbn [mbind completion_bind mret completion_ret]; [| discriminate].
  intros [= <-].
  cbn [Part002.keyMetrics Part002.mtdGrowth Part002.totalVolumeKES Part002.overallVolumeGrowth].
  split; reflexivity.
Qed.

Lemma part002_total_volume_is_the_sum_of_the_table_witness :
  exists s, Part002.loadData Dates.parse_iso EAT scenario = Return s
    /\ Part002.totalVolumeKES (Part002.keyMetrics s) = sumOf volumeKES (Part002.mtdGrowth s).
Proof.
  eexists. split; [vm_compute; reflexivity |].
  eapply proj1.
  apply (part002_total_volume_is_the_sum_of_the_table Dates.parse_iso EAT scenario).
  vm_compute. reflexivity.
Defined.

(** ** Colours of the growth figures *)

(** X16. A growth computed by [calcGrowth] from a baseline that is not
    positive is never shown in the colour of a decline: it is shown as a
    rise when the current value is positive and as neutral otherwise. A
    missing growth is neutral. *)
Theorem growth_from_no_baseline_is_never_red (current previous : number) :
  gt previous 0 = false ->
  Colours.getGrowthColor (Some (calcGrowth current previous))
  = (if gt current 0 then Colours.positive Colours.COLORS else Colours.neutral Colours.COLORS)
  /\ Colours.getGrowthColor (Some (calcGrowth current previous))
     <> Colours.negative Colours.COLORS
  /\ Colours.getGrowthColor None = Colours.neutral Colours.COLORS.
Proof.
  intros Hp. unfold calcGrowth. rewrite Hp.
  destruct (gt current 0); repeat split; try reflexivity; vm_compute; discriminate.
Qed.

Lemma growth_from_no_baseline_is_never_red_witness :
  Colours.getGrowthColor (Some (calcGrowth 5 0)) = Colours.positive Colours.COLORS.
Proof.
  eapply eq_trans.
  - eapply proj1. apply (growth_from_no_baseline_is_never_red 5 0). vm_compute. reflexivity.
  - vm_compute. reflexivity.
Defined.

(** ** The thousands separator *)

Lemma remove_commas_add_commas_after (prev : bool) (s : string) :
  remove_commas (Format.add_commas_after prev s) = remove_commas s.
Proof.
  revert prev. induction s as [| a s IH]; intros prev; [reflexivity |].
  cbn [Format.add_commas_after].
  match goal with |- context [if ?c then _ else _] => destruct c end;
    cbn [remove_commas]; rewrite ?IH; reflexivity.
Qed.

Lemma digit_run_all_digits (s : string) :
  all_digits s = true -> Format.digit_run s = String.length s.
Proof.
  induction s as [| a s IH]; [reflexivity |].
  cbn [all_digits Format.digit_run String.length]. intros H.
  apply andb_true_iff in H. destruct H as [Ha Hs]. rewrite Ha, (IH Hs). reflexivity.
Qed.

Lemma is_word_digit (a : ascii) : Format.is_digit a = true -> Format.is_word a = true.
Proof. intros H. unfold Format.is_word. rewrite H. reflexivity. Qed.

Lemma thirds (n : nat) :
  ((if (0 <? S n)%nat && (S n mod 3 =? 0)%nat then 1 else 0) + n / 3 = S n / 3)%nat.
Proof.
  cbn [Nat.ltb Nat.leb andb].
  pose proof (Nat.div_mod_eq n 3) as H1. pose proof (Nat.div_mod_eq (S n) 3) as H2.
  pose proof (Nat.mod_upper_bound n 3). pose proof (Nat.mod_upper_bound (S n) 3).
  destruct (Nat.eqb_spec (S n mod 3) 0); lia.
Qed.

Lemma length_add_commas_after_digits (s : string) :
  all_digits s = true ->
  String.length (Format.add_commas_after true s)
  = (String.length s + String.length s / 3)%nat.
Proof.
  induction s as [| a s IH]; [reflexivity |].
  intros H. pose proof (digit_run_all_digits _ H) as Hrun.
  cbn [all_digits] in H. apply andb_true_iff in H. destruct H as [Ha Hs].
  cbn [Format.add_commas_after]. rewrite Hrun, (is_word_digit a Ha).
  cbn [String.length]. pose proof (thirds (String.length s)) as Ht.
  destruct (true && (0 <? S (String.length s))%nat && (S (String.length s) mod 3 =? 0)%nat)
    eqn:Hc; cbn [andb] in Hc; rewrite Hc in Ht;
    cbn [String.length]; rewrite (IH Hs); lia.
Qed.

(** X17. The separator that [formatNumber] writes and the pattern with
    which the loaders read grouped figures undo each other: removing the
    commas from a text to which the separators were added gives the text
    without its own commas, so a text without commas comes back as it
    was. In a text of decimal digits the separators are one for each full
    group of three digits after the first digit. *)
Theorem separators_are_undone_by_the_reader (s : string) :
  remove_commas (Format.add_commas s) = remove_commas s
  /\ (all_digits s = true -> s <> "" ->
      String.length (Format.add_commas s)
      = (String.length s + (String.length s - 1) / 3)%nat).
Proof.
  split; [apply remove_commas_add_commas_after |].
  intros H Hne. destruct s as [| a s]; [congruence |].
  cbn [all_digits] in H. apply andb_true_iff in H. destruct H as [Ha Hs].
  unfold Format.add_commas. cbn [Format.add_commas_after andb String.length].
  rewrite (is_word_digit a Ha), (length_add_commas_after_digits s Hs).
  replace (S (String.length s) - 1)%nat with (String.length s) by lia. lia.
Qed.

(** ** What the growth figures show *)

(** X18. A growth computed by [calcGrowth] from a baseline that is not
    positive is shown by [formatMultiplier] as "2.0x" when the current
    value is positive and as "1.0x" otherwise; [formatPercent] of
    [App.js] shows it as "100.0%" and "0.0%". *)
Theorem growth_from_no_baseline_is_shown_as_doubling (current previous : number) :
  gt previous 0 = false ->
  Format.formatMultiplier (Some (calcGrowth current previous))
  = Format.Text (if gt current 0 then "2.0x" else "1.0x")
  /\ Format.formatPercent (Some (calcGrowth current previous))
     = Format.Text (if gt current 0 then "100.0%" else "0.0%").
Proof.
  intros Hp. unfold calcGrowth. rewrite Hp.
  destruct (gt current 0); split; vm_compute; reflexivity.
Qed.

Lemma growth_from_no_baseline_is_shown_as_doubling_witness :
  Format.formatMultiplier (Some (calcGrowth 40 0)) = Format.Text "2.0x".
Proof.
  eapply eq_trans.
  - eapply proj1. apply (growth_from_no_baseline_is_shown_as_doubling 40 0).
    vm_compute. reflexivity.
  - vm_compute. reflexivity.
Defined.

Lemma counts_below_1000_checked :
  forallb (fun n =>
    bool_decide (Format.formatNumber (Some (of_nat n)) 0
                 = Format.Text (Format.decimal (Z.of_nat n)))
    && bool_decide (Format.formatNumber_v1 (Some (of_nat n)) 0
                    = Format.Text (Format.decimal (Z.of_nat n))))
    (seq 0 1000) = true.
Proof. vm_compute. reflexivity. Qed.

(** X19. A count below one thousand is shown by [formatNumber] as its
    decimal digits, without separator or suffix, in the revision that
    passes the number through [parseFloat] and in the one that does
    not. *)
Theorem counts_below_1000_are_shown_as_their_digits (n : nat) :
  (n < 1000)%nat ->
  Format.formatNumber (Some (of_nat n)) 0 = Format.Text (Format.decimal (Z.of_nat n))
  /\ Format.formatNumber_v1 (Some (of_nat n)) 0 = Format.Text (Format.decimal (Z.of_nat n)).
Proof.
  intros Hn. pose proof counts_below_1000_checked as Hall.
  rewrite forallb_forall in Hall. specialize (Hall n).
  assert (Hin : In n (seq 0 1000)) by (apply in_seq; lia).
  specialize (Hall Hin). apply andb_true_iff in Hall. destruct Hall as [H1 H2].
  apply bool_decide_eq_true in H1. apply bool_decide_eq_true in H2.
  split; assumption.
Qed.

Lemma counts_below_1000_are_shown_as_their_digits_witness :
  Format.formatNumber (Some (of_nat 27)) 0 = Format.Text "27".
Proof.
  eapply eq_trans.
  - eapply proj1. apply (counts_below_1000_are_shown_as_their_digits 27). lia.
  - vm_compute. reflexivity.
Defined.

(** X20. The headline card of the user growth in
    [FinancialDashboard.js] reads the second entry of the MTD table,
    which is the entry of UGX: whenever [loadData] returns, the card
    shows the multiplier of the growth between the number of wallets
    holding UGX in the previous window and in the current one, and never
    the text for a missing entry. *)
Theorem headline_user_growth_is_that_of_ugx
    (Date_parse : string -> Dates.date) (wb : workbook) (k : FinancialDashboard.Clock)
    (s : FinancialDashboard.Snapshot) :
  FinancialDashboard.loadData Date_parse wb k = Return s ->
  let holders startDate endDate :=
    of_nat (length (List.filter
                      (fun u => activeIn Date_parse startDate endDate u && holds u "UGX")
                      (Wallet_Balances wb))) in
  Format.userGrowthCard (FinancialDashboard.mtdGrowth s)
  = Format.formatMultiplier
      (Some (calcGrowth
               (holders (FinancialDashboard.startDateCurrent k)
                        (FinancialDashboard.endDateCurrent k))
               (holders (FinancialDashboard.startDatePrevious k)
                        (FinancialDashboard.endDatePrevious k)))).
Proof.
  unfold FinancialDashboard.loadData.
  destruct (totalUsers (User_Statistics wb) (Wallet_Balances wb)) as [tu | err];
    cbn [mbind completion_bind mret completion_ret]; [| discriminate].
  intros [= <-]. cbv zeta.
  cbn [FinancialDashboard.mtdGrowth].
  unfold Format.userGrowthCard, FinancialDashboard.mtdGrowthData, currencies.
  cbn [map lookup list_lookup].
  unfold FinancialDashboard.mtdEntry. cbv zeta. cbn [userGrowth].
  unfold FinancialDashboard.currentActiveByCurrency, FinancialDashboard.previousActiveByCurrency.
  rewrite !(Counter.count_spec Date_parse _ _ _ "UGX") by listed.
  reflexivity.
Qed.

Lemma headline_user_growth_is_that_of_ugx_witness :
  exists s, FinancialDashboard.loadData Dates.parse_iso scenario noon_feb27 = Return s
    /\ Format.userGrowthCard (FinancialDashboard.mtdGrowth s) = Format.Text "1.0x".
Proof.
  eexists. split; [vm_compute; reflexivity |].
  eapply eq_trans.
  - apply (headline_user_growth_is_that_of_ugx Dates.parse_iso scenario noon_feb27).
    vm_compute. reflexivity.
  - vm_compute. reflexivity.
Defined.

(** ** The series of the users *)

Lemma user_series_of_no_users (t : list TrendPoint) (p : GrowthPoint) :
  (forall q, q ∈ t -> users q = 0%float) ->
  p ∈ userSeries (transformRates (growthRatesOf t)) ->
  growth p = None /\ metric p = 0.1%float.
Proof.
  intros Hzero Hp.
  cbn [transformRates userSeries] in Hp. unfold transformGrowth in Hp.
  apply list_elem_of_fmap in Hp. destruct Hp as (g & -> & Hg).
  apply list_elem_of_lookup in Hg. destruct Hg as [i Hi].
  destruct (GrowthLoop.growthRatesOf_spec t) as (Hlen & _ & _ & Hpts).
  pose proof (lookup_lt_Some _ _ _ Hi) as Hlt. rewrite Hlen in Hlt.
  destruct (lookup_lt_is_Some_2 t i) as [prev Hprev]; [lia |].
  destruct (lookup_lt_is_Some_2 t (S i)) as [curr Hcurr]; [lia |].
  destruct (Hpts i prev curr Hprev Hcurr) as (Hu & _ & _).
  rewrite Hu in Hi. injection Hi as <-.
  cbn [growth metric userPoint].
  rewrite (Hzero prev) by (eapply list_elem_of_lookup_2; exact Hprev).
  rewrite (Hzero curr) by (eapply list_elem_of_lookup_2; exact Hcurr).
  split; reflexivity.
Qed.

Lemma floored_users_of_no_users (t : list TrendPoint) (p : TrendPoint) :
  (forall q, q ∈ t -> users q = 0%float) ->
  p ∈ transformTrends t -> users p = 0.1%float.
Proof.
  intros Hzero Hp. unfold transformTrends in Hp.
  apply list_elem_of_fmap in Hp. destruct Hp as (q & -> & Hq).
  cbn [users]. rewrite (Hzero q Hq). reflexivity.
Qed.

(** X21. [FinancialDashboard.js] and [part_002] give every trend point 0
    users, so whatever the sheets hold the snapshot carries no user
    growth at all: the growth of every point of the user series is
    [null], and the users of every point, in the user series and in the
    trend series, are the floor 0.1 of the charts. *)
Theorem user_growth_is_null_throughout
    (Date_parse : string -> Dates.date) (LocalTZA : Z -> Z) (wb : workbook)
    (k : FinancialDashboard.Clock)
    (s1 : FinancialDashboard.Snapshot) (s2 : Part002.Snapshot) :
  FinancialDashboard.loadData Date_parse wb k = Return s1 ->
  Part002.loadData Date_parse LocalTZA wb = Return s2 ->
  (forall p, p ∈ userSeries (FinancialDashboard.growthRates s1) ->
     growth p = None /\ metric p = 0.1%float)
  /\ (forall p, p ∈ FinancialDashboard.monthlyTrends s1 -> users p = 0.1%float)
  /\ (forall p, p ∈ userSeries (Part002.growthRates s2) ->
        growth p = None /\ metric p = 0.1%float)
  /\ (forall p, p ∈ Part002.monthlyTrends s2 -> users p = 0.1%float).
Proof.
  unfold FinancialDashboard.loadData, Part002.loadData.
  destruct (totalUsers (User_Statistics wb) (Wallet_Balances wb)) as [tu | err];
    cbn [mbind completion_bind mret completion_ret]; [| discriminate].
  intros [= <-] [= <-].
  cbn [FinancialDashboard.growthRates FinancialDashboard.monthlyTrends
       Part002.growthRates Part002.monthlyTrends].
  assert (H1 : forall q, q ∈ FinancialDashboard.monthlyTrendsRaw wb -> users q = 0%float).
  { intros q Hq. unfold FinancialDashboard.monthlyTrendsRaw in Hq.
    apply list_elem_of_fmap in Hq. destruct Hq as (item & -> & _). reflexivity. }
  assert (H2 : forall q, q ∈ Part002.monthlyTrendsRaw wb -> users q = 0%float).
  { intros q Hq. unfold Part002.monthlyTrendsRaw in Hq.
    apply list_elem_of_fmap in Hq. destruct Hq as (item & -> & _). reflexivity. }
  unfold FinancialDashboard.growthRatesRaw, Part002.growthRatesRaw.
  split; [intros p; apply user_series_of_no_users; exact H1 |].
  split; [intros p; apply floored_users_of_no_users; exact H1 |].
  split; [intros p; apply user_series_of_no_users; exact H2 |].
  intros p; apply floored_users_of_no_users; exact H2.
Qed.

Lemma user_growth_is_null_throughout_witness :
  exists s1 s2,
    FinancialDashboard.loadData Dates.parse_iso scenario noon_feb27 = Return s1
    /\ Part002.loadData Dates.parse_iso EAT scenario = Return s2
    /\ forall p, p ∈ userSeries (FinancialDashboard.growthRates s1) ->
         growth p = None /\ metric p = 0.1%float.
Proof.
  eexists. eexists. split; [vm_compute; reflexivity |]. split; [vm_compute; reflexivity |].
  eapply proj1.
  apply (user_growth_is_null_throughout Dates.parse_iso EAT scenario noon_feb27);
    vm_compute; reflexivity.
Defined.
